(** * CRM agent request router: a shallow embedding of [lambda_handler.py]

    The development follows [src/cloudformation/lambda_handler.py]:
    a Lambda entry point that parses an API Gateway event, builds a
    [CustomerService] (DynamoDB) and a [JiraInteraction] (issue tracker
    over HTTP, credentials from Secrets Manager) and dispatches on the
    request path.

    Python values are modelled by two inductive types ([json] for what
    the Lambda runtime and [json.loads] hand to the program, [pyval] for
    what the program hands to [json.dumps]); Python [str] is modelled by
    its UTF-8 encoding as a Rocq [string], a lone surrogate (which
    [json.loads] produces from an escape such as [\ud800]) being
    written as the three bytes its code point would take.  Effects are explicit: every
    method returns the trace of observable events (log lines, service
    calls) together with either a value or the exception it raised. *)

From stdpp Require Import base tactics option list strings gmap sorting pretty.
From Stdlib Require Import ZArith Lia Ascii.

Set Warnings "-register-all".
Local Open Scope Z_scope.

(** ** Exceptions and outcomes *)

Module Py.

(** Instances of [Exception].  The three classes the tracker client
    names in its [except] clauses are kept apart; every other class is
    [PyError cls msg] with [msg] the text of [str(e)].  The program
    tells exceptions apart by class only; the messages given to the
    exceptions of the builtins are indicative. *)
Inductive exn :=
| HTTPError (code : Z) (reason : string)
| URLError (reason : string)
| JSONDecodeError (msg : string)
| PyError (cls : string) (msg : string).

(** [str(e)] as used in the f-strings of the log lines. *)
Definition exn_str (e : exn) : string :=
  match e with
  | HTTPError code reason => "HTTP Error " +:+ pretty code +:+ ": " +:+ reason
  | URLError reason => "<urlopen error " +:+ reason +:+ ">"
  | JSONDecodeError msg => msg
  | PyError _ msg => msg
  end.

Inductive result (A : Type) :=
| Ok (a : A)
| Raise (e : exn).
Arguments Ok {A} a.
Arguments Raise {A} e.

Definition KeyError {A} (k : string) : result A :=
  Raise (PyError "KeyError" ("'" +:+ k +:+ "'")).
Definition TypeError {A} (msg : string) : result A :=
  Raise (PyError "TypeError" msg).
Definition AttributeError {A} (msg : string) : result A :=
  Raise (PyError "AttributeError" msg).
Definition ValueError {A} (msg : string) : result A :=
  Raise (PyError "ValueError" msg).
Definition OverflowError {A} (msg : string) : result A :=
  Raise (PyError "OverflowError" msg).

Definition is_ok {A} (r : result A) : bool :=
  match r with Ok _ => true | Raise _ => false end.

(** ** Values *)

(** A Python [float], known through the three observations the program
    can make of it: [int(f)] ([None] for nan and the infinities),
    [repr(f)], and whether it is zero. *)
Record pyfloat := {
  float_int : option Z;
  float_repr : string;
  float_nonzero : bool
}.

(** What the Lambda runtime and [json.loads] produce.  A [dict] keeps
    its insertion order; lookup takes the first binding of a key. *)
Inductive json :=
| JNull
| JBool (b : bool)
| JInt (n : Z)
| JFloat (f : pyfloat)
| JStr (s : string)
| JList (l : list json)
| JDict (d : list (string * json)).

(** What the handler puts in the response: JSON values, and the values
    boto3 deserialises DynamoDB attributes to that [json.dumps] has no
    encoding for ([Decimal] for numbers, [Binary], and sets). *)
Inductive pyval :=
| VNone
| VBool (b : bool)
| VInt (n : Z)
| VFloat (f : pyfloat)
| VStr (s : string)
| VList (l : list pyval)
| VDict (d : list (string * pyval))
| VDecimal (digits : string)
| VBinary (bytes : string)
| VSet (l : list pyval).

Fixpoint of_json (j : json) : pyval :=
  match j with
  | JNull => VNone
  | JBool b => VBool b
  | JInt n => VInt n
  | JFloat f => VFloat f
  | JStr s => VStr s
  | JList l => VList (map of_json l)
  | JDict d => VDict (map (λ kv, (kv.1, of_json kv.2)) d)
  end.

(** First binding of [k] in a dict. *)
Fixpoint assoc {A} (k : string) (d : list (string * A)) : option A :=
  match d with
  | [] => None
  | (k', v) :: d' => if String.eqb k k' then Some v else assoc k d'
  end.

(** ** Builtins on JSON values *)

Definition type_name (v : json) : string :=
  match v with
  | JNull => "NoneType"
  | JBool _ => "bool"
  | JInt _ => "int"
  | JFloat _ => "float"
  | JStr _ => "str"
  | JList _ => "list"
  | JDict _ => "dict"
  end.

(** [bool(v)]. *)
Definition truthy (v : json) : bool :=
  match v with
  | JNull => false
  | JBool b => b
  | JInt n => negb (n =? 0)
  | JFloat f => float_nonzero f
  | JStr s => negb (String.eqb s "")
  | JList l => match l with [] => false | _ => true end
  | JDict d => match d with [] => false | _ => true end
  end.

(** [v[k]] for a [str] key [k]. *)
Definition getitem (v : json) (k : string) : result json :=
  match v with
  | JDict d => match assoc k d with Some x => Ok x | None => KeyError k end
  | JList _ => TypeError "list indices must be integers or slices, not str"
  | JStr _ => TypeError "string indices must be integers, not 'str'"
  | _ => TypeError ("'" +:+ type_name v +:+ "' object is not subscriptable")
  end.

(** [v.get(k, None)]. *)
Definition dict_get (v : json) (k : string) : result json :=
  match v with
  | JDict d => Ok (default JNull (assoc k d))
  | _ => AttributeError
           ("'" +:+ type_name v +:+ "' object has no attribute 'get'")
  end.

(** [k in d] for a dict [d]. *)
Definition has_key (d : list (string * json)) (k : string) : bool :=
  bool_decide (is_Some (assoc k d)).

(** [v == s] for a [str] literal [s]. *)
Definition eq_str (v : json) (s : string) : bool :=
  match v with JStr s' => String.eqb s' s | _ => false end.

(** [for x in v]: the elements the loop body is run on. *)
Definition iter (v : json) : result (list json) :=
  match v with
  | JList l => Ok l
  | JDict d => Ok (map (λ kv, JStr kv.1) d)
  | JStr s => Ok (map (λ c, JStr (String c "")) (String.list_ascii_of_string s))
  | _ => TypeError ("'" +:+ type_name v +:+ "' object is not iterable")
  end.

(** *** Code points *)

Definition cont (c : ascii) : N := N.land (N_of_ascii c) 63.

(** The code points of a [str] held as UTF-8. *)
Fixpoint utf8_decode (s : string) : list N :=
  match s with
  | EmptyString => []
  | String c0 s1 =>
      let b0 := N_of_ascii c0 in
      if (b0 <? 192)%N then b0 :: utf8_decode s1
      else match s1 with
      | EmptyString => [b0]
      | String c1 s2 =>
          if (b0 <? 224)%N
          then (N.shiftl (N.land b0 31) 6 + cont c1)%N :: utf8_decode s2
          else match s2 with
          | EmptyString => [b0]
          | String c2 s3 =>
              if (b0 <? 240)%N
              then (N.shiftl (N.land b0 15) 12 + N.shiftl (cont c1) 6
                    + cont c2)%N :: utf8_decode s3
              else match s3 with
              | EmptyString => [b0]
              | String c3 s4 =>
                  (N.shiftl (N.land b0 7) 18 + N.shiftl (cont c1) 12
                   + N.shiftl (cont c2) 6 + cont c3)%N :: utf8_decode s4
              end
          end
      end
  end.

Definition is_ascii (s : string) : bool :=
  forallb (λ c, (N_of_ascii c <? 128)%N) (String.list_ascii_of_string s).

(** *** [int(v)] *)

(** [Py_ISSPACE]: the whitespace [PyLong_FromString] skips. *)
Definition is_space (c : ascii) : bool :=
  let n := N_of_ascii c in
  ((9 <=? n) && (n <=? 13) || (n =? 32))%N.

Definition is_digit (c : ascii) : bool :=
  let n := N_of_ascii c in ((48 <=? n) && (n <=? 57))%N.

Definition digit_val (c : ascii) : Z := Z.of_N (N_of_ascii c) - 48.

Fixpoint lstrip (s : string) : string :=
  match s with
  | String c s' => if is_space c then lstrip s' else s
  | EmptyString => s
  end.

(** [Py_UNICODE_ISSPACE] above U+007E. *)
Definition is_unicode_space (cp : N) : bool :=
  ((cp =? 133) || (cp =? 160) || (cp =? 5760)
   || (8192 <=? cp) && (cp <=? 8202)
   || (cp =? 8232) || (cp =? 8233) || (cp =? 8239) || (cp =? 8287)
   || (cp =? 12288))%N.

(** The digit zero of every script that has decimal digits; the nine
    code points after each are its digits 1 to 9 (Unicode 14.0, the
    database of CPython 3.11). *)
Definition decimal_zeros : list N :=
  [48; 1632; 1776; 1984; 2406; 2534; 2662; 2790; 2918; 3046; 3174; 3302;
   3430; 3558; 3664; 3792; 3872; 4160; 4240; 6112; 6160; 6470; 6608; 6784;
   6800; 6992; 7088; 7232; 7248; 42528; 43216; 43264; 43472; 43504; 43600;
   44016; 65296; 66720; 68912; 69734; 69872; 69942; 70096; 70384; 70736;
   70864; 71248; 71360; 71472; 71904; 72016; 72784; 73040; 73120; 92768;
   92864; 93008; 120782; 120792; 120802; 120812; 120822; 123200; 123632;
   125264; 130032]%N.

(** [Py_UNICODE_TODECIMAL]. *)
Definition unicode_decimal (cp : N) : option N :=
  (λ zero, (cp - zero)%N)
  <$> List.find (λ zero, (zero <=? cp) && (cp <? zero + 10))%N decimal_zeros.

(** [_PyUnicode_TransformDecimalAndSpaceToASCII] on a [str] that is not
    ASCII: whitespace becomes a space and a decimal digit its ASCII
    digit; the text is cut at the first character that is neither,
    a question mark in its place. *)
Fixpoint transform_decimal_and_space (cps : list N) : string :=
  match cps with
  | [] => EmptyString
  | cp :: rest =>
      if (cp <? 127)%N
      then String (ascii_of_N cp) (transform_decimal_and_space rest)
      else if is_unicode_space cp
      then String " " (transform_decimal_and_space rest)
      else match unicode_decimal cp with
           | Some d =>
               String (ascii_of_N (48 + d)) (transform_decimal_and_space rest)
           | None => "?"
           end
  end.

(** The scan of the digits in [PyLong_FromString]: digits and single
    underscores between them.  Gives the number of digits, their value
    and the text that follows; nothing for a doubled or a trailing
    underscore. *)
Fixpoint scan_digits (s : string) (prev_underscore : bool) (digits : nat)
    (acc : Z) : option (nat * Z * string) :=
  match s with
  | String c s' =>
      if is_digit c
      then scan_digits s' false (S digits) (10 * acc + digit_val c)
      else if Ascii.eqb c "_"
      then if prev_underscore then None else scan_digits s' true digits acc
      else if prev_underscore then None else Some (digits, acc, s)
  | EmptyString => if prev_underscore then None else Some (digits, acc, s)
  end.

(** [sys.get_int_max_str_digits()], the default of the runtime. *)
Definition int_max_str_digits : nat := 4300.

(** [int(s)] for a [str], as [PyLong_FromUnicodeObject] and
    [PyLong_FromString] read it in base 10: leading whitespace, an
    optional sign, the digits, trailing whitespace.  The limit on the
    number of digits is checked on the digits scanned, before what
    follows them is looked at. *)
Definition int_of_str (s : string) : result Z :=
  let invalid :=
    ValueError ("invalid literal for int() with base 10: '" +:+ s +:+ "'") in
  let a :=
    lstrip (if is_ascii s then s
            else transform_decimal_and_space (utf8_decode s)) in
  let '(sign, body) :=
    match a with
    | String "-" body => (-1, body)
    | String "+" body => (1, body)
    | _ => (1, a)
    end in
  match body with
  | String "_" _ => invalid
  | _ =>
      match scan_digits body false 0 0 with
      | None => invalid
      | Some (digits, n, rest) =>
          if bool_decide (int_max_str_digits < digits)%nat
          then ValueError
                 ("Exceeds the limit (4300 digits) for integer string conversion: value has "
                  +:+ pretty (Z.of_nat digits)
                  +:+ " digits; use sys.set_int_max_str_digits() to increase the limit")
          else if bool_decide (digits = 0%nat) then invalid
          else match lstrip rest with
               | EmptyString => Ok (sign * n)
               | _ => invalid
               end
      end
  end.

Definition int (v : json) : result Z :=
  match v with
  | JInt n => Ok n
  | JBool b => Ok (if b then 1 else 0)
  | JFloat f =>
      match float_int f with
      | Some n => Ok n
      | None =>
          if String.eqb (float_repr f) "nan"
          then ValueError "cannot convert float NaN to integer"
          else OverflowError "cannot convert float infinity to integer"
      end
  | JStr s => int_of_str s
  | _ => TypeError
           ("int() argument must be a string, a bytes-like object or a real number, not '"
            +:+ type_name v +:+ "'")
  end.

End Py.

(** ** Text encodings of the standard library *)

Module Codec.
Import Py.

Definition chr (n : N) : ascii := ascii_of_N n.
Definition dquote : string := String (chr 34) "".
Definition backslash : string := String (chr 92) "".

Definition hex_lower (n : N) : ascii :=
  if (n <? 10)%N then chr (48 + n) else chr (87 + n).
Definition hex_upper (n : N) : ascii :=
  if (n <? 10)%N then chr (48 + n) else chr (55 + n).

(** *** [str.encode("utf-8")] *)

(** The text holds a lone surrogate: the lead byte [ED] followed by a
    byte from [A0] to [BF]. *)
Fixpoint has_surrogate (s : string) : bool :=
  match s with
  | EmptyString => false
  | String c s' =>
      (N_of_ascii c =? 237)%N
      && match s' with
         | String d _ => ((160 <=? N_of_ascii d) && (N_of_ascii d <=? 191))%N
         | EmptyString => false
         end
      || has_surrogate s'
  end.

(** The strict error handler refuses surrogates; the message names the
    character and its position, which are left out here. *)
Definition str_encode (s : string) : result string :=
  if has_surrogate s
  then Raise (PyError "UnicodeEncodeError"
                "'utf-8' codec can't encode character: surrogates not allowed")
  else Ok s.

(** *** [json.dumps] (default options: [ensure_ascii], separators
    [", "] and [": "]) *)

Definition u_escape (n : N) : string :=
  backslash +:+ "u" +:+
  String (hex_lower (N.land (N.shiftr n 12) 15))
    (String (hex_lower (N.land (N.shiftr n 8) 15))
       (String (hex_lower (N.land (N.shiftr n 4) 15))
          (String (hex_lower (N.land n 15)) ""))).

Definition escape_char (cp : N) : string :=
  if (cp =? 34)%N then backslash +:+ dquote
  else if (cp =? 92)%N then backslash +:+ backslash
  else if (cp =? 10)%N then backslash +:+ "n"
  else if (cp =? 13)%N then backslash +:+ "r"
  else if (cp =? 9)%N then backslash +:+ "t"
  else if (cp =? 8)%N then backslash +:+ "b"
  else if (cp =? 12)%N then backslash +:+ "f"
  else if ((32 <=? cp) && (cp <=? 126))%N then String (chr cp) ""
  else if (cp <? 65536)%N then u_escape cp
  else let v := (cp - 65536)%N in
       u_escape (55296 + N.shiftr v 10) +:+ u_escape (56320 + N.land v 1023).

Definition encode_str (s : string) : string :=
  dquote +:+ String.concat "" (map escape_char (utf8_decode s)) +:+ dquote.

Definition encode_float (f : pyfloat) : string :=
  let r := float_repr f in
  if String.eqb r "nan" then "NaN"
  else if String.eqb r "inf" then "Infinity"
  else if String.eqb r "-inf" then "-Infinity"
  else r.

Definition not_serializable {A} (cls : string) : result A :=
  TypeError ("Object of type " +:+ cls +:+ " is not JSON serializable").

(** The results of a list of encodings, up to the first that raises. *)
Fixpoint sequence {A} (l : list (result A)) : result (list A) :=
  match l with
  | [] => Ok []
  | Raise e :: _ => Raise e
  | Ok a :: l' =>
      match sequence l' with
      | Raise e => Raise e
      | Ok r => Ok (a :: r)
      end
  end.

Fixpoint json_dumps (v : pyval) : result string :=
  match v with
  | VNone => Ok "null"
  | VBool b => Ok (if b then "true" else "false")
  | VInt n => Ok (pretty n)
  | VFloat f => Ok (encode_float f)
  | VStr s => Ok (encode_str s)
  | VList l =>
      match sequence (map json_dumps l) with
      | Raise e => Raise e
      | Ok ts => Ok ("[" +:+ String.concat ", " ts +:+ "]")
      end
  | VDict d =>
      match sequence
              (map (λ kv, match json_dumps kv.2 with
                          | Raise e => Raise e
                          | Ok t => Ok (encode_str kv.1 +:+ ": " +:+ t)
                          end) d) with
      | Raise e => Raise e
      | Ok ts => Ok ("{" +:+ String.concat ", " ts +:+ "}")
      end
  | VDecimal _ => not_serializable "Decimal"
  | VBinary _ => not_serializable "Binary"
  | VSet _ => not_serializable "set"
  end.

(** *** [urllib.parse.urlencode] of a one-entry dict *)

Definition is_unreserved (c : ascii) : bool :=
  let n := N_of_ascii c in
  ((48 <=? n) && (n <=? 57) || (65 <=? n) && (n <=? 90)
   || (97 <=? n) && (n <=? 122)
   || (n =? 95) || (n =? 46) || (n =? 45) || (n =? 126))%N.

Definition quote_byte (c : ascii) : string :=
  if is_unreserved c then String c ""
  else if Ascii.eqb c " " then "+"
  else let n := N_of_ascii c in
       String "%" (String (hex_upper (N.shiftr n 4))
                     (String (hex_upper (N.land n 15)) "")).

(** [quote_from_bytes] with no safe character besides the unreserved
    ones, a space written as a plus sign. *)
Fixpoint quote_bytes (b : string) : string :=
  match b with
  | EmptyString => ""
  | String c b' => quote_byte c +:+ quote_bytes b'
  end.

(** [quote_plus(s)] for a [str]: the text is encoded before its bytes
    are quoted. *)
Definition quote_plus (s : string) : result string :=
  match str_encode s with
  | Raise e => Raise e
  | Ok b => Ok (quote_bytes b)
  end.

Definition urlencode (k v : string) : result string :=
  match quote_plus k with
  | Raise e => Raise e
  | Ok k' =>
      match quote_plus v with
      | Raise e => Raise e
      | Ok v' => Ok (k' +:+ "=" +:+ v')
      end
  end.

(** *** [base64.b64encode] *)

Definition b64_char (n : N) : ascii :=
  if (n <? 26)%N then chr (65 + n)
  else if (n <? 52)%N then chr (71 + n)
  else if (n <? 62)%N then chr (n - 4)
  else if (n =? 62)%N then "+"%char else "/"%char.

Fixpoint b64encode (s : string) : string :=
  match s with
  | EmptyString => ""
  | String c0 EmptyString =>
      let a := N_of_ascii c0 in
      String (b64_char (N.shiftr a 2))
        (String (b64_char (N.shiftl (N.land a 3) 4)) "==")
  | String c0 (String c1 EmptyString) =>
      let a := N_of_ascii c0 in
      let b := N_of_ascii c1 in
      String (b64_char (N.shiftr a 2))
        (String (b64_char (N.shiftl (N.land a 3) 4 + N.shiftr b 4))
           (String (b64_char (N.shiftl (N.land b 15) 2)) "="))
  | String c0 (String c1 (String c2 s')) =>
      let a := N_of_ascii c0 in
      let b := N_of_ascii c1 in
      let c := N_of_ascii c2 in
      String (b64_char (N.shiftr a 2))
        (String (b64_char (N.shiftl (N.land a 3) 4 + N.shiftr b 4))
           (String (b64_char (N.shiftl (N.land b 15) 2 + N.shiftr c 6))
              (String (b64_char (N.land c 63)) (b64encode s'))))
  end.

End Codec.

(** ** [datetime]: the part [update_jira_issue] uses *)

Module Datetime.
Import Py.

(** A [datetime]: the proleptic Gregorian ordinal of its date (day 1 is
    0001-01-01) and the time of day in microseconds. *)
Record datetime := {
  toordinal : Z;
  time_of_day : Z
}.

(** A [timedelta], normalised as the library keeps it. *)
Record timedelta := {
  days : Z;
  seconds : Z;
  microseconds : Z
}.

Definition MAXORDINAL : Z := 3652059.
Definition DI400Y : Z := 146097.
Definition DI100Y : Z := 36524.
Definition DI4Y : Z := 1461.

(** [timedelta(weeks=w)] for an [int] [w]. *)
Definition timedelta_weeks (w : Z) : result timedelta :=
  let d := 7 * w in
  if Z.abs d >? 999999999
  then OverflowError
         ("days=" +:+ pretty d +:+ "; must have magnitude <= 999999999")
  else Ok {| days := d; seconds := 0; microseconds := 0 |}.

(** [dt + delta] for a delta of whole days. *)
Definition datetime_add (dt : datetime) (delta : timedelta)
  : result datetime :=
  let d := toordinal dt + days delta in
  if (0 <? d) && (d <=? MAXORDINAL)
  then Ok {| toordinal := d; time_of_day := time_of_day dt |}
  else OverflowError "date value out of range".

Definition days_before_month (leap : bool) (m : Z) : Z :=
  let feb := if leap then 1 else 0 in
  match m with
  | 1 => 0 | 2 => 31 | 3 => 59 + feb | 4 => 90 + feb | 5 => 120 + feb
  | 6 => 151 + feb | 7 => 181 + feb | 8 => 212 + feb | 9 => 243 + feb
  | 10 => 273 + feb | 11 => 304 + feb | _ => 334 + feb
  end.

Definition is_leap (y : Z) : bool :=
  (y mod 4 =? 0) && (negb (y mod 100 =? 0) || (y mod 400 =? 0)).

(** [_ord2ymd]: ordinal to (year, month, day). *)
Definition ord2ymd (n : Z) : Z * Z * Z :=
  let n := n - 1 in
  let n400 := n / DI400Y in
  let n := n mod DI400Y in
  let n100 := n / DI100Y in
  let n := n mod DI100Y in
  let n4 := n / DI4Y in
  let n := n mod DI4Y in
  let n1 := n / 365 in
  let n := n mod 365 in
  let year := n400 * 400 + 1 + n100 * 100 + n4 * 4 + n1 in
  if (n1 =? 4) || (n100 =? 4) then (year - 1, 12, 31)
  else
    let leapyear := (n1 =? 3) && (negb (n4 =? 24) || (n100 =? 3)) in
    let month := Z.shiftr (n + 50) 5 in
    let preceding := days_before_month leapyear month in
    if preceding >? n
    then let month := month - 1 in
         (year, month, n - days_before_month leapyear month + 1)
    else (year, month, n - preceding + 1).

(** [_ymd2ord]: (year, month, day) to ordinal. *)
Definition ymd2ord (y m d : Z) : Z :=
  let y1 := y - 1 in
  y1 * 365 + y1 / 4 - y1 / 100 + y1 / 400
  + days_before_month (is_leap y) m + d.

Definition digit (n : Z) : ascii := ascii_of_N (48 + Z.to_N (n mod 10)).

Definition pad2 (n : Z) : string :=
  String (digit (n / 10)) (String (digit n) "").
Definition pad4 (n : Z) : string :=
  String (digit (n / 1000)) (String (digit (n / 100)) (pad2 n)).

(** [%Y] of the C library: the year in decimal, which some libraries
    pad with zeros to four digits (the BSD and Windows ones) and others
    do not (glibc). *)
Definition year_text (pads_year : bool) (y : Z) : string :=
  if pads_year then pad4 y else pretty y.

(** [dt.strftime("%Y-%m-%d")]. *)
Definition strftime_Ymd (pads_year : bool) (dt : datetime) : string :=
  let '(y, m, d) := ord2ymd (toordinal dt) in
  year_text pads_year y +:+ "-" +:+ pad2 m +:+ "-" +:+ pad2 d.

End Datetime.

(** ** Effects: traces, exceptions, and the services the handler calls *)

Module Eff.
Import Py.

Inductive level := INFO | ERROR.

Record http_request := {
  req_method : string;
  req_url : string;
  req_headers : list (string * string);
  req_data : option string
}.

(** How an HTTP exchange fails: the two classes of [urllib.error], or
    any other exception of the transport ([ValueError] for a malformed
    URL, [UnicodeDecodeError] for the body, socket errors, ...).
    [json.JSONDecodeError] is raised by the [json] module only. *)
Inductive http_error :=
| HttpStatus (code : Z) (reason : string)
| UrlFailure (reason : string)
| TransportError (cls : string) (msg : string).

Definition exn_of_http_error (e : http_error) : exn :=
  match e with
  | HttpStatus code reason => HTTPError code reason
  | UrlFailure reason => URLError reason
  | TransportError cls msg => PyError cls msg
  end.

(** A call to a DynamoDB table: the [Key] or key condition value is the
    [customer_id] exactly as the handler read it from the request. *)
Inductive db_call :=
| GetItem (table : string) (customer_id : json) (ProjectionExpression : string)
| Query (table : string) (customer_id : json) (Limit : Z).

(** What an invocation does that the outside can see, in order. *)
Inductive event :=
| Log (lvl : level) (msg : string)
| LogObject (lvl : level) (obj : pyval)
| GetSecretValue (SecretId : string)
| Dynamo (call : db_call)
| Urlopen (req : http_request).

(** A computation: the events it emitted, then its value or the
    exception it raised. *)
Definition M (A : Type) : Type := list event * result A.

Definition ret {A} (a : A) : M A := ([], Ok a).
Definition raise {A} (e : exn) : M A := ([], Raise e).
Definition emit (ev : event) : M unit := ([ev], Ok tt).
Definition lift {A} (r : result A) : M A := ([], r).

Definition bind {A B} (m : M A) (k : A → M B) : M B :=
  match m with
  | (t, Ok a) => let '(t', r) := k a in (t ++ t', r)
  | (t, Raise e) => (t, Raise e)
  end.

(** [try: body  except Exception as e: handler e]. *)
Definition try_except {A} (body : M A) (handler : exn → M A) : M A :=
  match body with
  | (t, Raise e) => let '(t', r) := handler e in (t ++ t', r)
  | done => done
  end.

Definition trace {A} (m : M A) : list event := m.1.
Definition outcome {A} (m : M A) : result A := m.2.

End Eff.

Notation "'let!' x ':=' m 'in' k" := (Eff.bind m (λ x, k))
  (at level 10, x name, m at level 100, k at level 200, only parsing).
Notation "'do!' m 'in' k" := (Eff.bind m (λ _, k))
  (at level 10, m at level 100, k at level 200, only parsing).

(** ** The environment of an invocation *)

Module World.
Import Py Eff.

(** The response of [get_secret_value]: the program reads its
    ['SecretString'] entry only, which a binary secret does not have. *)
Record secret_response := {
  SecretString : option string
}.

(** A DynamoDB item: attribute name to deserialised value. *)
Definition item : Type := list (string * pyval).

(** Modelled from the spec: the table declarations are in the deployment
    template, which is not part of the sources.  Following the data
    model of the spec, a customer record is identified by its
    [customer_id] and an interaction by the pair ([customer_id],
    [date]), [date] being the sort key; each map sends a key to the
    remaining attributes of the item.  [failure] tells for which calls
    the service answers with an error (validation, throttling,
    unreachable endpoint) instead of a result.  [page_items] is the
    number of items a [Query] reads before its page reaches the size
    bound of the service (1 MB); the program reads one page.
    [document_paths] is what a projection expression keeps of an item
    when the expression is more than a list of plain attribute names
    (paths into maps and lists, blanks). *)
Record DynamoDB := {
  failure : db_call → option exn;
  customers : gmap string item;
  interactions : gmap (string * string) item;
  page_items : db_call → nat;
  document_paths : string → item → item
}.

Record Env := {
  (** Secrets Manager: [get_secret_value(SecretId=name)]. *)
  secrets : string → result secret_response;
  dynamodb : DynamoDB;
  (** [urllib.request]: building the [Request], [urlopen], reading the
      body and decoding it as UTF-8; any step may fail. *)
  urlopen : http_request → http_error + string;
  (** [json.loads] on a [str]. *)
  json_loads : string → result json;
  (** [datetime.datetime.now()]. *)
  now : Datetime.datetime;
  (** Whether [strftime("%Y")] of the platform pads the year to four
      digits. *)
  strftime_pads_year : bool;
  (** [repr] of a [list] or [dict], as [str.format] shows it. *)
  repr : json → string
}.

End World.

(** ** The program *)

Module LambdaHandler.
Import Py Codec Datetime Eff World.

Definition customer_table_name : string := "CUSTOMER_TABLE".
Definition interaction_table_name : string := "INTERACTION_TABLE".

(** [f"{o}"] for an attribute that is a [str] or [None]. *)
Definition format_opt (o : option string) : string := default "None" o.

Definition str_join (sep : string) (l : list string) : string :=
  String.concat sep l.

(** [s.split(",")]. *)
Fixpoint split_commas_go (s cur : string) : list string :=
  match s with
  | EmptyString => [String.rev cur]
  | String c s' =>
      if Ascii.eqb c ","
      then String.rev cur :: split_commas_go s' ""
      else split_commas_go s' (String c cur)
  end.
Definition split_commas (s : string) : list string := split_commas_go s "".

Fixpoint prefixb (p s : string) : bool :=
  match p, s with
  | EmptyString, _ => true
  | String a p', String b s' => Ascii.eqb a b && prefixb p' s'
  | _, _ => false
  end.
Fixpoint substringb (p s : string) : bool :=
  prefixb p s || match s with String _ s' => substringb p s' | _ => false end.

(** [k in v] for a [str] [k]. *)
Definition contains (v : json) (k : string) : result bool :=
  match v with
  | JDict d => Ok (has_key d k)
  | JList l => Ok (existsb (λ x, eq_str x k) l)
  | JStr s => Ok (substringb k s)
  | _ => TypeError ("argument of type '" +:+ type_name v +:+ "' is not iterable")
  end.

(** The attributes a projection keeps, in the order it names them. *)
Definition project (names : list string) (full : item) : item :=
  omap (λ n, (λ v, (n, v)) <$> assoc n full) names.

Definition is_letter (c : ascii) : bool :=
  let n := N_of_ascii c in
  ((65 <=? n) && (n <=? 90) || (97 <=? n) && (n <=? 122))%N.

(** An attribute name an expression can hold as it is: a letter, then
    letters and digits. *)
Definition plain_name (s : string) : bool :=
  match s with
  | EmptyString => false
  | String c s' =>
      is_letter c
      && forallb (λ c, is_letter c || is_digit c)
           (String.list_ascii_of_string s')
  end.

Section program.
Context (E : Env).

(** [f"{v}"]. *)
Definition format (v : json) : string :=
  match v with
  | JStr s => s
  | JNull => "None"
  | JBool b => if b then "True" else "False"
  | JInt n => pretty n
  | JFloat f => float_repr f
  | _ => repr E v
  end.

(** *** The service clients *)

(** What botocore raises for a [SecretId] that is not a [str]. *)
Definition param_validation_error : exn :=
  PyError "ParamValidationError"
    "Invalid type for parameter SecretId, value: None".

(** [client.get_secret_value(SecretId=...)]; the client validates the
    parameter before calling the service. *)
Definition get_secret_value (SecretId : option string) : M secret_response :=
  match SecretId with
  | Some name => do! emit (GetSecretValue name) in lift (secrets E name)
  | None => raise param_validation_error
  end.

(** What a projection expression keeps of an item: the attributes it
    names when it is a list of plain names separated by commas, and
    what the service makes of its paths otherwise. *)
Definition projection (ProjectionExpression : string) (full : item) : item :=
  let names := split_commas ProjectionExpression in
  if forallb plain_name names then project names full
  else document_paths (dynamodb E) ProjectionExpression full.

(** [self.customer_table.get_item(Key={"customer_id": customer_id},
    ProjectionExpression=...)]: the ["Item"] entry of the response, if
    the response has one.  The item of a record is what the projection
    keeps of it, possibly nothing; a key that is not a string matches no
    record, when the service accepts it at all. *)
Definition get_item (table : string) (customer_id : json)
    (ProjectionExpression : string) : M (option item) :=
  let call := GetItem table customer_id ProjectionExpression in
  do! emit (Dynamo call) in
  match failure (dynamodb E) call with
  | Some e => raise e
  | None =>
      ret (match customer_id with
           | JStr cid =>
               (λ attrs, projection ProjectionExpression
                           (("customer_id", VStr cid) :: attrs))
               <$> customers (dynamodb E) !! cid
           | _ => None
           end)
  end.

(** What botocore raises for a [Limit] below 1. *)
Definition limit_validation_error : exn :=
  PyError "ParamValidationError"
    "Invalid value for parameter Limit, valid min value: 1".

(** Interactions of one customer, latest [date] first. *)
Definition newer_first (x y : string * string * item) : Prop :=
  String.le y.1.2 x.1.2.

#[global] Instance newer_first_dec : RelDecision newer_first.
Proof. intros x y. unfold newer_first. apply _. Defined.

Definition partition (cid : string) : list (string * string * item) :=
  filter (λ r, r.1.1 = cid) (map_to_list (interactions (dynamodb E))).

(** [self.interactions_table.query(ScanIndexForward=False, Limit=count,
    KeyConditionExpression=Key("customer_id").eq(customer_id),
    ProjectionExpression="#interaction_date,notes",
    ExpressionAttributeNames={"#interaction_date": "date"})]: the
    ["Items"] of the response, which is one page: the service stops
    reading at [Limit] items or when the page is full, whichever comes
    first.  The client rejects a [Limit] below 1 before it calls the
    service. *)
Definition query (table : string) (customer_id : json) (Limit : Z)
  : M (list item) :=
  let call := Query table customer_id Limit in
  if Limit <? 1 then raise limit_validation_error else
  do! emit (Dynamo call) in
  match failure (dynamodb E) call with
  | Some e => raise e
  | None =>
      ret (match customer_id with
           | JStr cid =>
               map (λ r, project ["date"; "notes"]
                           (("customer_id", VStr r.1.1)
                            :: ("date", VStr r.1.2) :: r.2))
                 (take (Z.to_nat Limit `min` page_items (dynamodb E) call)
                    (merge_sort newer_first (partition cid)))
           | _ => []
           end)
  end.

(** *** [class CustomerService] *)

Record CustomerService := {
  customer_table : string;
  interactions_table : string
}.

Definition CustomerService_init (customer_table_name interaction_table_name : string)
  : CustomerService :=
  {| customer_table := customer_table_name;
     interactions_table := interaction_table_name |}.

Definition log_and_reraise {A} (what : string) (e : exn) : M A :=
  do! emit (Log ERROR (what +:+ exn_str e)) in raise e.

Definition get_recent_customer_interactions (self : CustomerService)
    (customer_id : json) (count : Z) : M (list item) :=
  try_except
    (query (interactions_table self) customer_id count)
    (log_and_reraise "Error getting recent customer interactions: ").

Definition get_customer_details (self : CustomerService)
    (customer_id : json) (args : list string) : M (option item) :=
  try_except
    (get_item (customer_table self) customer_id (str_join "," args))
    (log_and_reraise "Error getting customer details: ").

Definition get_customer_overview (self : CustomerService)
    (customer_id : json) : M pyval :=
  try_except
    (let! response := get_customer_details self customer_id ["overview"] in
     match response with
     | Some ((_ :: _) as it) =>
         match assoc "overview" it with
         | Some v => ret v
         | None => lift (KeyError "overview")
         end
     | _ => ret (VDict [])
     end)
    (log_and_reraise "Error getting customer overview: ").

Definition get_customer_preferences (self : CustomerService)
    (customer_id : json) : M (option item) :=
  try_except
    (get_customer_details self customer_id
       ["meetingType"; "timeofDay"; "dayOfWeek"])
    (log_and_reraise "Error getting customer preferences: ").

(** *** [get_secret] and [class JiraInteraction] *)

(** Returns the ['SecretString'] of the response, and [None] when the
    response has none (the function then falls off its end). *)
Definition get_secret (secret_name : string) : M (option string) :=
  let! get_secret_value_response :=
    try_except (get_secret_value (Some secret_name)) (λ e, raise e) in
  ret (SecretString get_secret_value_response).

Record JiraInteraction := {
  jira_url : option string;
  jira_api_key_arn : option string;
  jira_username : option string;
  credentials : string;
  headers : list (string * string)
}.

(** Reads [self.jira_api_key_arn], the one attribute it needs. *)
Definition get_jira_api_key (jira_api_key_arn : option string) : M string :=
  try_except
    (let! secret := get_secret_value jira_api_key_arn in
     match SecretString secret with
     | Some s => ret s
     | None => lift (KeyError "SecretString")
     end)
    (log_and_reraise "Error retrieving Jira API key: ").

Definition JiraInteraction_init : M JiraInteraction :=
  let! jira_url := get_secret "JIRA_URL" in
  let! jira_api_key_arn := get_secret "JIRA_API_KEY_ARN" in
  let! jira_username := get_secret "JIRA_USER_NAME" in
  let! api_key := get_jira_api_key jira_api_key_arn in
  let credentials :=
    b64encode (format_opt jira_username +:+ ":" +:+ api_key) in
  ret {| jira_url := jira_url;
         jira_api_key_arn := jira_api_key_arn;
         jira_username := jira_username;
         credentials := credentials;
         headers := [("Accept", "application/json");
                     ("Content-Type", "application/json");
                     ("Authorization", "Basic " +:+ credentials)] |}.

(** The HTTP exchange of a [try] body: [Request(...)], [urlopen],
    [read().decode("utf-8")]. *)
Definition http_exchange (req : http_request) : M string :=
  do! emit (Urlopen req) in
  match urlopen E req with
  | inr text => ret text
  | inl e => raise (exn_of_http_error e)
  end.

(** The [except] clauses shared by the two tracker operations.
    [raw] is the variable the [JSONDecodeError] clause formats; it is
    unbound until the response body has been read. *)
Definition swallow {A} (http_msg url_msg decode_msg : string)
    (raw : option string) (empty : A) (e : exn) : M A :=
  match e with
  | HTTPError code reason =>
      do! emit (Log INFO (http_msg +:+ pretty code +:+ " " +:+ reason)) in
      ret empty
  | URLError reason =>
      do! emit (Log INFO (url_msg +:+ reason)) in ret empty
  | JSONDecodeError _ =>
      match raw with
      | Some text => do! emit (Log INFO (decode_msg +:+ text)) in ret empty
      | None =>
          raise (PyError "UnboundLocalError"
                   "cannot access local variable where it is not associated with a value")
      end
  | PyError _ _ =>
      do! emit (Log INFO "Invalid Jira Configuration") in ret empty
  end.

(** The JQL text of the open-issues search. *)
Definition jql (project_id : json) : string :=
  "project=" +:+ format project_id +:+
  " AND issuetype=Task AND status='In Progress' OR status='To Do' order by duedate".

(** One iteration of the loop over [response_json["issues"]]. *)
Definition task_of_issue (issue : json) : result item :=
  match getitem issue "key" with Raise e => Raise e | Ok key =>
  match getitem issue "fields" with Raise e => Raise e | Ok fields =>
  match getitem fields "summary" with Raise e => Raise e | Ok summary =>
  match getitem fields "status" with Raise e => Raise e | Ok status =>
  match getitem status "name" with Raise e => Raise e | Ok status_name =>
  match getitem fields "project" with Raise e => Raise e | Ok proj =>
  match getitem proj "name" with Raise e => Raise e | Ok project_name =>
  match getitem fields "duedate" with Raise e => Raise e | Ok duedate =>
  match getitem fields "assignee" with Raise e => Raise e | Ok assignee =>
  match (if truthy assignee
         then getitem assignee "displayName"
         else Ok (JStr "None")) with Raise e => Raise e | Ok who =>
  Ok [("issueKey", of_json key);
      ("summary", of_json summary);
      ("status", of_json status_name);
      ("project", of_json project_name);
      ("duedate", of_json duedate);
      ("assignee", of_json who)]
  end end end end end end end end end end.

Fixpoint open_tasks_loop (issues : list json) : result (list item) :=
  match issues with
  | [] => Ok []
  | issue :: rest =>
      match task_of_issue issue with
      | Raise e => Raise e
      | Ok task =>
          match open_tasks_loop rest with
          | Raise e => Raise e
          | Ok tasks => Ok (task :: tasks)
          end
      end
  end.

(** [for issue in response_json["issues"]: ...; return open_tasks]. *)
Definition open_tasks_of (response_json : json) : result (list item) :=
  match getitem response_json "issues" with
  | Raise e => Raise e
  | Ok issues =>
      match iter issues with
      | Raise e => Raise e
      | Ok issues => open_tasks_loop issues
      end
  end.

(** The request of the search.  Its URL is put together before the
    [try]: [urlencode] raises on a text it cannot encode. *)
Definition search_request (self : JiraInteraction) (project_id : json)
  : result http_request :=
  let search_url := format_opt (jira_url self) +:+ "/search" in
  match urlencode "jql" (jql project_id) with
  | Raise e => Raise e
  | Ok query_params =>
      Ok {| req_method := "GET";
            req_url := search_url +:+ "?" +:+ query_params;
            req_headers := headers self;
            req_data := None |}
  end.

Definition get_open_jira_issues (self : JiraInteraction) (project_id : json)
  : M (list item) :=
  let! req := lift (search_request self project_id) in
  try_except
    (let! response_data := http_exchange req in
     try_except
       (let! response_json := lift (json_loads E response_data) in
        lift (open_tasks_of response_json))
       (swallow "Failed to get issues. HTTPError: "
                "Failed to get issues. URLError: "
                "Failed to decode response as JSON: "
                (Some response_data) []))
    (swallow "Failed to get issues. HTTPError: "
             "Failed to get issues. URLError: "
             "Failed to decode response as JSON: "
             None []).

Definition update_request (self : JiraInteraction) (issue_key : json)
    (update_payload : string) : http_request :=
  {| req_method := "PUT";
     req_url := format_opt (jira_url self) +:+ "/issue/" +:+ format issue_key;
     req_headers := headers self;
     req_data := Some update_payload |}.

(** [(datetime.datetime.now() + datetime.timedelta(weeks=w))
    .strftime("%Y-%m-%d")]. *)
Definition due_date_after (timeline_in_weeks : Z) : result string :=
  match timedelta_weeks timeline_in_weeks with
  | Raise e => Raise e
  | Ok delta =>
      match datetime_add (now E) delta with
      | Raise e => Raise e
      | Ok dt => Ok (strftime_Ymd (strftime_pads_year E) dt)
      end
  end.

Definition update_jira_issue (self : JiraInteraction) (issue_key : json)
    (timeline_in_weeks : Z) : M item :=
  let! due_date := lift (due_date_after timeline_in_weeks) in
  let! update_payload :=
    lift (json_dumps (VDict [("fields", VDict [("duedate", VStr due_date)])])) in
  let update_req := update_request self issue_key update_payload in
  try_except
    (let! update_data := http_exchange update_req in
     ret [("issueKey", of_json issue_key);
          ("newTimeline", VInt timeline_in_weeks)])
    (swallow ("Failed to update task " +:+ format issue_key +:+ ". HTTPError: ")
             ("Failed to update task " +:+ format issue_key +:+ ". URLError: ")
             ("Failed to decode response for task " +:+ format issue_key +:+ ": ")
             None []).

(** *** [lambda_handler] *)

Record response := {
  statusCode : Z;
  body : string
}.

Definition response_dict (r : response) : pyval :=
  VDict [("statusCode", VInt (statusCode r)); ("body", VStr (body r))].

(** The values the handler reads from the event before it builds the
    two clients. *)
Record params := {
  api_path : json;
  customer_id : json;
  count : json;
  project_id : json;
  issue_key : json;
  timeline_in_weeks : json
}.

Definition query_param (event : json) (name : string) : result json :=
  match getitem event "queryStringParameters" with
  | Raise e => Raise e
  | Ok q => dict_get q name
  end.

Definition parse_body (event : json) : result json :=
  match contains event "body" with
  | Raise e => Raise e
  | Ok false => Ok (JDict [])
  | Ok true =>
      match getitem event "body" with
      | Raise e => Raise e
      | Ok b =>
          if truthy b
          then match b with
               | JStr text => json_loads E text
               | _ => TypeError
                        ("the JSON object must be str, bytes or bytearray, not "
                         +:+ type_name b)
               end
          else Ok (JDict [])
      end
  end.

Definition parse_event (event : json) : result params :=
  match getitem event "pathParameters" with Raise e => Raise e | Ok pp =>
  match getitem pp "proxy" with Raise e => Raise e | Ok api_path =>
  match query_param event "customerId" with Raise e => Raise e | Ok customer_id =>
  match query_param event "count" with Raise e => Raise e | Ok count =>
  match query_param event "projectId" with Raise e => Raise e | Ok project_id =>
  match query_param event "issueKey" with Raise e => Raise e | Ok issue_key =>
  match parse_body event with Raise e => Raise e | Ok body_dict =>
  match dict_get body_dict "timelineInWeeks" with
  | Raise e => Raise e
  | Ok timeline_in_weeks =>
      Ok {| api_path := api_path; customer_id := customer_id;
            count := count; project_id := project_id;
            issue_key := issue_key;
            timeline_in_weeks := timeline_in_weeks |}
  end end end end end end end end.

Definition request_log_line (p : params) : string :=
  "Request from API gateway with path: " +:+ format (api_path p)
  +:+ " project_id: " +:+ format (project_id p)
  +:+ " customer: " +:+ format (customer_id p)
  +:+ " count: " +:+ format (count p)
  +:+ " issue_key: " +:+ format (issue_key p).

Definition items_value (l : list item) : pyval := VList (map VDict l).

Definition opt_item_value (o : option item) : pyval :=
  match o with Some it => VDict it | None => VNone end.

(** The [if]/[elif] chain: the status code and the value of [result]. *)
Definition dispatch (customer_service : CustomerService)
    (jira_interaction : JiraInteraction) (p : params) : M (Z * pyval) :=
  if eq_str (api_path p) "/listRecentInteractions" then
    let! count := lift (int (count p)) in
    let! result :=
      get_recent_customer_interactions customer_service (customer_id p) count in
    ret (200, items_value result)
  else if eq_str (api_path p) "/getPreferences" then
    let! result := get_customer_preferences customer_service (customer_id p) in
    ret (200, opt_item_value result)
  else if eq_str (api_path p) "/companyOverview" then
    let! result := get_customer_overview customer_service (customer_id p) in
    ret (200, result)
  else if eq_str (api_path p) "/getOpenJiraIssues" then
    let! result := get_open_jira_issues jira_interaction (project_id p) in
    ret (200, items_value result)
  else if eq_str (api_path p) "/updateJiraIssue" then
    let! weeks := lift (int (timeline_in_weeks p)) in
    let! result := update_jira_issue jira_interaction (issue_key p) weeks in
    ret (200, VDict result)
  else
    ret (404, VStr ("Unrecognized api path: " +:+ format (api_path p))).

Definition lambda_handler (event : json) : M response :=
  do! emit (LogObject INFO (of_json event)) in
  let! p := lift (parse_event event) in
  do! emit (Log INFO (request_log_line p)) in
  let customer_service :=
    CustomerService_init customer_table_name interaction_table_name in
  let! jira_interaction := JiraInteraction_init in
  let! dispatched := dispatch customer_service jira_interaction p in
  let '(response_code, result) := dispatched in
  let! body := lift (json_dumps (VDict [("message", result)])) in
  let response := {| statusCode := response_code; body := body |} in
  do! emit (LogObject INFO (response_dict response)) in
  ret response.

End program.
End LambdaHandler.

Import Py Codec Datetime Eff World LambdaHandler.

(** ** Vocabulary of the statements *)

(** The record the store holds for the [customer_id] of a request:
    the key attribute together with the remaining attributes. *)
Definition customer_record (E : Env) (customer_id : json) : option item :=
  match customer_id with
  | JStr cid =>
      (λ attrs, ("customer_id", VStr cid) :: attrs)
      <$> customers (dynamodb E) !! cid
  | _ => None
  end.

(** ** A sample deployment, for the worked examples *)

Module Sample.

Definition store : DynamoDB := {|
  failure := λ _, None;
  customers :=
    {[ "C1" := [("overview", VStr "Acme Corp");
                ("meetingType", VStr "virtual");
                ("dayOfWeek", VStr "Mon")];
       "C2" := [("meetingType", VStr "in person")] ]};
  interactions :=
    {[ ("C1", "2024-01-02") := [("notes", VStr "renewal call")];
       ("C1", "2024-03-01") := [("notes", VStr "demo"); ("owner", VStr "kim")];
       ("C1", "2023-12-31") := [];
       ("C2", "2024-03-05") := [("notes", VStr "intro")] ]};
  page_items := λ _, 1000%nat;
  document_paths := λ _ _, []
|}.

Definition secret (value : string) : result secret_response :=
  Ok {| SecretString := Some value |}.

Definition vault (name : string) : result secret_response :=
  if String.eqb name "JIRA_URL" then secret "https://jira.example/rest/api/2"
  else if String.eqb name "JIRA_API_KEY_ARN" then secret "arn:key"
  else if String.eqb name "JIRA_USER_NAME" then secret "bot"
  else if String.eqb name "arn:key" then secret "s3cr3t"
  else Raise (PyError "ResourceNotFoundException"
                "Secrets Manager can't find the specified secret.").


Definition env : Env := {|
  secrets := vault;
  dynamodb := store;
  urlopen := λ _, inl (UrlFailure "timed out");
  json_loads := λ _, Raise (JSONDecodeError "Expecting value");
  now := {| toordinal := 739923; time_of_day := 0 |};
  strftime_pads_year := false;
  repr := λ _, "[...]"
|}.

Definition service : CustomerService :=
  CustomerService_init customer_table_name interaction_table_name.

(** An API Gateway proxy event. *)
Definition request (path : string) (query : list (string * json))
    (body : json) : json :=
  JDict [("pathParameters", JDict [("proxy", JStr path)]);
         ("queryStringParameters", JDict query);
         ("body", body)].


(** A tracker that answers: one unassigned and one assigned issue. *)
Definition issue (key : string) (duedate assignee : json) : json :=
  JDict [("key", JStr key);
         ("fields",
          JDict [("summary", JStr "Prepare quarterly review");
                 ("status", JDict [("name", JStr "To Do")]);
                 ("project", JDict [("name", JStr "CRM")]);
                 ("duedate", duedate);
                 ("assignee", assignee)])].

Definition search_result : json :=
  JDict [("issues",
          JList [issue "CRM-1" JNull JNull;
                 issue "CRM-2" (JStr "2026-12-01")
                   (JDict [("displayName", JStr "Kim")])])].

Definition online : Env := {|
  secrets := vault;
  dynamodb := store;
  urlopen := λ req,
    if String.eqb (req_method req) "GET" then inr "search-result" else inr "";
  json_loads := λ text,
    if String.eqb text "search-result" then Ok search_result
    else Raise (JSONDecodeError "Expecting value");
  now := {| toordinal := 739923; time_of_day := 0 |};
  strftime_pads_year := false;
  repr := λ _, "[...]"
|}.

Definition jira : JiraInteraction := {|
  jira_url := Some "https://jira.example/rest/api/2";
  jira_api_key_arn := Some "arn:key";
  jira_username := Some "bot";
  credentials := "Ym90OnMzY3IzdA==";
  headers := [("Accept", "application/json");
              ("Content-Type", "application/json");
              ("Authorization", "Basic Ym90OnMzY3IzdA==")]
|}.

End Sample.

(** The fields [get_customer_preferences] asks the store for. *)
Definition preference_fields : list string :=
  ["meetingType"; "timeofDay"; "dayOfWeek"].

(** The [date] attribute of a returned interaction. *)
Definition date_of (it : item) : string :=
  match assoc "date" it with
  | Some (VStr d) => d
  | _ => ""
  end.

(** Latest first: no item is older than one that follows it. *)
Definition dates_non_increasing (items : list item) : Prop :=
  StronglySorted (λ a b, String.le (date_of b) (date_of a)) items.

(** The item has no field besides [date] and [notes]. *)
Definition only_date_and_notes (it : item) : Prop :=
  ∀ k, is_Some (assoc k it) → k = "date" ∨ k = "notes".

(** What the query keeps of a stored interaction. *)
Definition projected (r : string * string * item) : item :=
  project ["date"; "notes"]
    (("customer_id", VStr r.1.1) :: ("date", VStr r.1.2) :: r.2).

(** The item is what the projection keeps of an interaction that the
    store holds for the customer. *)
Definition interaction_of (E : Env) (customer_id : json) (it : item) : Prop :=
  ∃ cid date attrs,
    customer_id = JStr cid
    ∧ interactions (dynamodb E) !! (cid, date) = Some attrs
    ∧ it = project ["date"; "notes"]
             (("customer_id", VStr cid) :: ("date", VStr date) :: attrs).

(** [v[k1][k2]...] is [x]. *)
Fixpoint at_path (v : json) (path : list string) (x : json) : Prop :=
  match path with
  | [] => v = x
  | k :: path' => ∃ w, getitem v k = Ok w ∧ at_path w path' x
  end.

(** [task] is the record of [issue]: its key, the summary, the names of
    its status and of its project, its due date, and the display name
    of its assignee, or the text [None] for an issue without one. *)
Definition record_of_issue (issue : json) (task : item) : Prop :=
  ∃ key summary status project duedate assignee who,
    at_path issue ["key"] key
    ∧ at_path issue ["fields"; "summary"] summary
    ∧ at_path issue ["fields"; "status"; "name"] status
    ∧ at_path issue ["fields"; "project"; "name"] project
    ∧ at_path issue ["fields"; "duedate"] duedate
    ∧ at_path issue ["fields"; "assignee"] assignee
    ∧ (if truthy assignee
       then at_path assignee ["displayName"] who
       else who = JStr "None")
    ∧ task = [("issueKey", of_json key);
              ("summary", of_json summary);
              ("status", of_json status);
              ("project", of_json project);
              ("duedate", of_json duedate);
              ("assignee", of_json who)].

(** The text can be encoded as UTF-8: it holds no lone surrogate. *)
Definition encodable (s : string) : Prop := has_surrogate s = false.

(** *** Reading a JQL filter

    A filter is a tree of field tests; in the text of a query [AND]
    binds tighter than [OR], and both associate to the left, so
    [render] writes a parenthesis only around an [OR] under an [AND] and
    around a right-nested operand. *)
Module JQL.

Inductive clause :=
| Test (field value : string)
| And (a b : clause)
| Or (a b : clause).

Definition paren (needed : bool) (s : string) : string :=
  if needed then "(" +:+ s +:+ ")" else s.

(** [level] 0: anything may stand here; 1: operand of [AND];
    2: right operand, an atom or a parenthesis. *)
Fixpoint render (level : nat) (c : clause) : string :=
  match c with
  | Test field value => field +:+ "=" +:+ value
  | And a b =>
      paren (bool_decide (1 < level)%nat)
        (render 1 a +:+ " AND " +:+ render 2 b)
  | Or a b =>
      paren (bool_decide (0 < level)%nat)
        (render 0 a +:+ " OR " +:+ render 1 b)
  end.

(** An issue, as the fields a filter tests. *)
Definition issue : Type := string → string.

Fixpoint matches (c : clause) (i : issue) : bool :=
  match c with
  | Test field value => String.eqb (i field) value
  | And a b => matches a i && matches b i
  | Or a b => matches a i || matches b i
  end.

(** The filter the text of the search reads as. *)
Definition sent (project : string) : clause :=
  Or (And (And (Test "project" project) (Test "issuetype" "Task"))
          (Test "status" "'In Progress'"))
     (Test "status" "'To Do'").

(** The filter that would keep both statuses within the project. *)
Definition scoped (project : string) : clause :=
  And (And (Test "project" project) (Test "issuetype" "Task"))
      (Or (Test "status" "'In Progress'") (Test "status" "'To Do'")).

Definition issue_with (project issuetype status : string) : issue :=
  λ field,
    if String.eqb field "project" then project
    else if String.eqb field "issuetype" then issuetype
    else if String.eqb field "status" then status
    else "".

End JQL.

Definition is_log (ev : event) : Prop :=
  match ev with Log _ _ => True | _ => False end.

(** *** Dates in the update payload *)

(** The month and day of the [n]-th day (from 0) of a year, as
    [ord2ymd] computes them. *)
Definition month_day (leap : bool) (n : Z) : Z * Z :=
  let month := Z.shiftr (n + 50) 5 in
  let preceding := days_before_month leap month in
  if preceding >? n
  then (month - 1, n - days_before_month leap (month - 1) + 1)
  else (month, n - preceding + 1).

(** [YYYY-MM-DD]. *)
Definition iso_date (y m d : Z) : string :=
  pad4 y +:+ "-" +:+ pad2 m +:+ "-" +:+ pad2 d.

(** The number a string of decimal digits denotes. *)
Definition decimal (s : string) : Z :=
  fold_left (λ acc c, 10 * acc + digit_val c) (String.list_ascii_of_string s) 0.

(** Ten characters: four digits, a dash, two digits, a dash, two
    digits. *)
Definition is_iso_shape (s : string) : bool :=
  match String.list_ascii_of_string s with
  | [y1; y2; y3; y4; h1; m1; m2; h2; d1; d2] =>
      forallb is_digit [y1; y2; y3; y4; m1; m2; d1; d2]
      && Ascii.eqb h1 "-" && Ascii.eqb h2 "-"
  | _ => false
  end.

Definition quoted (s : string) : string := dquote +:+ s +:+ dquote.

(** A printable ASCII character that [json.dumps] writes as it is. *)
Definition plain (c : ascii) : bool :=
  let n := N_of_ascii c in
  ((32 <=? n) && (n <=? 126) && negb (n =? 34) && negb (n =? 92))%N.

(** The JSON text [{"fields": {"duedate": "<due_date>"}}]. *)
Definition update_payload_text (due_date : string) : string :=
  "{" +:+ quoted "fields" +:+ ": {" +:+ quoted "duedate" +:+ ": "
  +:+ quoted due_date +:+ "}}".

(** [now + timeline_in_weeks] weeks is a date of the calendar the
    [datetime] library covers, years 1 to 9999. *)
Definition representable (E : Env) (timeline_in_weeks : Z) : Prop :=
  1 ≤ toordinal (now E) ≤ MAXORDINAL
  ∧ 1 ≤ toordinal (now E) + 7 * timeline_in_weeks ≤ MAXORDINAL.

(** *** The router *)

Definition recognized_paths : list string :=
  ["/listRecentInteractions"; "/getPreferences"; "/companyOverview";
   "/getOpenJiraIssues"; "/updateJiraIssue"].

(** The path of the request is one of the five of the dispatch. *)
Definition recognized (path : json) : Prop :=
  ∃ s, s ∈ recognized_paths ∧ path = JStr s.

(** The [CustomerService] the handler builds. *)
Definition service : CustomerService :=
  CustomerService_init customer_table_name interaction_table_name.

(** The two log lines that precede the construction of the clients. *)
Definition prologue (E : Env) (event : json) (p : params) : list Eff.event :=
  [LogObject INFO (of_json event); Log INFO (request_log_line E p)].

(** The response built from the status code and the result of the
    dispatch. *)
Definition respond (dispatched : Z * pyval) : result response :=
  match json_dumps (VDict [("message", dispatched.2)]) with
  | Ok body => Ok {| statusCode := dispatched.1; body := body |}
  | Raise e => Raise e
  end.

(** The text [{"message": <text>}]. *)
Definition message_body (text : string) : string :=
  "{" +:+ quoted "message" +:+ ": " +:+ text +:+ "}".

(** A call to the customer store or to the tracker. *)
Definition downstream_call (ev : Eff.event) : Prop :=
  match ev with
  | Dynamo _ | Urlopen _ => True
  | _ => False
  end.

(** [json.dumps] has an encoding for the value. *)
Definition serializable (v : pyval) : Prop :=
  ∃ text, json_dumps v = Ok text.


(** The secrets service is down: every lookup raises. *)
Definition unreachable (e : exn) (E : Env) : Env :=
  {| secrets := λ _, Raise e;
     dynamodb := dynamodb E;
     urlopen := urlopen E;
     json_loads := json_loads E;
     now := now E;
     strftime_pads_year := strftime_pads_year E;
     repr := repr E |}.

(** The tracker fails every exchange. *)
Definition tracker_down (E : Env) : Prop :=
  ∀ req, ∃ err, urlopen E req = inl err.


(** *** Calls to the two services *)

(** The calls to the customer store in a trace, in order. *)
Definition store_calls (t : list Eff.event) : list db_call :=
  omap (λ ev, match ev with Dynamo call => Some call | _ => None end) t.

(** The requests sent to the tracker in a trace, in order. *)
Definition tracker_requests (t : list Eff.event) : list http_request :=
  omap (λ ev, match ev with Urlopen req => Some req | _ => None end) t.

(** At most one call to the store, and no request to the tracker. *)
Definition store_only (t : list Eff.event) : Prop :=
  (length (store_calls t) ≤ 1)%nat ∧ tracker_requests t = [].

(** At most one request to the tracker, and no call to the store. *)
Definition tracker_only (t : list Eff.event) : Prop :=
  store_calls t = [] ∧ (length (tracker_requests t) ≤ 1)%nat.

(** The paths served from the customer store, and those served from the
    tracker. *)
Definition store_paths : list string :=
  ["/listRecentInteractions"; "/getPreferences"; "/companyOverview"].

Definition tracker_paths : list string :=
  ["/getOpenJiraIssues"; "/updateJiraIssue"].

(** An attribute name that survives [",".join] followed by
    [split(",")]. *)
Definition no_comma (s : string) : Prop :=
  Forall (λ c, c ≠ ","%char) (String.list_ascii_of_string s).

(** [result] is the value the operation the path selects returned to
    the handler, as the handler keeps it; for an unrecognized path, the
    text that names the path. *)
Definition result_of (E : Env) (jira : JiraInteraction) (p : params)
    (result : pyval) : Prop :=
  (api_path p = JStr "/listRecentInteractions"
   ∧ ∃ n items,
       int (count p) = Ok n
       ∧ outcome (get_recent_customer_interactions E service (customer_id p) n)
         = Ok items
       ∧ result = VList (map VDict items))
  ∨ (api_path p = JStr "/getPreferences"
     ∧ ∃ prefs,
         outcome (get_customer_preferences E service (customer_id p))
         = Ok prefs
         ∧ result = match prefs with
                    | Some preferences => VDict preferences
                    | None => VNone
                    end)
  ∨ (api_path p = JStr "/companyOverview"
     ∧ outcome (get_customer_overview E service (customer_id p)) = Ok result)
  ∨ (api_path p = JStr "/getOpenJiraIssues"
     ∧ ∃ tasks,
         outcome (get_open_jira_issues E jira (project_id p)) = Ok tasks
         ∧ result = VList (map VDict tasks))
  ∨ (api_path p = JStr "/updateJiraIssue"
     ∧ ∃ weeks updated,
         int (timeline_in_weeks p) = Ok weeks
         ∧ outcome (update_jira_issue E jira (issue_key p) weeks) = Ok updated
         ∧ result = VDict updated)
  ∨ (¬ recognized (api_path p)
     ∧ result = VStr ("Unrecognized api path: " +:+ format E (api_path p))).

(** *** Log lines of the tracker operations *)

(** The line [get_open_jira_issues] logs for an exception; the body of
    the response is part of it when the body is not JSON. *)
Definition issues_log (e : exn) (response_data : string) : string :=
  match e with
  | HTTPError code reason =>
      "Failed to get issues. HTTPError: " +:+ pretty code +:+ " " +:+ reason
  | URLError reason => "Failed to get issues. URLError: " +:+ reason
  | JSONDecodeError _ => "Failed to decode response as JSON: " +:+ response_data
  | PyError _ _ => "Invalid Jira Configuration"
  end.

(** The line [update_jira_issue] logs when the exchange fails;
    [issue_key] is the key as the f-string formats it. *)
Definition update_log (issue_key : string) (e : http_error) : string :=
  match e with
  | HttpStatus code reason =>
      "Failed to update task " +:+ issue_key +:+ ". HTTPError: "
      +:+ pretty code +:+ " " +:+ reason
  | UrlFailure reason =>
      "Failed to update task " +:+ issue_key +:+ ". URLError: " +:+ reason
  | TransportError _ _ => "Invalid Jira Configuration"
  end.

(** *** Events the handler cannot read *)

(** What [v.get(...)] raises on a value that is not a dict. *)
Definition attribute_error_get (v : json) : exn :=
  PyError "AttributeError"
    ("'" +:+ type_name v +:+ "' object has no attribute 'get'").

Definition is_dict (v : json) : Prop := ∃ d, v = JDict d.

(** *** Latest first, strictly *)

(** Every item is strictly newer than the ones that follow it. *)
Definition dates_decreasing (items : list item) : Prop :=
  StronglySorted
    (λ a b, String.le (date_of b) (date_of a) ∧ date_of a ≠ date_of b) items.

(** *** Reading a [Basic] credential

    The standard alphabet of RFC 4648, as the receiving side decodes
    it: four characters give three bytes, [=] pads the last group. *)
Definition b64_index (c : ascii) : N :=
  let n := N_of_ascii c in
  if ((65 <=? n) && (n <=? 90))%N then (n - 65)%N
  else if ((97 <=? n) && (n <=? 122))%N then (n - 71)%N
  else if ((48 <=? n) && (n <=? 57))%N then (n + 4)%N
  else if (n =? 43)%N then 62%N else 63%N.

Fixpoint b64decode (s : string) : string :=
  match s with
  | String c0 (String c1 (String c2 (String c3 s'))) =>
      let i0 := b64_index c0 in
      let i1 := b64_index c1 in
      let i2 := b64_index c2 in
      let i3 := b64_index c3 in
      let b0 := chr (i0 * 4 + i1 / 16) in
      if Ascii.eqb c2 "=" then String b0 EmptyString
      else
        let b1 := chr (i1 mod 16 * 16 + i2 / 4) in
        if Ascii.eqb c3 "=" then String b0 (String b1 EmptyString)
        else String b0 (String b1
               (String (chr (i2 mod 4 * 64 + i3)) (b64decode s')))
  | _ => EmptyString
  end.

(** ** Deployments that fail, for the worked examples *)

Module Faults.

(** U+D800 alone, as [json.loads] reads the escape [\ud800]. *)
Definition lone_surrogate : string :=
  String (chr 237) (String (chr 160) (String (chr 128) EmptyString)).

Definition throttled : exn :=
  PyError "ClientError"
    "An error occurred (ThrottlingException) when calling the GetItem operation: Rate exceeded".

(** The sample deployment, the store refusing every call. *)
Definition store_down : Env := {|
  secrets := Sample.vault;
  dynamodb := {| failure := λ _, Some throttled;
                 customers := customers Sample.store;
                 interactions := interactions Sample.store;
                 page_items := page_items Sample.store;
                 document_paths := document_paths Sample.store |};
  urlopen := λ _, inl (UrlFailure "timed out");
  json_loads := λ _, Raise (JSONDecodeError "Expecting value");
  now := {| toordinal := 739923; time_of_day := 0 |};
  strftime_pads_year := false;
  repr := λ _, "[...]"
|}.

(** A customer whose overview is a number: the store hands numbers
    back as [Decimal]. *)
Definition numeric_overview : Env := {|
  secrets := Sample.vault;
  dynamodb := {| failure := λ _, None;
                 customers := {[ "C3" := [("overview", VDecimal "250")] ]};
                 interactions := ∅;
                 page_items := page_items Sample.store;
                 document_paths := document_paths Sample.store |};
  urlopen := λ _, inl (UrlFailure "timed out");
  json_loads := λ _, Raise (JSONDecodeError "Expecting value");
  now := {| toordinal := 739923; time_of_day := 0 |};
  strftime_pads_year := false;
  repr := λ _, "[...]"
|}.

(** The sample deployment on 19 February 876, on a platform whose
    [%Y] does not pad. *)
Definition year_876 : Env := {|
  secrets := Sample.vault;
  dynamodb := Sample.store;
  urlopen := λ _, inr "";
  json_loads := λ _, Raise (JSONDecodeError "Expecting value");
  now := {| toordinal := 319637; time_of_day := 0 |};
  strftime_pads_year := false;
  repr := λ _, "[...]"
|}.

(** The request of the search for project [CRM] on the sample client. *)
Definition crm_search : http_request := {|
  req_method := "GET";
  req_url := "https://jira.example/rest/api/2/search?jql=project%3DCRM+AND+issuetype%3DTask+AND+status%3D%27In+Progress%27+OR+status%3D%27To+Do%27+order+by+duedate";
  req_headers := headers Sample.jira;
  req_data := None
|}.

(** A tracker whose answer holds, after a well-formed issue, one
    without [fields]. *)
Definition search_result : json :=
  JDict [("issues",
          JList [Sample.issue "CRM-1" JNull JNull;
                 JDict [("key", JStr "CRM-2")]])].

Definition malformed_issue : Env := {|
  secrets := Sample.vault;
  dynamodb := Sample.store;
  urlopen := λ _, inr "search-result";
  json_loads := λ text,
    if String.eqb text "search-result" then Ok search_result
    else Raise (JSONDecodeError "Expecting value");
  now := {| toordinal := 739923; time_of_day := 0 |};
  strftime_pads_year := false;
  repr := λ _, "[...]"
|}.

End Faults.

(** * Properties *)

(** ** Strings *)

Lemma string_app_assoc (s1 s2 s3 : string) :
  (s1 +:+ s2) +:+ s3 = s1 +:+ (s2 +:+ s3).
Proof.
  induction s1 as [|a s1 IH]; [reflexivity|].
  change (String a ((s1 +:+ s2) +:+ s3) = String a (s1 +:+ (s2 +:+ s3))).
  by rewrite IH.
Qed.

(** ** Reasoning about computations *)

Section monad_laws.
Context {A B : Type}.

Lemma outcome_bind_ok (m : M A) (k : A → M B) a :
  outcome m = Ok a → outcome (bind m k) = outcome (k a).
Proof.
  destruct m as [t r]; simpl; intros ->. unfold bind, outcome.
  by destruct (k a).
Qed.

Lemma outcome_bind_raise (m : M A) (k : A → M B) e :
  outcome m = Raise e → outcome (bind m k) = Raise e.
Proof. destruct m as [t r]; simpl; intros ->. done. Qed.

Lemma trace_bind_ok (m : M A) (k : A → M B) a :
  outcome m = Ok a → trace (bind m k) = trace m ++ trace (k a).
Proof.
  destruct m as [t r]; simpl; intros ->. unfold bind, trace.
  by destruct (k a).
Qed.

Lemma trace_bind_raise (m : M A) (k : A → M B) e :
  outcome m = Raise e → trace (bind m k) = trace m.
Proof. destruct m as [t r]; simpl; intros ->. done. Qed.

Lemma outcome_try_ok (m : M A) (h : exn → M A) a :
  outcome m = Ok a → outcome (try_except m h) = Ok a.
Proof. destruct m as [t r]; simpl; intros ->. done. Qed.

Lemma outcome_try_raise (m : M A) (h : exn → M A) e :
  outcome m = Raise e → outcome (try_except m h) = outcome (h e).
Proof.
  destruct m as [t r]; simpl; intros ->. unfold try_except, outcome.
  by destruct (h e).
Qed.

Lemma trace_try_ok (m : M A) (h : exn → M A) a :
  outcome m = Ok a → trace (try_except m h) = trace m.
Proof. destruct m as [t r]; simpl; intros ->. done. Qed.

Lemma trace_try_raise (m : M A) (h : exn → M A) e :
  outcome m = Raise e → trace (try_except m h) = trace m ++ trace (h e).
Proof.
  destruct m as [t r]; simpl; intros ->. unfold try_except, trace.
  by destruct (h e).
Qed.

End monad_laws.

Lemma bind_lift_ok {A B} (a : A) (k : A → M B) : bind (lift (Ok a)) k = k a.
Proof. unfold bind, lift. by destruct (k a). Qed.

Lemma outcome_lift {A} (r : result A) : outcome (lift r) = r.
Proof. done. Qed.

Lemma outcome_log_and_reraise {A} what e :
  outcome (log_and_reraise (A:=A) what e) = Raise e.
Proof. done. Qed.

Lemma trace_log_and_reraise {A} what e :
  trace (log_and_reraise (A:=A) what e) = [Log ERROR (what +:+ exn_str e)].
Proof. done. Qed.

(** ** The customer store *)

Section customer_store.
Context (E : Env) (self : CustomerService).

Lemma projection_plain proj full :
  forallb plain_name (split_commas proj) = true →
  projection E proj full = project (split_commas proj) full.
Proof. intros Hplain. unfold projection. by rewrite Hplain. Qed.

Lemma get_item_outcome customer_id proj :
  failure (dynamodb E) (GetItem (customer_table self) customer_id proj) = None →
  outcome (get_item E (customer_table self) customer_id proj)
  = Ok (projection E proj <$> customer_record E customer_id).
Proof.
  intros Hok. unfold get_item, customer_record. simpl. rewrite Hok. simpl.
  destruct customer_id; try done.
  by destruct (customers (dynamodb E) !! s).
Qed.

Lemma get_item_failure customer_id proj e :
  failure (dynamodb E) (GetItem (customer_table self) customer_id proj) = Some e →
  outcome (get_item E (customer_table self) customer_id proj) = Raise e.
Proof. intros Hf. unfold get_item. simpl. by rewrite Hf. Qed.

Lemma get_customer_details_outcome customer_id args :
  failure (dynamodb E)
    (GetItem (customer_table self) customer_id (str_join "," args)) = None →
  outcome (get_customer_details E self customer_id args)
  = Ok (projection E (str_join "," args) <$> customer_record E customer_id).
Proof.
  intros Hok. unfold get_customer_details.
  erewrite outcome_try_ok; [done|]. by apply get_item_outcome.
Qed.

End customer_store.

Section customer_overview.
Context (E : Env) (self : CustomerService).

Lemma project_overview (record : item) :
  project ["overview"] record
  = match assoc "overview" record with
    | Some v => [("overview", v)]
    | None => []
    end.
Proof. unfold project. simpl. by destruct (assoc "overview" record). Qed.

(** What the method returns whenever the store answers the call. *)
Lemma get_customer_overview_outcome customer_id :
  failure (dynamodb E)
    (GetItem (customer_table self) customer_id "overview") = None →
  outcome (get_customer_overview E self customer_id)
  = Ok (default (VDict []) (customer_record E customer_id ≫= assoc "overview")).
Proof.
  intros Hok. unfold get_customer_overview.
  pose proof (get_customer_details_outcome E self customer_id ["overview"] Hok)
    as Hd.
  change (projection E (str_join "," ["overview"]))
    with (project ["overview"]) in Hd.
  erewrite outcome_try_ok; [done|].
  erewrite outcome_bind_ok; [|exact Hd].
  destruct (customer_record E customer_id) as [record|]; [|done].
  change (project ["overview"] <$> Some record)
    with (Some (project ["overview"] record)).
  rewrite project_overview. simpl.
  by destruct (assoc "overview" record) as [v|].
Qed.

(** C5.  Whenever the store answers the lookup: for a [customer_id]
    that has a record, [get_customer_overview] returns the value stored
    in the record's [overview] field; for a [customer_id] without a
    record it returns the empty map; a record that lacks the field gives
    the empty map as well, the same as no record. *)
Theorem get_customer_overview_spec (customer_id : json) :
  failure (dynamodb E)
    (GetItem (customer_table self) customer_id "overview") = None →
  (∀ record v,
     customer_record E customer_id = Some record →
     assoc "overview" record = Some v →
     outcome (get_customer_overview E self customer_id) = Ok v)
  ∧ (customer_record E customer_id = None →
     outcome (get_customer_overview E self customer_id) = Ok (VDict []))
  ∧ (∀ record,
     customer_record E customer_id = Some record →
     assoc "overview" record = None →
     outcome (get_customer_overview E self customer_id) = Ok (VDict [])).
Proof.
  intros Hok. rewrite (get_customer_overview_outcome _ Hok).
  split; [|split].
  - intros record v -> Hv. simpl. by rewrite Hv.
  - by intros ->.
  - intros record -> Hv. simpl. by rewrite Hv.
Qed.

End customer_overview.

(** C5, on the sample store: customer C1 has an overview. *)
Lemma get_customer_overview_spec_witness :
  failure Sample.store (GetItem "CUSTOMER_TABLE" (JStr "C1") "overview") = None
  ∧ outcome (get_customer_overview Sample.env Sample.service (JStr "C1"))
    = Ok (VStr "Acme Corp").
Proof.
  split; [reflexivity|].
  eapply (proj1 (get_customer_overview_spec Sample.env Sample.service
                   (JStr "C1") eq_refl)).
  - vm_compute. reflexivity.
  - reflexivity.
Defined.

(** ** Projections *)

Lemma eqb_string_decide (a b : string) :
  String.eqb a b = bool_decide (a = b).
Proof.
  destruct (String.eqb_spec a b) as [->|Hne].
  - by rewrite bool_decide_eq_true_2.
  - by rewrite bool_decide_eq_false_2.
Qed.

Lemma assoc_project (names : list string) (full : item) (k : string) :
  assoc k (project names full)
  = if bool_decide (k ∈ names) then assoc k full else None.
Proof.
  unfold project. induction names as [|n names IH]; simpl; [done|].
  destruct (decide (k = n)) as [->|Hne].
  - rewrite bool_decide_eq_true_2 by set_solver.
    destruct (assoc n full) as [v|] eqn:Hn; simpl.
    + by rewrite String.eqb_refl.
    + etrans; [exact IH|]. by destruct (bool_decide _).
  - assert (bool_decide (k ∈ n :: names) = bool_decide (k ∈ names)) as ->.
    { apply bool_decide_ext. rewrite elem_of_cons.
      split; [intros [?|?]; [congruence|done]|by right]. }
    destruct (assoc n full) as [v|]; simpl; [|exact IH].
    rewrite eqb_string_decide, bool_decide_eq_false_2 by done. exact IH.
Qed.

Section customer_preferences.
Context (E : Env) (self : CustomerService).

(** C8.  Whenever the store answers the lookup: for a [customer_id]
    without a record [get_customer_preferences] returns [None], where
    [get_customer_overview] returns the empty map; for a [customer_id]
    with a record it returns the mapping the store yields for the
    projection on [meetingType], [timeofDay] and [dayOfWeek]: those of
    the three fields the record has, with the stored values. *)
Theorem get_customer_preferences_spec (customer_id : json) :
  failure (dynamodb E)
    (GetItem (customer_table self) customer_id
       "meetingType,timeofDay,dayOfWeek") = None →
  (customer_record E customer_id = None →
     outcome (get_customer_preferences E self customer_id) = Ok None
     ∧ (failure (dynamodb E)
          (GetItem (customer_table self) customer_id "overview") = None →
        outcome (get_customer_overview E self customer_id) = Ok (VDict [])))
  ∧ (∀ record,
       customer_record E customer_id = Some record →
       ∃ prefs,
         outcome (get_customer_preferences E self customer_id) = Ok (Some prefs)
         ∧ prefs = project preference_fields record
         ∧ ∀ k, assoc k prefs
                = if bool_decide (k ∈ preference_fields)
                  then assoc k record else None).
Proof.
  intros Hok.
  assert (outcome (get_customer_preferences E self customer_id)
          = Ok (project preference_fields <$> customer_record E customer_id))
    as Hout.
  { unfold get_customer_preferences. erewrite outcome_try_ok; [done|].
    apply (get_customer_details_outcome E self customer_id
             preference_fields Hok). }
  rewrite Hout. split.
  - intros Hnone. rewrite Hnone. split; [done|].
    intros Hov. rewrite (get_customer_overview_outcome _ _ _ Hov).
    by rewrite Hnone.
  - intros record ->. eexists. split; [done|]. split; [done|].
    intros k. apply assoc_project.
Qed.

End customer_preferences.

(** C8, on the sample store: C9 has no record. *)
Lemma get_customer_preferences_spec_witness :
  failure Sample.store
    (GetItem "CUSTOMER_TABLE" (JStr "C9") "meetingType,timeofDay,dayOfWeek")
  = None
  ∧ customer_record Sample.env (JStr "C9") = None
  ∧ outcome (get_customer_preferences Sample.env Sample.service (JStr "C9"))
    = Ok None.
Proof.
  split; [reflexivity|]. split; [vm_compute; reflexivity|].
  apply (proj1 (get_customer_preferences_spec Sample.env Sample.service
                  (JStr "C9") eq_refl)).
  vm_compute. reflexivity.
Defined.

(** ** Recent interactions *)

Lemma StronglySorted_take {A} (R : relation A) n (l : list A) :
  StronglySorted R l → StronglySorted R (take n l).
Proof.
  intros Hl. revert n. induction Hl as [|x l Hl IH Hx]; intros [|n]; simpl;
    try constructor; [apply IH|by apply Forall_take].
Qed.

Global Instance newer_first_total : Total newer_first.
Proof. intros x y. unfold newer_first. destruct (total String.le x.1.2 y.1.2); auto. Qed.

Global Instance newer_first_trans : Transitive newer_first.
Proof. intros x y z Hxy Hyz. unfold newer_first in *. by etrans. Qed.

Lemma date_of_projection cid date attrs :
  date_of (project ["date"; "notes"]
             (("customer_id", VStr cid) :: ("date", VStr date) :: attrs))
  = date.
Proof.
  unfold date_of. rewrite assoc_project. done.
Qed.

Section recent_interactions.
Context (E : Env) (self : CustomerService).

Lemma query_outcome customer_id count :
  0 < count →
  failure (dynamodb E) (Query (interactions_table self) customer_id count) = None →
  outcome (query E (interactions_table self) customer_id count)
  = Ok (match customer_id with
        | JStr cid =>
            map projected
              (take (Z.to_nat count
                     `min` page_items (dynamodb E)
                             (Query (interactions_table self) customer_id
                                count))
                 (merge_sort newer_first (partition E cid)))
        | _ => []
        end).
Proof.
  intros Hpos Hok. unfold query.
  destruct (Z.ltb_spec count 1) as [|_]; [lia|]. simpl. by rewrite Hok.
Qed.

Lemma sorted_partition_dates cid n :
  dates_non_increasing
    (map projected (take n (merge_sort newer_first (partition E cid)))).
Proof.
  unfold dates_non_increasing.
  apply (StronglySorted_fmap _ newer_first).
  - intros [[c1 d1] a1] [[c2 d2] a2] H. unfold projected.
    rewrite !date_of_projection. exact H.
  - apply StronglySorted_take, StronglySorted_merge_sort; apply _.
Qed.

Lemma partition_interaction cid n it :
  it ∈ map projected (take n (merge_sort newer_first (partition E cid))) →
  interaction_of E (JStr cid) it.
Proof.
  intros Hit. apply list_elem_of_fmap in Hit as ([[c d] attrs] & -> & Hr).
  apply subseteq_take in Hr.
  rewrite merge_sort_Permutation in Hr.
  unfold partition in Hr. apply list_elem_of_filter in Hr as [Hc Hr].
  simpl in Hc. subst c.
  apply (elem_of_map_to_list (interactions (dynamodb E)) (cid, d) attrs) in Hr.
  exists cid, d, attrs. done.
Qed.

Lemma projected_fields r : only_date_and_notes (projected r).
Proof.
  intros k [v Hk]. unfold projected in Hk. rewrite assoc_project in Hk.
  case_bool_decide as Hin; [|done].
  rewrite !elem_of_cons in Hin.
  destruct Hin as [?|[?|Hin]]; [by left|by right|].
  by apply elem_of_nil in Hin.
Qed.

(** C6.  For every [customer_id] and every positive count [N]: when the
    store answers the query, [get_recent_customer_interactions] returns
    at most [N] records, each the projection of one of the customer's
    interactions on [date] and [notes] and nothing else, latest [date]
    first (no record is older than a later one in the list); when the
    store fails, the error is logged and the very same exception is
    raised again. *)
Theorem get_recent_customer_interactions_spec (customer_id : json) (N : Z) :
  0 < N →
  (failure (dynamodb E)
     (Query (interactions_table self) customer_id N) = None →
   ∃ items,
     outcome (get_recent_customer_interactions E self customer_id N) = Ok items
     ∧ Z.of_nat (length items) ≤ N
     ∧ Forall only_date_and_notes items
     ∧ Forall (interaction_of E customer_id) items
     ∧ dates_non_increasing items)
  ∧ (∀ e,
       failure (dynamodb E)
         (Query (interactions_table self) customer_id N) = Some e →
       outcome (get_recent_customer_interactions E self customer_id N) = Raise e
       ∧ trace (get_recent_customer_interactions E self customer_id N)
         = [Dynamo (Query (interactions_table self) customer_id N);
            Log ERROR ("Error getting recent customer interactions: "
                       +:+ exn_str e)]).
Proof.
  intros HN. split.
  - intros Hok. eexists. split.
    { unfold get_recent_customer_interactions.
      erewrite outcome_try_ok; [done|]. by apply query_outcome. }
    destruct customer_id as [| | | |cid| |];
      try (repeat split; [simpl; lia|constructor..]).
    repeat split.
    + rewrite length_map, length_take. lia.
    + apply Forall_forall. intros it Hit.
      apply list_elem_of_fmap in Hit as (r & -> & _). apply projected_fields.
    + apply Forall_forall. intros it Hit. by eapply partition_interaction.
    + apply sorted_partition_dates.
  - intros e Hf. unfold get_recent_customer_interactions, query, try_except.
    destruct (Z.ltb_spec N 1) as [|_]; [lia|]. simpl. rewrite Hf. done.
Qed.

End recent_interactions.

(** C6, on the sample store: the two latest interactions of C1. *)
Lemma get_recent_customer_interactions_spec_witness :
  0 < 2
  ∧ failure Sample.store (Query "INTERACTION_TABLE" (JStr "C1") 2) = None
  ∧ ∃ items,
      outcome (get_recent_customer_interactions Sample.env Sample.service
                 (JStr "C1") 2) = Ok items
      ∧ Z.of_nat (length items) ≤ 2
      ∧ Forall only_date_and_notes items
      ∧ Forall (interaction_of Sample.env (JStr "C1")) items
      ∧ dates_non_increasing items.
Proof.
  split; [lia|]. split; [reflexivity|].
  apply (proj1 (get_recent_customer_interactions_spec Sample.env
                  Sample.service (JStr "C1") 2 ltac:(lia))).
  reflexivity.
Defined.

(** ** The issue tracker: open issues *)

Lemma swallow_bound {A} m1 m2 m3 text (empty : A) e :
  outcome (swallow m1 m2 m3 (Some text) empty e) = Ok empty.
Proof. by destruct e. Qed.

Lemma swallow_http_error {A} m1 m2 m3 raw (empty : A) err :
  outcome (swallow m1 m2 m3 raw empty (exn_of_http_error err)) = Ok empty.
Proof. by destruct err. Qed.

Lemma http_exchange_outcome E req :
  outcome (http_exchange E req)
  = match urlopen E req with
    | inr text => Ok text
    | inl err => Raise (exn_of_http_error err)
    end.
Proof. unfold http_exchange. simpl. by destruct (urlopen E req). Qed.

Lemma http_exchange_trace E req :
  trace (http_exchange E req) = [Urlopen req].
Proof. unfold http_exchange. simpl. by destruct (urlopen E req). Qed.

Lemma open_tasks_loop_each issues tasks :
  open_tasks_loop issues = Ok tasks →
  Forall2 (λ issue task, task_of_issue issue = Ok task) issues tasks.
Proof.
  revert tasks. induction issues as [|issue issues IH]; intros tasks; simpl.
  - intros [= <-]. constructor.
  - destruct (task_of_issue issue) as [task|] eqn:Ht; [|done].
    destruct (open_tasks_loop issues) as [rest|]; [|done].
    intros [= <-]. constructor; [done|]. by apply IH.
Qed.

Lemma open_tasks_loop_ok issues :
  Forall (λ issue, is_ok (task_of_issue issue) = true) issues →
  is_ok (open_tasks_loop issues) = true.
Proof.
  induction 1 as [|issue issues Hi _ IH]; simpl; [done|].
  destruct (task_of_issue issue); [|done].
  by destruct (open_tasks_loop issues).
Qed.

Ltac step_result :=
  match goal with
  | H : context [match ?r with Ok _ => _ | Raise _ => _ end] |- _ =>
      let x := fresh "x" in
      let Hx := fresh "Hx" in
      destruct r as [x|] eqn:Hx; [|discriminate H]
  end.

Lemma task_of_issue_record issue task :
  task_of_issue issue = Ok task → record_of_issue issue task.
Proof.
  intros Ht. unfold task_of_issue in Ht.
  destruct (getitem issue "key") as [key|] eqn:Hk; [|done].
  destruct (getitem issue "fields") as [fields|] eqn:Hf; [|done].
  cbn iota in Ht.
  destruct (getitem fields "summary") as [summary|] eqn:Hs; [|done].
  destruct (getitem fields "status") as [status|] eqn:Hst; [|done].
  cbn iota in Ht.
  destruct (getitem status "name") as [status_name|] eqn:Hn; [|done].
  destruct (getitem fields "project") as [proj|] eqn:Hp; [|done].
  cbn iota in Ht.
  destruct (getitem proj "name") as [project_name|] eqn:Hpn; [|done].
  destruct (getitem fields "duedate") as [duedate|] eqn:Hd; [|done].
  destruct (getitem fields "assignee") as [assignee|] eqn:Ha; [|done].
  cbn iota in Ht.
  destruct (if truthy assignee then _ else _) as [who|] eqn:Hw; [|done].
  injection Ht as <-.
  exists key, summary, status_name, project_name, duedate, assignee, who.
  unfold at_path. repeat split; eauto 10.
  destruct (truthy assignee); [by exists who|by injection Hw as <-].
Qed.

(** *** The request of the search *)

Lemma has_surrogate_ascii (t : string) :
  is_ascii t = true → has_surrogate t = false.
Proof.
  unfold is_ascii. induction t as [|c t IH]; [done|].
  cbn [String.list_ascii_of_string forallb has_surrogate].
  intros [Hc Ht]%andb_true_iff. rewrite (IH Ht), orb_false_r.
  apply N.ltb_lt in Hc.
  destruct (N.eqb_spec (N_of_ascii c) 237) as [Heq|_]; [lia|done].
Qed.

Lemma has_surrogate_ascii_prefix (p s : string) :
  is_ascii p = true → has_surrogate (p +:+ s) = has_surrogate s.
Proof.
  unfold is_ascii. induction p as [|c p IH]; [done|].
  cbn [String.list_ascii_of_string forallb].
  intros [Hc Hp]%andb_true_iff.
  change (String c p +:+ s) with (String c (p +:+ s)).
  cbn [has_surrogate]. rewrite (IH Hp). apply N.ltb_lt in Hc.
  destruct (N.eqb_spec (N_of_ascii c) 237) as [Heq|_]; [lia|done].
Qed.

Lemma has_surrogate_ascii_suffix (s t : string) :
  is_ascii t = true → has_surrogate (s +:+ t) = has_surrogate s.
Proof.
  intros Ht. induction s as [|c s IH]; [by apply has_surrogate_ascii|].
  change (String c s +:+ t) with (String c (s +:+ t)).
  cbn [has_surrogate]. rewrite IH. f_equal. f_equal.
  destruct s as [|d s]; [|done].
  change ("" +:+ t) with t. destruct t as [|d t]; [done|].
  unfold is_ascii in Ht. cbn [String.list_ascii_of_string forallb] in Ht.
  apply andb_true_iff in Ht as [Hd%N.ltb_lt _].
  destruct (N.leb_spec 160 (N_of_ascii d)); [lia|done].
Qed.

Lemma has_surrogate_jql E project_id :
  has_surrogate (jql E project_id) = has_surrogate (format E project_id).
Proof.
  unfold jql. rewrite has_surrogate_ascii_prefix by done.
  by rewrite has_surrogate_ascii_suffix.
Qed.

Section search_requests.
Context (E : Env) (self : JiraInteraction).

Lemma search_request_encodable project_id :
  encodable (format E project_id) →
  search_request E self project_id
  = Ok {| req_method := "GET";
          req_url := format_opt (jira_url self) +:+ "/search?jql="
                     +:+ quote_bytes (jql E project_id);
          req_headers := headers self;
          req_data := None |}.
Proof.
  intros Henc. unfold search_request, urlencode, quote_plus, str_encode.
  change (has_surrogate "jql") with false. cbn iota.
  rewrite has_surrogate_jql, Henc.
  change (quote_bytes "jql") with "jql".
  by rewrite !string_app_assoc.
Qed.

Lemma search_request_raises project_id :
  ¬ encodable (format E project_id) →
  ∃ msg,
    search_request E self project_id = Raise (PyError "UnicodeEncodeError" msg).
Proof.
  intros Henc. unfold search_request, urlencode, quote_plus, str_encode.
  change (has_surrogate "jql") with false. cbn iota.
  rewrite has_surrogate_jql. unfold encodable in Henc.
  destruct (has_surrogate (format E project_id)); [by eexists|done].
Qed.

Lemma search_request_headers project_id req :
  search_request E self project_id = Ok req → req_headers req = headers self.
Proof.
  unfold search_request. destruct (urlencode _ _); [|done]. by intros [= <-].
Qed.

Lemma get_open_jira_issues_unencodable project_id :
  ¬ encodable (format E project_id) →
  ∃ msg,
    get_open_jira_issues E self project_id
    = ([], Raise (PyError "UnicodeEncodeError" msg)).
Proof.
  intros Henc. destruct (search_request_raises project_id Henc) as [msg Hreq].
  exists msg. unfold get_open_jira_issues. by rewrite Hreq.
Qed.

End search_requests.

Section open_issues.
Context (E : Env) (self : JiraInteraction).

(** What the method returns once the request is built, whatever the
    tracker does. *)
Lemma get_open_jira_issues_outcome project_id req :
  search_request E self project_id = Ok req →
  outcome (get_open_jira_issues E self project_id)
  = Ok (match urlopen E req with
        | inl _ => []
        | inr response_data =>
            match json_loads E response_data with
            | Raise _ => []
            | Ok response_json =>
                match open_tasks_of response_json with
                | Raise _ => []
                | Ok open_tasks => open_tasks
                end
            end
        end).
Proof.
  intros Hreq. unfold get_open_jira_issues. rewrite Hreq, bind_lift_ok.
  pose proof (http_exchange_outcome E req) as Hx.
  destruct (urlopen E req) as [err|text].
  - erewrite outcome_try_raise.
    + apply swallow_http_error.
    + by erewrite outcome_bind_raise.
  - erewrite outcome_try_ok; [done|].
    erewrite outcome_bind_ok; [|exact Hx].
    destruct (json_loads E text) as [j|e] eqn:Hj.
    + destruct (open_tasks_of j) as [tasks|e] eqn:Ht.
      * erewrite outcome_try_ok; [done|].
        erewrite outcome_bind_ok; [|done]. by rewrite outcome_lift.
      * erewrite outcome_try_raise; [apply swallow_bound|].
        erewrite outcome_bind_ok; [|done]. by rewrite outcome_lift.
    + erewrite outcome_try_raise; [apply swallow_bound|].
      by erewrite outcome_bind_raise.
Qed.

(** C4, amended.  For every [project_id] whose text can be encoded as
    UTF-8, [get_open_jira_issues] builds its request and never raises:
    it returns a list whatever the tracker does.  The list is empty when
    the HTTP exchange fails (HTTP error, transport error or any other
    exception), when the body is not JSON, and when reading the parsed
    response raises (a missing key among them).  When the response
    parses, it holds one record per returned issue, in order: the key
    of the issue, its summary, the names of its status and project, its
    due date, and the display name of its assignee, the string ["None"]
    standing for the assignee of an issue without one.  For a
    [project_id] that holds a lone surrogate, [urlencode] raises
    [UnicodeEncodeError] before the [try]: the method raises it and
    sends nothing. *)
Theorem get_open_jira_issues_spec (project_id : json) :
  let returned := outcome (get_open_jira_issues E self project_id) in
  (encodable (format E project_id) →
   ∃ req,
     search_request E self project_id = Ok req
     ∧ (∃ open_tasks, returned = Ok open_tasks)
     ∧ (∀ err, urlopen E req = inl err → returned = Ok [])
     ∧ (∀ text e,
          urlopen E req = inr text → json_loads E text = Raise e →
          returned = Ok [])
     ∧ (∀ text response_json e,
          urlopen E req = inr text → json_loads E text = Ok response_json →
          open_tasks_of response_json = Raise e →
          returned = Ok [])
     ∧ (∀ text response_json issues,
          urlopen E req = inr text → json_loads E text = Ok response_json →
          getitem response_json "issues" = Ok (JList issues) →
          Forall (λ issue, is_ok (task_of_issue issue) = true) issues →
          ∃ open_tasks,
            returned = Ok open_tasks
            ∧ Forall2 record_of_issue issues open_tasks))
  ∧ (¬ encodable (format E project_id) →
     ∃ msg,
       get_open_jira_issues E self project_id
       = ([], Raise (PyError "UnicodeEncodeError" msg))).
Proof.
  intros returned. subst returned.
  split; [|apply get_open_jira_issues_unencodable].
  intros Henc. eexists. split; [by apply search_request_encodable|].
  rewrite (get_open_jira_issues_outcome project_id _
             (search_request_encodable E self project_id Henc)).
  split; [by eexists|]. split; [by intros err ->|].
  split; [by intros text e -> ->|].
  split; [by intros text j e -> -> ->|].
  intros text j issues -> -> Hissues Hall.
  unfold open_tasks_of. rewrite Hissues. simpl.
  pose proof (open_tasks_loop_ok issues Hall) as Hok.
  destruct (open_tasks_loop issues) as [tasks|] eqn:Hloop; [|done].
  exists tasks. split; [done|].
  eapply Forall2_impl; [by apply open_tasks_loop_each|].
  intros issue task. apply task_of_issue_record.
Qed.

End open_issues.

(** C4, as stated, fails: a project id that holds a lone surrogate
    (U+D800, as [json.loads] reads the escape) makes [urlencode] raise
    before the [try], and the method raises. *)
Lemma get_open_jira_issues_raises_on_surrogate :
  get_open_jira_issues Sample.online Sample.jira (JStr Faults.lone_surrogate)
  = ([], Raise (PyError "UnicodeEncodeError"
                  "'utf-8' codec can't encode character: surrogates not allowed")).
Proof. by vm_compute. Qed.

(** C4, with a tracker that returns two issues, the first unassigned. *)
Lemma get_open_jira_issues_spec_witness :
  encodable (format Sample.online (JStr "CRM"))
  ∧ ∃ open_tasks,
      outcome (get_open_jira_issues Sample.online Sample.jira (JStr "CRM"))
      = Ok open_tasks
      ∧ Forall2 record_of_issue
          [Sample.issue "CRM-1" JNull JNull;
           Sample.issue "CRM-2" (JStr "2026-12-01")
             (JDict [("displayName", JStr "Kim")])]
          open_tasks.
Proof.
  assert (encodable (format Sample.online (JStr "CRM"))) as Henc
    by reflexivity.
  split; [exact Henc|].
  destruct (proj1 (get_open_jira_issues_spec Sample.online Sample.jira
                     (JStr "CRM")) Henc)
    as (req & Hreq & _ & _ & _ & _ & Hrecords).
  assert (req = {| req_method := "GET";
                   req_url := "https://jira.example/rest/api/2/search?jql="
                              +:+ quote_bytes (jql Sample.online (JStr "CRM"));
                   req_headers := headers Sample.jira;
                   req_data := None |}) as ->.
  { rewrite (search_request_encodable Sample.online Sample.jira (JStr "CRM")
               Henc) in Hreq.
    by injection Hreq as <-. }
  eapply Hrecords.
  - reflexivity.
  - reflexivity.
  - reflexivity.
  - repeat constructor.
Defined.

(** ** The search query *)

Lemma swallow_trace_logs {A} m1 m2 m3 raw (empty : A) e :
  Forall is_log (trace (swallow m1 m2 m3 raw empty e)).
Proof.
  destruct e; simpl; try (by repeat constructor).
  destruct raw; simpl; by repeat constructor.
Qed.

Lemma get_open_jira_issues_trace E self project_id req :
  search_request E self project_id = Ok req →
  ∃ logs,
    trace (get_open_jira_issues E self project_id) = Urlopen req :: logs
    ∧ Forall is_log logs.
Proof.
  intros Hreq. unfold get_open_jira_issues. rewrite Hreq, bind_lift_ok.
  pose proof (http_exchange_outcome E req) as Hx.
  pose proof (http_exchange_trace E req) as Ht.
  destruct (urlopen E req) as [err|text].
  - erewrite trace_try_raise; [|by erewrite outcome_bind_raise].
    erewrite trace_bind_raise; [|done]. rewrite Ht.
    eexists. split; [done|]. apply swallow_trace_logs.
  - pose (inner := try_except
       (bind (lift (json_loads E text)) (λ j, lift (open_tasks_of j)))
       (swallow "Failed to get issues. HTTPError: "
          "Failed to get issues. URLError: "
          "Failed to decode response as JSON: " (Some text) ([] : list item))).
    assert (∃ tasks, outcome inner = Ok tasks ∧ Forall is_log (trace inner))
      as (tasks & Hout & Hlogs).
    { subst inner.
      set (body := bind (lift (json_loads E text)) _).
      assert (trace body = []) as Hpure.
      { subst body. unfold bind, lift, trace.
        by destruct (json_loads E text) as [j|e]. }
      destruct (outcome body) as [tasks|e] eqn:Hb.
      - exists tasks. split; [by erewrite outcome_try_ok|].
        erewrite trace_try_ok; [|done]. rewrite Hpure. constructor.
      - exists []. split.
        + erewrite outcome_try_raise; [apply swallow_bound|done].
        + erewrite trace_try_raise; [|done]. rewrite Hpure. simpl.
          apply swallow_trace_logs. }
    erewrite trace_try_ok.
    2:{ erewrite outcome_bind_ok; [exact Hout|exact Hx]. }
    erewrite trace_bind_ok; [|exact Hx]. rewrite Ht.
    eexists. split; [done|]. exact Hlogs.
Qed.

(** Whether or not the request can be built, the method calls nothing
    but the tracker, once at most, and logs. *)
Lemma get_open_jira_issues_events E self project_id :
  ∃ sent logs,
    trace (get_open_jira_issues E self project_id)
    = (Urlopen <$> sent) ++ logs
    ∧ (length sent ≤ 1)%nat ∧ Forall is_log logs.
Proof.
  destruct (search_request E self project_id) as [req|e] eqn:Hreq.
  - destruct (get_open_jira_issues_trace E self project_id req Hreq)
      as (logs & -> & Hlogs).
    exists [req], logs. split; [done|]. split; [simpl; lia|done].
  - exists [], []. split; [|split; [simpl; lia|constructor]].
    unfold get_open_jira_issues. by rewrite Hreq.
Qed.

(** C9.  For every [project_id], a request [get_open_jira_issues]
    sends is a GET whose URL is the tracker URL followed by
    [/search?jql=] and the URL-encoding of the text
    [project={project_id} AND issuetype=Task AND status='In Progress'
    OR status='To Do' order by duedate]; it sends that request, first
    and once, whenever the text of the [project_id] can be encoded as
    UTF-8, and no request otherwise.  Read with [AND] binding tighter
    than [OR], that text is the filter that joins the project and type
    tests to the 'In Progress' test only: an issue of any other project
    and any type whose status is 'To Do' passes it, while it does not
    pass the filter that scopes both statuses. *)
Theorem search_query_sent (E : Env) (self : JiraInteraction) (project_id : json) :
  let text :=
    "project=" +:+ format E project_id +:+
    " AND issuetype=Task AND status='In Progress' OR status='To Do' order by duedate" in
  (encodable (format E project_id) →
   ∃ req logs encoded,
     trace (get_open_jira_issues E self project_id) = Urlopen req :: logs
     ∧ Forall is_log logs
     ∧ req_method req = "GET"
     ∧ quote_plus text = Ok encoded
     ∧ req_url req
       = format_opt (jira_url self) +:+ "/search?jql=" +:+ encoded)
  ∧ (∀ req,
       Urlopen req ∈ trace (get_open_jira_issues E self project_id) →
       encodable (format E project_id)
       ∧ req_method req = "GET"
       ∧ ∃ encoded,
           quote_plus text = Ok encoded
           ∧ req_url req
             = format_opt (jira_url self) +:+ "/search?jql=" +:+ encoded)
  ∧ text
    = JQL.render 0 (JQL.sent (format E project_id)) +:+ " order by duedate"
  ∧ ∀ other issuetype,
      other ≠ format E project_id →
      let stray := JQL.issue_with other issuetype "'To Do'" in
      JQL.matches (JQL.sent (format E project_id)) stray = true
      ∧ JQL.matches (JQL.scoped (format E project_id)) stray = false.
Proof.
  intros text.
  assert (encodable (format E project_id) →
          quote_plus text = Ok (quote_bytes text)) as Hquote.
  { intros Henc. assert (text = jql E project_id) as -> by done.
    unfold quote_plus, str_encode. rewrite has_surrogate_jql.
    by rewrite Henc. }
  split; [|split; [|split]].
  - intros Henc.
    pose proof (search_request_encodable E self project_id Henc) as Hreq.
    destruct (get_open_jira_issues_trace E self project_id _ Hreq)
      as (logs & Htrace & Hlogs).
    eexists _, logs, (quote_bytes text).
    split; [exact Htrace|]. split; [done|]. split; [done|].
    split; [by apply Hquote|done].
  - intros req Hin.
    assert (encodable (format E project_id)) as Henc.
    { unfold encodable.
      destruct (has_surrogate (format E project_id)) eqn:Hs; [|done].
      destruct (get_open_jira_issues_unencodable E self project_id)
        as [msg Hrun].
      { unfold encodable. by rewrite Hs. }
      rewrite Hrun in Hin. by apply elem_of_nil in Hin. }
    split; [done|].
    pose proof (search_request_encodable E self project_id Henc) as Hreq.
    destruct (get_open_jira_issues_trace E self project_id _ Hreq)
      as (logs & Htrace & Hlogs).
    rewrite Htrace in Hin. apply elem_of_cons in Hin as [Heq|Hin].
    + injection Heq as ->. split; [done|].
      exists (quote_bytes text). split; [by apply Hquote|done].
    + eapply Forall_forall in Hlogs; [|exact Hin]. done.
  - subst text. unfold JQL.sent. simpl. unfold JQL.paren. simpl.
    by rewrite !string_app_assoc.
  - intros other issuetype Hne stray. subst stray. simpl.
    rewrite eqb_string_decide, bool_decide_eq_false_2 by done.
    done.
Qed.

(** ** Calendar arithmetic *)

Lemma month_day_spec leap n :
  0 ≤ n ≤ 364 →
  let '(m, d) := month_day leap n in
  1 ≤ m ≤ 12 ∧ 1 ≤ d ≤ 31 ∧ days_before_month leap m + d = n + 1.
Proof.
  intros Hn. unfold month_day. rewrite Z.shiftr_div_pow2 by lia.
  change (2 ^ 5) with 32.
  pose proof (Z.div_mod (n + 50) 32 ltac:(lia)) as Hdm.
  pose proof (Z.mod_pos_bound (n + 50) 32 ltac:(lia)) as Hb.
  generalize dependent ((n + 50) `mod` 32).
  generalize dependent ((n + 50) `div` 32).
  intros m r Hdm Hb.
  assert (m = 1 ∨ m = 2 ∨ m = 3 ∨ m = 4 ∨ m = 5 ∨ m = 6 ∨ m = 7 ∨ m = 8
          ∨ m = 9 ∨ m = 10 ∨ m = 11 ∨ m = 12) as Hcase by lia.
  destruct leap;
    repeat (destruct Hcase as [->|Hcase]); try subst m; simpl;
    match goal with
    | |- context [?a >? ?b] => destruct (Z.gtb_spec a b)
    end; simpl; lia.
Qed.

(** Days before 1 January of the year after [400a + 100b + 4c + d]
    whole years. *)
Lemma year_start n400 n100 n4 n1 :
  0 ≤ n100 ≤ 3 → 0 ≤ n4 ≤ 24 → 0 ≤ n1 ≤ 3 →
  let y1 := 400 * n400 + 100 * n100 + 4 * n4 + n1 in
  y1 * 365 + y1 `div` 4 - y1 `div` 100 + y1 `div` 400
  = 146097 * n400 + 36524 * n100 + 1461 * n4 + 365 * n1.
Proof. intros. subst y1. Z.div_mod_to_equations. lia. Qed.

Lemma leap_digits n400 n100 n4 n1 :
  0 ≤ n100 ≤ 3 → 0 ≤ n4 ≤ 24 → 0 ≤ n1 ≤ 3 →
  is_leap (400 * n400 + 1 + 100 * n100 + 4 * n4 + n1)
  = (n1 =? 3) && (negb (n4 =? 24) || (n100 =? 3)).
Proof.
  intros. unfold is_leap.
  repeat match goal with
         | |- context [?a =? ?b] => destruct (Z.eqb_spec a b)
         end; simpl; try reflexivity;
    exfalso; Z.div_mod_to_equations; lia.
Qed.

Ltac abstract_divmod a b q r :=
  let Hdm := fresh "Hdm" in
  let Hb := fresh "Hb" in
  pose proof (Z.div_mod a b ltac:(lia)) as Hdm;
  pose proof (Z.mod_pos_bound a b ltac:(lia)) as Hb;
  generalize dependent (a `mod` b); generalize dependent (a `div` b);
  intros q r Hdm Hb.

(** The date [ord2ymd] gives for day [n] is the date whose ordinal is
    [n]. *)
Lemma ord2ymd_roundtrip n :
  1 ≤ n →
  let '(y, m, d) := ord2ymd n in
  ymd2ord y m d = n ∧ 1 ≤ m ≤ 12 ∧ 1 ≤ d ≤ 31
  ∧ 1 ≤ y ∧ (n ≤ MAXORDINAL → y ≤ 9999).
Proof.
  intros Hn. unfold ord2ymd, MAXORDINAL, DI400Y, DI100Y, DI4Y.
  abstract_divmod (n - 1) 146097 n400 r1.
  abstract_divmod r1 36524 n100 r2.
  abstract_divmod r2 1461 n4 r3.
  abstract_divmod r3 365 n1 r4.
  destruct (Z.eqb_spec n1 4) as [H1|H1]; simpl.
  - subst n1. assert (r4 = 0) by lia. subst r4.
    assert (0 ≤ n100 ≤ 3) by lia. assert (0 ≤ n4 ≤ 23) by lia.
    unfold ymd2ord.
    replace (n400 * 400 + 1 + n100 * 100 + n4 * 4 + 4 - 1 - 1)
      with (400 * n400 + 100 * n100 + 4 * n4 + 3) by lia.
    rewrite year_start by lia.
    replace (n400 * 400 + 1 + n100 * 100 + n4 * 4 + 4 - 1)
      with (400 * n400 + 1 + 100 * n100 + 4 * n4 + 3) by lia.
    rewrite leap_digits by lia.
    replace (n4 =? 24) with false by (symmetry; apply Z.eqb_neq; lia).
    simpl. lia.
  - destruct (Z.eqb_spec n100 4) as [H100|H100]; simpl.
    + subst n100. assert (r2 = 0) by lia. subst r2.
      assert (n4 = 0) by lia. assert (n1 = 0) by lia. subst.
      unfold ymd2ord.
      replace (n400 * 400 + 1 + 4 * 100 + 0 * 4 + 0 - 1 - 1)
        with (400 * n400 + 100 * 3 + 4 * 24 + 3) by lia.
      rewrite year_start by lia.
      replace (n400 * 400 + 1 + 4 * 100 + 0 * 4 + 0 - 1)
        with (400 * n400 + 1 + 100 * 3 + 4 * 24 + 3) by lia.
      rewrite leap_digits by lia. simpl. lia.
    + assert (0 ≤ n100 ≤ 3) by lia. assert (0 ≤ n4 ≤ 24) by lia.
      assert (0 ≤ n1 ≤ 3) by lia.
      set (leap := (n1 =? 3) && (negb (n4 =? 24) || (n100 =? 3))).
      pose proof (month_day_spec leap r4 ltac:(lia)) as Hmd.
      unfold month_day in Hmd.
      set (year := n400 * 400 + 1 + n100 * 100 + n4 * 4 + n1).
      assert (∀ m d, ymd2ord year m d
                = 146097 * n400 + 36524 * n100 + 1461 * n4 + 365 * n1
                  + days_before_month leap m + d) as ymd_year.
      { intros m d. unfold ymd2ord. subst year.
        replace (n400 * 400 + 1 + n100 * 100 + n4 * 4 + n1 - 1)
          with (400 * n400 + 100 * n100 + 4 * n4 + n1) by lia.
        rewrite year_start by lia.
        replace (n400 * 400 + 1 + n100 * 100 + n4 * 4 + n1)
          with (400 * n400 + 1 + 100 * n100 + 4 * n4 + n1) by lia.
        by rewrite leap_digits by lia. }
      destruct (days_before_month leap (Z.shiftr (r4 + 50) 5) >? r4);
        rewrite ymd_year; subst year; lia.
Qed.

(** ** Dates as text *)

Lemma plain_char c :
  plain c = true →
  (N_of_ascii c <? 192)%N = true ∧ escape_char (N_of_ascii c) = String c "".
Proof.
  destruct c as [[] [] [] [] [] [] [] []]; vm_compute; (discriminate || done).
Qed.

Lemma encode_plain s :
  forallb plain (String.list_ascii_of_string s) = true →
  encode_str s = quoted s.
Proof.
  intros Hs. unfold encode_str, quoted. do 2 f_equal.
  induction s as [|c s IH]; [done|].
  simpl in Hs. apply andb_true_iff in Hs as [Hc Hs].
  destruct (plain_char c Hc) as [Hlt Hesc].
  cbn [utf8_decode]. rewrite Hlt. cbn [map String.concat]. rewrite Hesc.
  specialize (IH Hs).
  destruct (map escape_char (utf8_decode s)) as [|x xs] eqn:Hm.
  - simpl in IH. by subst s.
  - by rewrite IH.
Qed.

Lemma digit_props n :
  is_digit (digit n) = true ∧ plain (digit n) = true
  ∧ digit_val (digit n) = n `mod` 10.
Proof.
  unfold digit.
  pose proof (Z.mod_pos_bound n 10 ltac:(lia)) as Hk.
  generalize dependent (n `mod` 10). intros k Hk.
  assert (k = 0 ∨ k = 1 ∨ k = 2 ∨ k = 3 ∨ k = 4 ∨ k = 5 ∨ k = 6 ∨ k = 7
          ∨ k = 8 ∨ k = 9) as Hcase by lia.
  repeat (destruct Hcase as [->|Hcase]); try subst k; by vm_compute.
Qed.

Lemma decimal_pad4 y : 0 ≤ y ≤ 9999 → decimal (pad4 y) = y.
Proof.
  intros Hy. unfold decimal, pad4, pad2. simpl.
  rewrite !(proj2 (proj2 (digit_props _))).
  Z.div_mod_to_equations. lia.
Qed.

Lemma decimal_pad2 n : 0 ≤ n ≤ 99 → decimal (pad2 n) = n.
Proof.
  intros Hn. unfold decimal, pad2. simpl.
  rewrite !(proj2 (proj2 (digit_props _))).
  Z.div_mod_to_equations. lia.
Qed.

Lemma iso_date_chars y m d :
  String.list_ascii_of_string (iso_date y m d)
  = [digit (y `div` 1000); digit (y `div` 100); digit (y `div` 10); digit y;
     "-"%char;
     digit (m `div` 10); digit m; "-"%char; digit (d `div` 10); digit d].
Proof. reflexivity. Qed.

Lemma iso_date_shape y m d : is_iso_shape (iso_date y m d) = true.
Proof.
  unfold is_iso_shape. rewrite iso_date_chars.
  cbn [forallb]. rewrite !(proj1 (digit_props _)). done.
Qed.


Lemma iso_date_plain y m d :
  forallb plain (String.list_ascii_of_string (iso_date y m d)) = true.
Proof.
  rewrite iso_date_chars. cbn [forallb].
  rewrite !(proj1 (proj2 (digit_props _))). done.
Qed.

(** The year as [%Y] writes it without padding, for the years of the
    calendar. *)
Lemma pretty_year y :
  1 ≤ y ≤ 9999 →
  decimal (pretty y) = y
  ∧ forallb plain (String.list_ascii_of_string (pretty y)) = true
  ∧ (1000 ≤ y → pretty y = pad4 y).
Proof.
  intros Hy.
  assert (forallb
            (λ y, (decimal (pretty y) =? y)
                  && forallb plain (String.list_ascii_of_string (pretty y))
                  && ((y <? 1000) || String.eqb (pretty y) (pad4 y)))
            (Z.of_nat <$> seq 1 (Z.to_nat 9999)) = true) as Hall by (by vm_compute).
  rewrite forallb_forall in Hall. specialize (Hall y).
  rewrite !andb_true_iff, Z.eqb_eq, orb_true_iff, Z.ltb_lt, String.eqb_eq
    in Hall.
  destruct Hall as [[Hdec Hplain] Hpad].
  { apply list_elem_of_In, list_elem_of_fmap. exists (Z.to_nat y).
    split; [lia|]. apply elem_of_seq. lia. }
  split; [done|]. split; [done|]. intros Hbig.
  destruct Hpad as [?|?]; [lia|done].
Qed.

Lemma year_text_props pads y :
  1 ≤ y ≤ 9999 →
  decimal (year_text pads y) = y
  ∧ forallb plain (String.list_ascii_of_string (year_text pads y)) = true
  ∧ (1000 ≤ y ∨ pads = true → year_text pads y = pad4 y).
Proof.
  intros Hy. destruct (pretty_year y Hy) as (Hdec & Hplain & Hpad).
  unfold year_text. destruct pads.
  - split; [apply decimal_pad4; lia|]. split; [|done].
    change (pad4 y) with
      (String (digit (y `div` 1000))
         (String (digit (y `div` 100))
            (String (digit (y `div` 10)) (String (digit y) "")))).
    cbn [String.list_ascii_of_string forallb].
    by rewrite !(proj1 (proj2 (digit_props _))).
  - split; [done|]. split; [done|]. intros [Hbig|?]; [by apply Hpad|done].
Qed.

Lemma forallb_plain_app s t :
  forallb plain (String.list_ascii_of_string (s +:+ t))
  = forallb plain (String.list_ascii_of_string s)
    && forallb plain (String.list_ascii_of_string t).
Proof.
  induction s as [|c s IH]; [done|].
  change (String c s +:+ t) with (String c (s +:+ t)).
  cbn [String.list_ascii_of_string forallb]. by rewrite IH, andb_assoc.
Qed.

(** ** The issue tracker: updating a due date *)

Lemma update_payload_dumps due :
  json_dumps (VDict [("fields", VDict [("duedate", VStr due)])])
  = Ok ("{" +:+ quoted "fields" +:+ ": {" +:+ quoted "duedate" +:+ ": "
        +:+ encode_str due +:+ "}}").
Proof.
  cbn [json_dumps String.concat map sequence fst snd]. f_equal.
  generalize (encode_str due). intros q.
  change (encode_str "fields") with (quoted "fields").
  change (encode_str "duedate") with (quoted "duedate").
  rewrite !string_app_assoc. reflexivity.
Qed.

Section update_issue.
Context (E : Env) (self : JiraInteraction).

Lemma due_date_after_representable w :
  representable E w →
  due_date_after E w
  = Ok (strftime_Ymd (strftime_pads_year E)
          {| toordinal := toordinal (now E) + 7 * w;
             time_of_day := time_of_day (now E) |}).
Proof.
  intros [Hnow Hdue]. unfold due_date_after, timedelta_weeks, MAXORDINAL in *.
  destruct (Z.gtb_spec (Z.abs (7 * w)) 999999999) as [Hbig|_]; [lia|].
  unfold datetime_add, MAXORDINAL. simpl.
  destruct (Z.ltb_spec 0 (toordinal (now E) + 7 * w)); [|lia].
  destruct (Z.leb_spec (toordinal (now E) + 7 * w) 3652059); [|lia].
  done.
Qed.

Lemma update_jira_issue_unfold issue_key w due_date payload :
  due_date_after E w = Ok due_date →
  json_dumps (VDict [("fields", VDict [("duedate", VStr due_date)])])
  = Ok payload →
  let req := update_request E self issue_key payload in
  (∃ logs,
     trace (update_jira_issue E self issue_key w) = Urlopen req :: logs
     ∧ Forall is_log logs)
  ∧ outcome (update_jira_issue E self issue_key w)
    = Ok (match urlopen E req with
          | inr _ => [("issueKey", of_json issue_key);
                      ("newTimeline", VInt w)]
          | inl _ => []
          end).
Proof.
  intros Hdue Hpayload req. unfold update_jira_issue.
  rewrite Hdue, bind_lift_ok, Hpayload, bind_lift_ok. fold req.
  pose proof (http_exchange_outcome E req) as Hx.
  pose proof (http_exchange_trace E req) as Ht.
  destruct (urlopen E req) as [err|text].
  - split.
    + erewrite trace_try_raise; [|by erewrite outcome_bind_raise].
      erewrite trace_bind_raise; [|done]. rewrite Ht.
      eexists. split; [done|]. apply swallow_trace_logs.
    + erewrite outcome_try_raise; [|by erewrite outcome_bind_raise].
      apply swallow_http_error.
  - split.
    + erewrite trace_try_ok; [|by erewrite outcome_bind_ok].
      erewrite trace_bind_ok; [|done]. rewrite Ht.
      eexists. split; [done|]. constructor.
    + erewrite outcome_try_ok; [done|]. by erewrite outcome_bind_ok.
Qed.

(** C3, amended.  For every [issue_key] and integer [timeline_in_weeks]
    such that the current date plus [timeline_in_weeks] weeks is a date
    of years 1 to 9999: the due date [update_jira_issue] computes is the
    calendar date [7 * timeline_in_weeks] days after the current date;
    it is sent as the [duedate] of the update payload, written as the
    year, the month and the day in decimal, month and day on two
    digits, with dashes between them: the form [YYYY-MM-DD] when the
    year has four digits or the platform pads the year; the method
    sends one PUT request, returns [{issueKey: issue_key, newTimeline:
    timeline_in_weeks}] when the exchange succeeds and the empty
    dictionary when it fails, and does not raise. *)
Theorem update_jira_issue_spec (issue_key : json) (w : Z) :
  representable E w →
  ∃ y m d due_date payload,
    ord2ymd (toordinal (now E) + 7 * w) = (y, m, d)
    ∧ ymd2ord y m d = toordinal (now E) + 7 * w
    ∧ (1 ≤ y ≤ 9999 ∧ 1 ≤ m ≤ 12 ∧ 1 ≤ d ≤ 31)
    ∧ due_date
      = year_text (strftime_pads_year E) y +:+ "-" +:+ pad2 m
        +:+ "-" +:+ pad2 d
    ∧ (decimal (year_text (strftime_pads_year E) y) = y
       ∧ decimal (pad2 m) = m ∧ decimal (pad2 d) = d)
    ∧ (1000 ≤ y ∨ strftime_pads_year E = true →
       due_date = iso_date y m d ∧ is_iso_shape due_date = true)
    ∧ json_dumps (VDict [("fields", VDict [("duedate", VStr due_date)])])
      = Ok payload
    ∧ payload = update_payload_text due_date
    ∧ let req := update_request E self issue_key payload in
      let returned := outcome (update_jira_issue E self issue_key w) in
      (∃ logs,
         trace (update_jira_issue E self issue_key w) = Urlopen req :: logs
         ∧ Forall is_log logs)
      ∧ (∀ text, urlopen E req = inr text →
           returned = Ok [("issueKey", of_json issue_key);
                          ("newTimeline", VInt w)])
      ∧ (∀ err, urlopen E req = inl err → returned = Ok [])
      ∧ (∃ r, returned = Ok r).
Proof.
  intros Hrep. pose proof (due_date_after_representable w Hrep) as Hdue.
  destruct Hrep as [Hnow Hrange].
  pose proof (ord2ymd_roundtrip (toordinal (now E) + 7 * w) ltac:(lia)) as Hrt.
  unfold strftime_Ymd in Hdue. cbn [toordinal] in Hdue.
  destruct (ord2ymd (toordinal (now E) + 7 * w)) as [[y m] d].
  destruct Hrt as (Hord & Hm & Hd & Hy1 & Hy2). specialize (Hy2 (proj2 Hrange)).
  destruct (year_text_props (strftime_pads_year E) y ltac:(lia))
    as (Hdec & Hplain & Hpad).
  set (due_date := year_text (strftime_pads_year E) y
                   +:+ "-" +:+ pad2 m +:+ "-" +:+ pad2 d) in *.
  exists y, m, d, due_date. eexists.
  split; [done|]. split; [done|]. split; [lia|]. split; [done|].
  split.
  { split; [done|]. split; apply decimal_pad2; lia. }
  split.
  { intros Hcase. subst due_date. rewrite (Hpad Hcase).
    split; [done|]. apply iso_date_shape. }
  split; [apply update_payload_dumps|].
  split.
  { unfold update_payload_text. rewrite encode_plain; [done|].
    subst due_date. rewrite forallb_plain_app, Hplain.
    pose proof (iso_date_plain y m d) as Hiso.
    unfold iso_date in Hiso. rewrite forallb_plain_app in Hiso.
    by apply andb_true_iff in Hiso as [_ ->]. }
  intros req returned.
  destruct (update_jira_issue_unfold issue_key w _ _ Hdue
              (update_payload_dumps _)) as [Htrace Hout].
  fold req in Htrace, Hout. subst returned. rewrite Hout.
  split; [exact Htrace|].
  split; [by intros text ->|]. split; [by intros err ->|]. by eexists.
Qed.

End update_issue.

(** C3, as stated, fails: a timeline that leaves the calendar makes the
    date arithmetic raise before any request is sent. *)
Lemma update_jira_issue_raises_out_of_range :
  outcome (update_jira_issue Sample.env Sample.jira (JStr "CRM-1") 1000000)
  = Raise (PyError "OverflowError" "date value out of range")
  ∧ trace (update_jira_issue Sample.env Sample.jira (JStr "CRM-1") 1000000)
    = [].
Proof. by vm_compute. Qed.

(** C3, on the sample tracker: two weeks from 2026-11-03. *)
Lemma update_jira_issue_spec_witness :
  representable Sample.online 2
  ∧ ∃ r, outcome (update_jira_issue Sample.online Sample.jira
                     (JStr "CRM-1") 2) = Ok r.
Proof.
  assert (representable Sample.online 2) as Hrep.
  { unfold representable, MAXORDINAL. simpl. lia. }
  split; [exact Hrep|].
  destruct (update_jira_issue_spec Sample.online Sample.jira
              (JStr "CRM-1") 2 Hrep)
    as (y & m & d & due & payload & _ & _ & _ & _ & _ & _ & _ & _ & _ & _
        & _ & Hr).
  exact Hr.
Defined.

(** The form [YYYY-MM-DD] is that of a year of four digits: two weeks
    after 19 February 876, where [%Y] does not pad, the due date sent
    is [876-03-04]. *)
Example update_jira_issue_small_year :
  ord2ymd (toordinal (now Faults.year_876) + 7 * 2) = (876, 3, 4)
  ∧ is_iso_shape "876-03-04" = false
  ∧ update_jira_issue Faults.year_876 Sample.jira (JStr "CRM-1") 2
    = ([Urlopen {| req_method := "PUT";
                   req_url := "https://jira.example/rest/api/2/issue/CRM-1";
                   req_headers := headers Sample.jira;
                   req_data := Some (update_payload_text "876-03-04") |}],
       Ok [("issueKey", VStr "CRM-1"); ("newTimeline", VInt 2)]).
Proof. by vm_compute. Qed.

Example update_jira_issue_sample :
  update_jira_issue Sample.online Sample.jira (JStr "CRM-1") 2
  = ([Urlopen {| req_method := "PUT";
                 req_url := "https://jira.example/rest/api/2/issue/CRM-1";
                 req_headers := headers Sample.jira;
                 req_data := Some (update_payload_text "2026-11-17") |}],
     Ok [("issueKey", VStr "CRM-1"); ("newTimeline", VInt 2)]).
Proof. by vm_compute. Qed.

(** ** What [json.dumps] can encode *)

Lemma json_nested_ind (P : json → Prop) :
  P JNull → (∀ b, P (JBool b)) → (∀ n, P (JInt n)) → (∀ f, P (JFloat f)) →
  (∀ s, P (JStr s)) →
  (∀ l, Forall P l → P (JList l)) →
  (∀ d, Forall (λ kv, P kv.2) d → P (JDict d)) →
  ∀ j, P j.
Proof.
  intros Hnull Hbool Hint Hfloat Hstr Hlist Hdict.
  fix IH 1. intros [|b|n|f|s|l|d].
  - exact Hnull.
  - apply Hbool.
  - apply Hint.
  - apply Hfloat.
  - apply Hstr.
  - apply Hlist. induction l as [|x l IHl]; constructor; [apply IH|apply IHl].
  - apply Hdict. induction d as [|[k x] d IHd]; constructor;
      [apply IH|apply IHd].
Qed.

Lemma sequence_ok {A} (l : list (result A)) :
  Forall (λ r, ∃ a, r = Ok a) l → ∃ r, sequence l = Ok r.
Proof.
  induction 1 as [|x l [a ->] _ [r IH]]; simpl; [by eexists|].
  rewrite IH. by eexists.
Qed.

Lemma serializable_list l : Forall serializable l → serializable (VList l).
Proof.
  intros Hl. unfold serializable. simpl.
  destruct (sequence_ok (map json_dumps l)) as [ts ->]; [|by eexists].
  apply Forall_fmap. eapply Forall_impl; [exact Hl|].
  intros v [t Ht]. by exists t.
Qed.

Lemma serializable_dict d :
  Forall (λ kv, serializable kv.2) d → serializable (VDict d).
Proof.
  intros Hd. unfold serializable. simpl.
  match goal with |- context [sequence ?l] =>
    destruct (sequence_ok l) as [ts ->]; [|by eexists] end.
  apply Forall_fmap. eapply Forall_impl; [exact Hd|].
  intros [k v] [t Ht]. simpl in *. rewrite Ht. by eexists.
Qed.

Lemma serializable_of_json j : serializable (of_json j).
Proof.
  induction j as [| | | | |l IH|d IH] using json_nested_ind;
    try (by eexists).
  - simpl. apply serializable_list. by apply Forall_fmap.
  - simpl. apply serializable_dict. apply Forall_fmap.
    eapply Forall_impl; [exact IH|]. by intros [k v].
Qed.

Lemma serializable_message result :
  serializable result → serializable (VDict [("message", result)]).
Proof. intros H. apply serializable_dict. by constructor. Qed.

Lemma task_of_issue_serializable issue task :
  task_of_issue issue = Ok task → serializable (VDict task).
Proof.
  intros Ht. unfold task_of_issue in Ht. repeat step_result.
  injection Ht as <-. apply serializable_dict.
  repeat constructor; apply serializable_of_json.
Qed.

Lemma open_tasks_serializable issues tasks :
  open_tasks_loop issues = Ok tasks → serializable (items_value tasks).
Proof.
  intros Hl. apply serializable_list, Forall_fmap.
  apply open_tasks_loop_each in Hl.
  induction Hl as [|issue task issues tasks Ht _ IH]; constructor; [|done].
  by eapply task_of_issue_serializable.
Qed.

(** ** The router *)

Lemma outcome_bind {A B} (m : M A) (k : A → M B) :
  outcome (bind m k)
  = match outcome m with
    | Ok a => outcome (k a)
    | Raise e => Raise e
    end.
Proof.
  destruct m as [t [a|e]]; [|done].
  apply (outcome_bind_ok (t, Ok a) k a). done.
Qed.

Lemma message_dumps result text :
  json_dumps result = Ok text →
  json_dumps (VDict [("message", result)]) = Ok (message_body text).
Proof.
  intros H. cbn [json_dumps map sequence fst snd]. rewrite H.
  cbn [String.concat]. unfold message_body.
  change (encode_str "message") with (quoted "message").
  by rewrite !string_app_assoc.
Qed.

Section router.
Context (E : Env).

Lemma lambda_handler_parse_raise event e :
  parse_event E event = Raise e →
  lambda_handler E event = ([LogObject INFO (of_json event)], Raise e).
Proof. intros H. unfold lambda_handler. rewrite H. done. Qed.

Lemma lambda_handler_init_raise event p e :
  parse_event E event = Ok p →
  outcome (JiraInteraction_init E) = Raise e →
  lambda_handler E event
  = (prologue E event p ++ trace (JiraInteraction_init E), Raise e).
Proof.
  intros Hp Hi. unfold lambda_handler. rewrite Hp.
  destruct (JiraInteraction_init E) as [t r]. simpl in Hi. subst r. done.
Qed.

Lemma lambda_handler_dispatched event p jira :
  parse_event E event = Ok p →
  outcome (JiraInteraction_init E) = Ok jira →
  outcome (lambda_handler E event)
  = match outcome (dispatch E service jira p) with
    | Ok dispatched => respond dispatched
    | Raise e => Raise e
    end
  ∧ ∃ rest,
      trace (lambda_handler E event)
      = prologue E event p ++ trace (JiraInteraction_init E)
        ++ trace (dispatch E service jira p) ++ rest.
Proof.
  intros Hp Hi. unfold lambda_handler. rewrite Hp.
  destruct (JiraInteraction_init E) as [t r]. simpl in Hi. subst r.
  fold service. unfold respond.
  cbv beta iota delta [bind emit lift outcome trace fst snd].
  destruct (dispatch E service jira p) as [td [[code result]|e]].
  - cbv beta iota.
    destruct (json_dumps (VDict [("message", result)])) as [body|e].
    + split; [done|]. by eexists.
    + split; [done|]. exists []. simpl. by rewrite !app_nil_r.
  - split; [done|]. exists []. simpl. by rewrite !app_nil_r.
Qed.

Lemma eq_str_true path s : eq_str path s = true → path = JStr s.
Proof.
  destruct path; try done. simpl. by intros ->%String.eqb_eq.
Qed.

Lemma eq_str_refl s : eq_str (JStr s) s = true.
Proof. simpl. apply String.eqb_refl. Qed.

Lemma dispatch_unrecognized cs jira p :
  ¬ recognized (api_path p) →
  dispatch E cs jira p
  = ret (404, VStr ("Unrecognized api path: " +:+ format E (api_path p))).
Proof.
  intros Hnot. unfold dispatch.
  repeat match goal with
         | |- context [eq_str (api_path p) ?s] =>
             destruct (eq_str (api_path p) s) eqn:?Heq;
               [ exfalso; apply Hnot; exists s;
                 split; [unfold recognized_paths; set_solver
                        |by apply eq_str_true]
               | ]
         end.
  done.
Qed.

Lemma dispatch_list cs jira p :
  api_path p = JStr "/listRecentInteractions" →
  outcome (dispatch E cs jira p)
  = match int (count p) with
    | Raise e => Raise e
    | Ok n =>
        match outcome (get_recent_customer_interactions E cs (customer_id p) n)
        with
        | Raise e => Raise e
        | Ok items => Ok (200, items_value items)
        end
    end.
Proof.
  intros Hp. unfold dispatch. rewrite Hp. cbn [eq_str String.eqb Ascii.eqb
    Bool.eqb]. rewrite outcome_bind, outcome_lift.
  destruct (int (count p)) as [n|e]; [|done].
  rewrite outcome_bind. by destruct (outcome _).
Qed.

Lemma dispatch_preferences cs jira p :
  api_path p = JStr "/getPreferences" →
  outcome (dispatch E cs jira p)
  = match outcome (get_customer_preferences E cs (customer_id p)) with
    | Raise e => Raise e
    | Ok prefs => Ok (200, opt_item_value prefs)
    end.
Proof.
  intros Hp. unfold dispatch. rewrite Hp. cbn [eq_str String.eqb Ascii.eqb
    Bool.eqb]. rewrite outcome_bind. by destruct (outcome _).
Qed.

Lemma dispatch_overview cs jira p :
  api_path p = JStr "/companyOverview" →
  outcome (dispatch E cs jira p)
  = match outcome (get_customer_overview E cs (customer_id p)) with
    | Raise e => Raise e
    | Ok overview => Ok (200, overview)
    end.
Proof.
  intros Hp. unfold dispatch. rewrite Hp. cbn [eq_str String.eqb Ascii.eqb
    Bool.eqb]. rewrite outcome_bind. by destruct (outcome _).
Qed.

Lemma dispatch_open_issues cs jira p :
  api_path p = JStr "/getOpenJiraIssues" →
  outcome (dispatch E cs jira p)
  = match outcome (get_open_jira_issues E jira (project_id p)) with
    | Raise e => Raise e
    | Ok tasks => Ok (200, items_value tasks)
    end.
Proof.
  intros Hp. unfold dispatch. rewrite Hp. cbn [eq_str String.eqb Ascii.eqb
    Bool.eqb]. rewrite outcome_bind. by destruct (outcome _).
Qed.

Lemma dispatch_update cs jira p :
  api_path p = JStr "/updateJiraIssue" →
  outcome (dispatch E cs jira p)
  = match int (timeline_in_weeks p) with
    | Raise e => Raise e
    | Ok weeks =>
        match outcome (update_jira_issue E jira (issue_key p) weeks) with
        | Raise e => Raise e
        | Ok updated => Ok (200, VDict updated)
        end
    end.
Proof.
  intros Hp. unfold dispatch. rewrite Hp. cbn [eq_str String.eqb Ascii.eqb
    Bool.eqb]. rewrite outcome_bind, outcome_lift.
  destruct (int (timeline_in_weeks p)) as [n|e]; [|done].
  rewrite outcome_bind. by destruct (outcome _).
Qed.

Lemma dispatch_recognized_code cs jira p code result :
  recognized (api_path p) →
  outcome (dispatch E cs jira p) = Ok (code, result) →
  code = 200.
Proof.
  intros (s & Hs & Hp). unfold recognized_paths in Hs.
  repeat (apply elem_of_cons in Hs as [->|Hs]).
  - rewrite (dispatch_list _ _ _ Hp).
    destruct (int _); [|done]. destruct (outcome _); [|done]. congruence.
  - rewrite (dispatch_preferences _ _ _ Hp).
    destruct (outcome _); [|done]. congruence.
  - rewrite (dispatch_overview _ _ _ Hp).
    destruct (outcome _); [|done]. congruence.
  - rewrite (dispatch_open_issues _ _ _ Hp).
    destruct (outcome _); [|done]. congruence.
  - rewrite (dispatch_update _ _ _ Hp).
    destruct (int _); [|done]. destruct (outcome _); [|done]. congruence.
  - by apply elem_of_nil in Hs.
Qed.

End router.

(** ** Constructing the tracker client *)

Ltac elem_of_list :=
  repeat (apply elem_of_cons; first [by left | right]).

Ltac no_downstream :=
  simpl; rewrite ?app_nil_r;
  repeat (apply Forall_cons_2; [by intros []|]);
  first [apply Forall_nil_2 | assumption].

Section construction.
Context (E : Env).

Lemma get_secret_run name :
  get_secret E name
  = ([GetSecretValue name],
     match secrets E name with
     | Ok r => Ok (SecretString r)
     | Raise e => Raise e
     end).
Proof.
  unfold get_secret, get_secret_value, try_except, bind, emit, lift, raise, ret.
  by destruct (secrets E name).
Qed.

Lemma get_jira_api_key_outcome arn :
  outcome (get_jira_api_key E arn)
  = match arn with
    | None => Raise param_validation_error
    | Some a =>
        match secrets E a with
        | Raise e => Raise e
        | Ok r =>
            match SecretString r with
            | Some key => Ok key
            | None => KeyError "SecretString"
            end
        end
    end.
Proof.
  unfold get_jira_api_key, get_secret_value, try_except, bind, emit, lift,
    raise, ret, log_and_reraise, outcome.
  destruct arn as [a|]; [|done].
  destruct (secrets E a) as [r|e]; [|done].
  by destruct (SecretString r).
Qed.

Lemma get_jira_api_key_trace arn :
  Forall (λ ev, ¬ downstream_call ev) (trace (get_jira_api_key E arn)).
Proof.
  unfold get_jira_api_key, get_secret_value, try_except, bind, emit, lift,
    raise, ret, log_and_reraise, trace.
  destruct arn as [a|]; [|no_downstream].
  destruct (secrets E a) as [r|e]; [|no_downstream].
  destruct (SecretString r); no_downstream.
Qed.

Lemma JiraInteraction_init_outcome :
  outcome (JiraInteraction_init E)
  = match secrets E "JIRA_URL" with Raise e => Raise e | Ok url =>
    match secrets E "JIRA_API_KEY_ARN" with Raise e => Raise e | Ok arn =>
    match secrets E "JIRA_USER_NAME" with Raise e => Raise e | Ok user =>
    match outcome (get_jira_api_key E (SecretString arn)) with
    | Raise e => Raise e
    | Ok api_key =>
        let credentials :=
          b64encode (format_opt (SecretString user) +:+ ":" +:+ api_key) in
        Ok {| jira_url := SecretString url;
              jira_api_key_arn := SecretString arn;
              jira_username := SecretString user;
              credentials := credentials;
              headers := [("Accept", "application/json");
                          ("Content-Type", "application/json");
                          ("Authorization", "Basic " +:+ credentials)] |}
    end end end end.
Proof.
  unfold JiraInteraction_init. rewrite !get_secret_run.
  rewrite outcome_bind. unfold outcome at 1. cbn [snd].
  destruct (secrets E "JIRA_URL") as [url|e]; [|done].
  rewrite outcome_bind. unfold outcome at 1. cbn [snd].
  destruct (secrets E "JIRA_API_KEY_ARN") as [arn|e]; [|done].
  rewrite outcome_bind. unfold outcome at 1. cbn [snd].
  destruct (secrets E "JIRA_USER_NAME") as [user|e]; [|done].
  rewrite outcome_bind. by destruct (outcome _).
Qed.

Lemma JiraInteraction_init_trace :
  Forall (λ ev, ¬ downstream_call ev) (trace (JiraInteraction_init E)).
Proof.
  unfold JiraInteraction_init. rewrite !get_secret_run.
  pose proof (get_jira_api_key_trace) as Hk.
  unfold bind at 1.
  destruct (secrets E "JIRA_URL") as [url|e]; [|no_downstream].
  unfold bind at 1.
  destruct (secrets E "JIRA_API_KEY_ARN") as [arn|e]; [|no_downstream].
  unfold bind at 1.
  destruct (secrets E "JIRA_USER_NAME") as [user|e]; [|no_downstream].
  unfold bind at 1. specialize (Hk (SecretString arn)).
  destruct (get_jira_api_key E (SecretString arn)) as [t [k|e]];
    simpl in Hk; no_downstream.
Qed.
End construction.

Section construction_spec.
Context (E : Env).


End construction_spec.




(** ** What the tracker operations hand to the router *)

Section tracker_results.
Context (E : Env) (self : JiraInteraction).

Lemma get_open_jira_issues_returns project_id :
  encodable (format E project_id) →
  ∃ tasks,
    outcome (get_open_jira_issues E self project_id) = Ok tasks
    ∧ serializable (items_value tasks).
Proof.
  intros Henc.
  rewrite (get_open_jira_issues_outcome E self project_id _
             (search_request_encodable E self project_id Henc)).
  eexists. split; [done|].
  assert (serializable (items_value [])) as Hnil by (by eexists).
  destruct (urlopen E _) as [err|text]; [done|].
  destruct (json_loads E text) as [j|e]; [|done].
  destruct (open_tasks_of j) as [tasks|e] eqn:Ht; [|done].
  unfold open_tasks_of in Ht.
  destruct (getitem j "issues") as [v|]; [|done].
  destruct (iter v) as [issues|]; [|done].
  by eapply open_tasks_serializable.
Qed.

Lemma update_jira_issue_returns issue_key w :
  representable E w →
  ∃ updated,
    outcome (update_jira_issue E self issue_key w) = Ok updated
    ∧ serializable (VDict updated).
Proof.
  intros Hrep.
  destruct (update_jira_issue_unfold E self issue_key w _ _
              (due_date_after_representable E w Hrep)
              (update_payload_dumps _)) as [_ Hout].
  eexists. split; [exact Hout|].
  destruct (urlopen E _); [by eexists|].
  apply serializable_dict. repeat constructor; [|by eexists].
  apply serializable_of_json.
Qed.

End tracker_results.

(** ** Conversions of the router *)

(** [int] reads the decimal digits of every script and strips the
    whitespace [str.strip] would not: the Arabic-Indic three converts,
    a digit after a file separator does not. *)
Example int_reads_unicode_digits :
  int (JStr (String (chr 217) (String (chr 163) ""))) = Ok 3
  ∧ int (JStr (String (chr 194) (String (chr 160) " 12_000 "))) = Ok 12000
  ∧ is_ok (int (JStr (String (chr 28) "7"))) = false
  ∧ is_ok (int (JStr Faults.lone_surrogate)) = false.
Proof. by vm_compute. Qed.

(** ** Status codes *)

Section router_spec.
Context (E : Env).

Lemma respond_serializable code result :
  serializable result →
  ∃ text, json_dumps result = Ok text
          ∧ respond (code, result)
            = Ok {| statusCode := code; body := message_body text |}.
Proof.
  intros [text Ht]. exists text. split; [done|].
  unfold respond. cbn [fst snd]. by rewrite (message_dumps _ _ Ht).
Qed.

(** C1, amended.  For every inbound request that the handler parses
    and for which the tracker client is constructed: if the path is not
    one of the five recognized paths, [lambda_handler] returns status
    404 and the body [{"message": "Unrecognized api path: {path}"}];
    if the path is one of the five, the status of any response it
    returns is 200; and on the two tracker paths it does return a
    response, with status 200, whatever the tracker answers (for a
    search: when the text of the project id can be encoded as UTF-8;
    for an update: when the timeline converts to an integer and the
    due date is a date of the calendar). *)
Theorem lambda_handler_status event p jira :
  parse_event E event = Ok p →
  outcome (JiraInteraction_init E) = Ok jira →
  (¬ recognized (api_path p) →
     outcome (lambda_handler E event)
     = Ok {| statusCode := 404;
             body := message_body
                       (encode_str ("Unrecognized api path: "
                                    +:+ format E (api_path p))) |})
  ∧ (recognized (api_path p) →
       ∀ r, outcome (lambda_handler E event) = Ok r → statusCode r = 200)
  ∧ (api_path p = JStr "/getOpenJiraIssues" →
       encodable (format E (project_id p)) →
       ∃ r, outcome (lambda_handler E event) = Ok r ∧ statusCode r = 200)
  ∧ (api_path p = JStr "/updateJiraIssue" →
       ∀ weeks,
         int (timeline_in_weeks p) = Ok weeks → representable E weeks →
         ∃ r, outcome (lambda_handler E event) = Ok r ∧ statusCode r = 200).
Proof.
  intros Hp Hi.
  destruct (lambda_handler_dispatched E event p jira Hp Hi) as [Hout _].
  rewrite Hout. split; [|split; [|split]].
  - intros Hnot. rewrite (dispatch_unrecognized E _ _ _ Hnot).
    cbn [outcome ret snd].
    by destruct (respond_serializable 404
                   (VStr ("Unrecognized api path: " +:+ format E (api_path p)))
                   ltac:(by eexists)) as (text & [= <-] & ->).
  - intros Hrec r.
    destruct (outcome (dispatch E service jira p)) as [[code result]|e] eqn:Hd;
      [|done].
    apply (dispatch_recognized_code E) in Hd as ->; [|done].
    unfold respond. destruct (json_dumps _); [|done]. by intros [= <-].
  - intros Hpath Henc. rewrite (dispatch_open_issues E _ _ _ Hpath).
    destruct (get_open_jira_issues_returns E jira (project_id p) Henc)
      as (tasks & -> & Hser).
    destruct (respond_serializable 200 _ Hser) as (text & _ & ->).
    by eexists.
  - intros Hpath weeks Hint Hrep. rewrite (dispatch_update E _ _ _ Hpath), Hint.
    destruct (update_jira_issue_returns E jira (issue_key p) weeks Hrep)
      as (updated & -> & Hser).
    destruct (respond_serializable 200 _ Hser) as (text & _ & ->).
    by eexists.
Qed.

End router_spec.


(** C1, as stated, fails: with Secrets Manager unreachable, a request
    for an unrecognized path raises instead of returning status 404. *)
Lemma unrecognized_path_raises_without_secrets :
  ¬ recognized (JStr "/unknown")
  ∧ outcome (lambda_handler
               (unreachable (PyError "EndpointConnectionError"
                               "Could not connect to the endpoint URL")
                  Sample.env)
               (Sample.request "/unknown" [] JNull))
    = Raise (PyError "EndpointConnectionError"
               "Could not connect to the endpoint URL").
Proof.
  split; [|by vm_compute].
  intros (s & Hs & [= <-]). unfold recognized_paths in Hs.
  repeat (apply elem_of_cons in Hs as [[=]|Hs]). by apply elem_of_nil in Hs.
Qed.

(** The same happens with every service up when the request has no
    query string, for which API Gateway sends a null
    [queryStringParameters]. *)
Example unrecognized_path_raises_without_query :
  outcome (lambda_handler Sample.env
             (JDict [("pathParameters", JDict [("proxy", JStr "/unknown")]);
                     ("queryStringParameters", JNull);
                     ("body", JNull)]))
  = AttributeError "'NoneType' object has no attribute 'get'".
Proof. by vm_compute. Qed.

(** C1, on the sample deployment: an unknown path. *)
Lemma lambda_handler_status_witness :
  parse_event Sample.env (Sample.request "/unknown" [] JNull)
  = Ok {| api_path := JStr "/unknown"; customer_id := JNull; count := JNull;
          project_id := JNull; issue_key := JNull;
          timeline_in_weeks := JNull |}
  ∧ outcome (JiraInteraction_init Sample.env) = Ok Sample.jira
  ∧ outcome (lambda_handler Sample.env (Sample.request "/unknown" [] JNull))
    = Ok {| statusCode := 404;
            body := message_body (quoted "Unrecognized api path: /unknown") |}.
Proof.
  split; [reflexivity|]. split; [by vm_compute|].
  apply (proj1 (lambda_handler_status Sample.env
                  (Sample.request "/unknown" [] JNull) _ Sample.jira
                  eq_refl ltac:(by vm_compute))).
  intros (s & Hs & [= <-]). unfold recognized_paths in Hs.
  repeat (apply elem_of_cons in Hs as [[=]|Hs]). by apply elem_of_nil in Hs.
Defined.

(** ** Error policy of the router *)

Section store_failures.
Context (E : Env) (self : CustomerService).

Lemma get_recent_customer_interactions_failure customer_id n e :
  0 < n →
  failure (dynamodb E) (Query (interactions_table self) customer_id n) = Some e →
  get_recent_customer_interactions E self customer_id n
  = ([Dynamo (Query (interactions_table self) customer_id n);
      Log ERROR ("Error getting recent customer interactions: " +:+ exn_str e)],
     Raise e).
Proof.
  intros Hn Hf. unfold get_recent_customer_interactions, query, try_except.
  destruct (Z.ltb_spec n 1) as [|_]; [lia|]. simpl. by rewrite Hf.
Qed.

Lemma get_customer_details_failure customer_id args e :
  failure (dynamodb E)
    (GetItem (customer_table self) customer_id (str_join "," args)) = Some e →
  outcome (get_customer_details E self customer_id args) = Raise e.
Proof.
  intros Hf. unfold get_customer_details.
  erewrite outcome_try_raise; [done|]. by apply get_item_failure.
Qed.

Lemma get_customer_preferences_failure customer_id e :
  failure (dynamodb E)
    (GetItem (customer_table self) customer_id
       "meetingType,timeofDay,dayOfWeek") = Some e →
  outcome (get_customer_preferences E self customer_id) = Raise e.
Proof.
  intros Hf. unfold get_customer_preferences.
  erewrite outcome_try_raise; [done|].
  by apply (get_customer_details_failure customer_id preference_fields).
Qed.

Lemma get_customer_overview_failure customer_id e :
  failure (dynamodb E)
    (GetItem (customer_table self) customer_id "overview") = Some e →
  outcome (get_customer_overview E self customer_id) = Raise e.
Proof.
  intros Hf. unfold get_customer_overview.
  erewrite outcome_try_raise; [done|].
  erewrite outcome_bind_raise; [done|].
  by apply (get_customer_details_failure customer_id ["overview"]).
Qed.

End store_failures.

Section router_policy.
Context (E : Env).

(** C2, amended.  For every inbound request with a recognized path
    that the handler parses and for which the tracker client is
    constructed, the router has no exception handler of its own: an
    exception of its conversions [int(count)] and
    [int(timeline_in_weeks)] propagates, and so does a failure of a
    customer-store operation; a failure of the tracker's HTTP exchange
    never propagates, the router returns status 200 with the empty
    result the tracker operation converted it to.  What the search
    raises before its exchange, for a project id whose text cannot be
    encoded as UTF-8, propagates as well. *)
Theorem router_error_policy event p jira :
  parse_event E event = Ok p →
  outcome (JiraInteraction_init E) = Ok jira →
  let returned := outcome (lambda_handler E event) in
  (api_path p = JStr "/listRecentInteractions" →
     (∀ e, int (count p) = Raise e → returned = Raise e)
     ∧ (∀ n e,
          int (count p) = Ok n → 0 < n →
          failure (dynamodb E)
            (Query interaction_table_name (customer_id p) n) = Some e →
          returned = Raise e))
  ∧ (api_path p = JStr "/getPreferences" →
       ∀ e,
         failure (dynamodb E)
           (GetItem customer_table_name (customer_id p)
              "meetingType,timeofDay,dayOfWeek") = Some e →
         returned = Raise e)
  ∧ (api_path p = JStr "/companyOverview" →
       ∀ e,
         failure (dynamodb E)
           (GetItem customer_table_name (customer_id p) "overview") = Some e →
         returned = Raise e)
  ∧ (api_path p = JStr "/getOpenJiraIssues" →
       (encodable (format E (project_id p)) →
        (∃ r, returned = Ok r)
        ∧ (tracker_down E →
           returned = Ok {| statusCode := 200; body := message_body "[]" |}))
       ∧ (¬ encodable (format E (project_id p)) →
          ∃ msg, returned = Raise (PyError "UnicodeEncodeError" msg)))
  ∧ (api_path p = JStr "/updateJiraIssue" →
       (∀ e, int (timeline_in_weeks p) = Raise e → returned = Raise e)
       ∧ (∀ weeks,
            int (timeline_in_weeks p) = Ok weeks → representable E weeks →
            (∃ r, returned = Ok r)
            ∧ (tracker_down E →
               returned
               = Ok {| statusCode := 200; body := message_body "{}" |}))).
Proof.
  intros Hp Hi returned. subst returned.
  destruct (lambda_handler_dispatched E event p jira Hp Hi) as [Hout _].
  rewrite Hout. split; [|split; [|split; [|split]]].
  - intros Hpath. rewrite (dispatch_list E _ _ _ Hpath). split.
    + intros e Hint. by rewrite Hint.
    + intros n e Hint Hn Hf. rewrite Hint.
      by rewrite (get_recent_customer_interactions_failure E service _ _ _
                    Hn Hf).
  - intros Hpath e Hf. rewrite (dispatch_preferences E _ _ _ Hpath).
    by rewrite (get_customer_preferences_failure E service _ _ Hf).
  - intros Hpath e Hf. rewrite (dispatch_overview E _ _ _ Hpath).
    by rewrite (get_customer_overview_failure E service _ _ Hf).
  - intros Hpath. rewrite (dispatch_open_issues E _ _ _ Hpath). split.
    + intros Henc. split.
      * destruct (get_open_jira_issues_returns E jira (project_id p) Henc)
          as (tasks & -> & Hser).
        destruct (respond_serializable 200 _ Hser) as (text & _ & ->).
        by eexists.
      * intros Hdown.
        rewrite (get_open_jira_issues_outcome E jira (project_id p) _
                   (search_request_encodable E jira (project_id p) Henc)).
        match goal with
        | |- context [urlopen E ?req] => destruct (Hdown req) as [err ->]
        end.
        done.
    + intros Henc.
      destruct (get_open_jira_issues_unencodable E jira (project_id p) Henc)
        as [msg ->].
      by exists msg.
  - intros Hpath. rewrite (dispatch_update E _ _ _ Hpath). split.
    + intros e Hint. by rewrite Hint.
    + intros weeks Hint Hrep. rewrite Hint. split.
      * destruct (update_jira_issue_returns E jira (issue_key p) weeks Hrep)
          as (updated & -> & Hser).
        destruct (respond_serializable 200 _ Hser) as (text & _ & ->).
        by eexists.
      * intros Hdown.
        destruct (update_jira_issue_unfold E jira (issue_key p) weeks _ _
                    (due_date_after_representable E weeks Hrep)
                    (update_payload_dumps _)) as [_ Hupd].
        rewrite Hupd.
        match goal with
        | |- context [urlopen E ?req] => destruct (Hdown req) as [err ->]
        end.
        done.
Qed.

(** C10.  For every inbound request, whatever its path: an exception
    raised while the tracker client is constructed makes the invocation
    fail.  When the request parses, the secret lookups of the
    construction come right after the two opening log lines and before
    anything the dispatch does, no call to the store or to the tracker
    precedes them, and an exception of the construction is the outcome
    of the handler, which then has made no such call at all. *)
Theorem clients_built_before_dispatch event :
  (∀ e, outcome (JiraInteraction_init E) = Raise e →
        ∃ e', outcome (lambda_handler E event) = Raise e')
  ∧ (∀ p,
       parse_event E event = Ok p →
       (∃ rest,
          trace (lambda_handler E event)
          = prologue E event p ++ trace (JiraInteraction_init E) ++ rest
          ∧ ∀ jira, outcome (JiraInteraction_init E) = Ok jira →
                    ∃ tail, rest = trace (dispatch E service jira p) ++ tail)
       ∧ Forall (λ ev, ¬ downstream_call ev)
           (prologue E event p ++ trace (JiraInteraction_init E))
       ∧ ∀ e, outcome (JiraInteraction_init E) = Raise e →
              outcome (lambda_handler E event) = Raise e
              ∧ trace (lambda_handler E event)
                = prologue E event p ++ trace (JiraInteraction_init E)).
Proof.
  split.
  - intros e Hi. destruct (parse_event E event) as [p|e'] eqn:Hp.
    + exists e. by rewrite (lambda_handler_init_raise E event p e).
    + exists e'. by rewrite (lambda_handler_parse_raise E event e').
  - intros p Hp. split; [|split].
    + destruct (outcome (JiraInteraction_init E)) as [jira|e] eqn:Hi.
      * destruct (lambda_handler_dispatched E event p jira Hp Hi)
          as [_ [rest Ht]].
        eexists. split; [exact Ht|]. intros jira' [= <-]. by eexists.
      * exists []. rewrite (lambda_handler_init_raise E event p e Hp Hi).
        split; [by rewrite app_nil_r|]. done.
    + apply Forall_app. split; [|apply JiraInteraction_init_trace].
      unfold prologue. no_downstream.
    + intros e Hi. by rewrite (lambda_handler_init_raise E event p e Hp Hi).
Qed.

End router_policy.

(** C2, as stated, fails: on a recognized path the router's own
    [int(count)] raises when the request has no [count], before any
    call to the store or to the tracker. *)
Lemma router_raises_on_missing_count :
  recognized (JStr "/listRecentInteractions")
  ∧ outcome (lambda_handler Sample.env
               (Sample.request "/listRecentInteractions"
                  [("customerId", JStr "C1")] JNull))
    = TypeError
        "int() argument must be a string, a bytes-like object or a real number, not 'NoneType'"
  ∧ Forall (λ ev, ¬ downstream_call ev)
      (trace (lambda_handler Sample.env
                (Sample.request "/listRecentInteractions"
                   [("customerId", JStr "C1")] JNull))).
Proof.
  split; [|split].
  - exists "/listRecentInteractions". split; [elem_of_list|done].
  - by vm_compute.
  - vm_compute. no_downstream.
Qed.

(** C2, on the sample deployment, whose tracker is unreachable. *)
Lemma router_error_policy_witness :
  parse_event Sample.env
    (Sample.request "/getOpenJiraIssues" [("projectId", JStr "CRM")] JNull)
  = Ok {| api_path := JStr "/getOpenJiraIssues"; customer_id := JNull;
          count := JNull; project_id := JStr "CRM"; issue_key := JNull;
          timeline_in_weeks := JNull |}
  ∧ outcome (JiraInteraction_init Sample.env) = Ok Sample.jira
  ∧ encodable (format Sample.env (JStr "CRM"))
  ∧ tracker_down Sample.env
  ∧ outcome (lambda_handler Sample.env
               (Sample.request "/getOpenJiraIssues"
                  [("projectId", JStr "CRM")] JNull))
    = Ok {| statusCode := 200; body := message_body "[]" |}.
Proof.
  assert (tracker_down Sample.env) as Hdown.
  { intros req. by exists (UrlFailure "timed out"). }
  assert (encodable (format Sample.env (JStr "CRM"))) as Henc by reflexivity.
  split; [reflexivity|]. split; [by vm_compute|]. split; [exact Henc|].
  split; [exact Hdown|].
  apply (proj2 (proj1 (proj1 (proj2 (proj2 (proj2
           (router_error_policy Sample.env
              (Sample.request "/getOpenJiraIssues"
                 [("projectId", JStr "CRM")] JNull) _ Sample.jira
              eq_refl ltac:(by vm_compute))))) eq_refl) Henc)).
  exact Hdown.
Defined.

(** C10, with Secrets Manager unreachable and a request that only
    reads the customer store. *)
Lemma clients_built_before_dispatch_witness :
  outcome (JiraInteraction_init
             (unreachable (PyError "EndpointConnectionError"
                             "Could not connect to the endpoint URL")
                Sample.env))
  = Raise (PyError "EndpointConnectionError"
             "Could not connect to the endpoint URL")
  ∧ ∃ e', outcome (lambda_handler
                     (unreachable (PyError "EndpointConnectionError"
                                     "Could not connect to the endpoint URL")
                        Sample.env)
                     (Sample.request "/companyOverview"
                        [("customerId", JStr "C1")] JNull)) = Raise e'.
Proof.
  split; [by vm_compute|].
  apply (proj1 (clients_built_before_dispatch
                  (unreachable (PyError "EndpointConnectionError"
                                  "Could not connect to the endpoint URL")
                     Sample.env)
                  (Sample.request "/companyOverview"
                     [("customerId", JStr "C1")] JNull))
           (PyError "EndpointConnectionError"
              "Could not connect to the endpoint URL")).
  by vm_compute.
Defined.

(** C9, on the sample client: the request for project [CRM], and an
    issue of another project. *)
Lemma search_query_sent_witness :
  encodable (format Sample.env (JStr "CRM"))
  ∧ "OTHER" ≠ format Sample.env (JStr "CRM")
  ∧ (∃ req logs,
       trace (get_open_jira_issues Sample.env Sample.jira (JStr "CRM"))
       = Urlopen req :: logs
       ∧ req_url req
         = "https://jira.example/rest/api/2/search?jql=project%3DCRM+AND+issuetype%3DTask+AND+status%3D%27In+Progress%27+OR+status%3D%27To+Do%27+order+by+duedate")
  ∧ JQL.matches (JQL.sent (format Sample.env (JStr "CRM")))
      (JQL.issue_with "OTHER" "Bug" "'To Do'") = true.
Proof.
  assert (encodable (format Sample.env (JStr "CRM"))) as Henc by reflexivity.
  assert ("OTHER" ≠ format Sample.env (JStr "CRM")) as Hne by done.
  split; [exact Henc|]. split; [exact Hne|]. split.
  - destruct (proj1 (search_query_sent Sample.env Sample.jira (JStr "CRM"))
                Henc) as (req & logs & encoded & Ht & _ & _ & Hq & Hurl).
    exists req, logs. split; [exact Ht|]. rewrite Hurl.
    vm_compute in Hq. injection Hq as <-. reflexivity.
  - apply (proj2 (proj2 (proj2 (search_query_sent Sample.env Sample.jira
                                  (JStr "CRM"))))
             "OTHER" "Bug" Hne).
Defined.

(** ** The scenarios of the specification *)

Example scenario_overview_without_record :
  outcome (lambda_handler Sample.env
             (Sample.request "/companyOverview"
                [("customerId", JStr "C9")] JNull))
  = Ok {| statusCode := 200; body := message_body "{}" |}.
Proof. by vm_compute. Qed.

Example scenario_tracker_unreachable :
  outcome (lambda_handler Sample.env
             (Sample.request "/getOpenJiraIssues"
                [("projectId", JStr "P1")] JNull))
  = Ok {| statusCode := 200; body := message_body "[]" |}.
Proof. by vm_compute. Qed.

Example scenario_unknown_path :
  outcome (lambda_handler Sample.env (Sample.request "/unknown" [] JNull))
  = Ok {| statusCode := 404;
          body := message_body (quoted "Unrecognized api path: /unknown") |}.
Proof. by vm_compute. Qed.

(** * Further properties

    What the code does beyond the statements above: the log lines and
    the service calls of each operation, and the requests the handler
    raises on. *)

(** ** The customer reads, run to the end *)

Section store_runs.
Context (E : Env) (self : CustomerService).

Lemma get_customer_details_run customer_id args :
  let call := GetItem (customer_table self) customer_id (str_join "," args) in
  get_customer_details E self customer_id args
  = match failure (dynamodb E) call with
    | Some e =>
        ([Dynamo call;
          Log ERROR ("Error getting customer details: " +:+ exn_str e)],
         Raise e)
    | None =>
        ([Dynamo call],
         Ok (projection E (str_join "," args)
               <$> customer_record E customer_id))
    end.
Proof.
  intros call. unfold get_customer_details, get_item, try_except. simpl.
  fold call. destruct (failure (dynamodb E) call); [done|]. simpl.
  unfold customer_record. destruct customer_id; try done.
  by destruct (customers (dynamodb E) !! s).
Qed.

(** X2.  When the store call of [get_customer_details] fails on behalf of
    [get_customer_overview] or [get_customer_preferences], the failure
    is logged twice, first by [get_customer_details] and then by its
    caller, after the single call to the store; the exception that
    reaches the caller of the outer method is the one the store
    raised. *)
Theorem customer_reads_log_twice customer_id e :
  (failure (dynamodb E)
     (GetItem (customer_table self) customer_id "overview") = Some e →
   get_customer_overview E self customer_id
   = ([Dynamo (GetItem (customer_table self) customer_id "overview");
       Log ERROR ("Error getting customer details: " +:+ exn_str e);
       Log ERROR ("Error getting customer overview: " +:+ exn_str e)],
      Raise e))
  ∧ (failure (dynamodb E)
       (GetItem (customer_table self) customer_id
          "meetingType,timeofDay,dayOfWeek") = Some e →
     get_customer_preferences E self customer_id
     = ([Dynamo (GetItem (customer_table self) customer_id
                   "meetingType,timeofDay,dayOfWeek");
         Log ERROR ("Error getting customer details: " +:+ exn_str e);
         Log ERROR ("Error getting customer preferences: " +:+ exn_str e)],
        Raise e)).
Proof.
  split; intros Hf.
  - unfold get_customer_overview.
    rewrite (get_customer_details_run customer_id ["overview"]).
    change (str_join "," ["overview"]) with "overview". by rewrite Hf.
  - unfold get_customer_preferences.
    rewrite (get_customer_details_run customer_id
               ["meetingType"; "timeofDay"; "dayOfWeek"]).
    change (str_join "," ["meetingType"; "timeofDay"; "dayOfWeek"])
      with "meetingType,timeofDay,dayOfWeek".
    by rewrite Hf.
Qed.

End store_runs.

(** X2, with the store refusing the read of an overview. *)
Lemma customer_reads_log_twice_witness :
  failure (dynamodb Faults.store_down)
    (GetItem (customer_table service) (JStr "C1") "overview")
  = Some Faults.throttled
  ∧ get_customer_overview Faults.store_down service (JStr "C1")
    = ([Dynamo (GetItem (customer_table service) (JStr "C1") "overview");
        Log ERROR ("Error getting customer details: "
                   +:+ exn_str Faults.throttled);
        Log ERROR ("Error getting customer overview: "
                   +:+ exn_str Faults.throttled)],
       Raise Faults.throttled).
Proof.
  split; [reflexivity|].
  exact (proj1 (customer_reads_log_twice Faults.store_down service (JStr "C1")
                  Faults.throttled) eq_refl).
Defined.

(** ** Attribute names through the projection expression *)

Lemma rev_app_rev_app x a b :
  String.rev_app (String.rev_app x a) b = String.rev_app a (x +:+ b).
Proof.
  revert a b. induction x as [|c x IH]; intros a b; [done|].
  simpl. rewrite IH. done.
Qed.

Lemma split_commas_go_word x cur rest :
  no_comma x →
  split_commas_go (x +:+ rest) cur
  = split_commas_go rest (String.rev_app x cur).
Proof.
  revert cur. induction x as [|c x IH]; intros cur Hx; [done|].
  apply Forall_cons in Hx as [Hc Hx].
  change (String c x +:+ rest) with (String c (x +:+ rest)).
  cbn [split_commas_go].
  destruct (Ascii.eqb_spec c ","); [done|]. by rewrite IH.
Qed.

Lemma string_app_nil_r (s : string) : s +:+ "" = s.
Proof.
  induction s as [|c s IH]; [done|].
  change (String c (s +:+ "") = String c s). by rewrite IH.
Qed.

Lemma split_commas_last x cur :
  no_comma x →
  split_commas_go x cur = [String.rev_app cur x].
Proof.
  intros Hx. rewrite <- (string_app_nil_r x) at 1.
  rewrite split_commas_go_word by done. cbn [split_commas_go].
  unfold String.rev. by rewrite rev_app_rev_app, string_app_nil_r.
Qed.

Lemma split_commas_join args :
  args ≠ [] → Forall no_comma args →
  split_commas (str_join "," args) = args.
Proof.
  intros Hne Hall. unfold split_commas, str_join.
  destruct args as [|x args]; [done|]. clear Hne.
  revert x Hall. induction args as [|y args IH]; intros x Hall.
  - apply Forall_cons in Hall as [Hx _]. simpl.
    by rewrite split_commas_last.
  - apply Forall_cons in Hall as [Hx Hall].
    change (String.concat "," (x :: y :: args))
      with (x +:+ String "," (String.concat "," (y :: args))).
    rewrite split_commas_go_word by done. cbn [split_commas_go].
    rewrite Ascii.eqb_refl. f_equal; [|by apply IH].
    unfold String.rev. by rewrite rev_app_rev_app, string_app_nil_r.
Qed.

Lemma plain_name_no_comma (s : string) : plain_name s = true → no_comma s.
Proof.
  assert (∀ c, is_letter c || is_digit c = true → c ≠ ","%char) as Hc.
  { intros c Hc ->. by vm_compute in Hc. }
  destruct s as [|c s]; [done|]. cbn [plain_name].
  intros [Hl Hs]%andb_true_iff. apply Forall_cons_2.
  { apply Hc. by rewrite Hl. }
  apply Forall_forall. intros d Hd. apply Hc.
  rewrite forallb_forall in Hs. by apply Hs, list_elem_of_In.
Qed.

Section details.
Context (E : Env) (self : CustomerService).

(** X1.  [get_customer_details] joins the requested attribute names with
    commas into the projection expression of its one [get_item] call:
    for a non-empty list of plain attribute names (a letter, then
    letters and digits, which the store reads as they are written) and
    a store that answers, the result is [None] when the store has no
    record of the customer, and otherwise the record restricted to the
    requested names (a name the record lacks is absent from the
    result). *)
Theorem get_customer_details_projects customer_id args :
  args ≠ [] → Forall (λ name, plain_name name = true) args →
  failure (dynamodb E)
    (GetItem (customer_table self) customer_id (str_join "," args)) = None →
  (customer_record E customer_id = None →
     outcome (get_customer_details E self customer_id args) = Ok None)
  ∧ (∀ record,
       customer_record E customer_id = Some record →
       ∃ it,
         outcome (get_customer_details E self customer_id args) = Ok (Some it)
         ∧ ∀ k, assoc k it
                = if bool_decide (k ∈ args) then assoc k record else None).
Proof.
  intros Hne Hall Hok.
  rewrite (get_customer_details_outcome E self customer_id args Hok).
  assert (split_commas (str_join "," args) = args) as Hsplit.
  { apply split_commas_join; [done|].
    eapply Forall_impl; [exact Hall|]. apply plain_name_no_comma. }
  assert (∀ full, projection E (str_join "," args) full = project args full)
    as Hproj.
  { intros full. rewrite projection_plain; rewrite Hsplit; [done|].
    apply forallb_forall. intros name Hname%list_elem_of_In.
    by eapply Forall_forall in Hall. }
  split.
  - by intros ->.
  - intros record ->. eexists. split; [done|]. intros k.
    rewrite Hproj. apply assoc_project.
Qed.
End details.

(** X1, on the sample store: two attributes of customer [C1]. *)
Lemma get_customer_details_projects_witness :
  ["overview"; "dayOfWeek"] ≠ []
  ∧ Forall (λ name, plain_name name = true) ["overview"; "dayOfWeek"]
  ∧ failure (dynamodb Sample.env)
      (GetItem (customer_table service) (JStr "C1")
         (str_join "," ["overview"; "dayOfWeek"])) = None
  ∧ ∃ it,
      outcome (get_customer_details Sample.env service (JStr "C1")
                 ["overview"; "dayOfWeek"]) = Ok (Some it)
      ∧ ∀ k, assoc k it
             = if bool_decide (k ∈ ["overview"; "dayOfWeek"])
               then assoc k [("customer_id", VStr "C1");
                             ("overview", VStr "Acme Corp");
                             ("meetingType", VStr "virtual");
                             ("dayOfWeek", VStr "Mon")]
               else None.
Proof.
  assert (["overview"; "dayOfWeek"] ≠ []) as Hne by done.
  assert (Forall (λ name, plain_name name = true) ["overview"; "dayOfWeek"])
    as Hall.
  { repeat apply Forall_cons_2; [reflexivity..|apply Forall_nil_2]. }
  split; [exact Hne|]. split; [exact Hall|]. split; [reflexivity|].
  apply (proj2 (get_customer_details_projects Sample.env service (JStr "C1")
                  ["overview"; "dayOfWeek"] Hne Hall eq_refl)).
  by vm_compute.
Defined.

(** ** Base64 *)

Lemma b64_index_char n :
  (n < 64)%N → b64_index (b64_char n) = n ∧ Ascii.eqb (b64_char n) "=" = false.
Proof.
  intros Hn.
  assert (forallb (λ k, (b64_index (b64_char k) =? k)%N
                        && negb (Ascii.eqb (b64_char k) "="))
            (N.of_nat <$> seq 0 64) = true) as Hall by (by vm_compute).
  rewrite forallb_forall in Hall.
  specialize (Hall n). rewrite andb_true_iff, negb_true_iff, N.eqb_eq in Hall.
  apply Hall, list_elem_of_In, list_elem_of_fmap. exists (N.to_nat n).
  split; [by rewrite N2Nat.id|]. apply elem_of_seq. lia.
Qed.

Lemma sextets a b c :
  (a < 256)%N → (b < 256)%N → (c < 256)%N →
  let s0 := N.shiftr a 2 in
  let s1 := (N.shiftl (N.land a 3) 4 + N.shiftr b 4)%N in
  let s2 := (N.shiftl (N.land b 15) 2 + N.shiftr c 6)%N in
  let s3 := N.land c 63 in
  (s0 < 64 ∧ s1 < 64 ∧ s2 < 64 ∧ s3 < 64
   ∧ s0 * 4 + s1 / 16 = a
   ∧ s1 mod 16 * 16 + s2 / 4 = b
   ∧ s2 mod 4 * 64 + s3 = c)%N.
Proof.
  intros Ha Hb Hc. cbv zeta.
  rewrite !N.shiftr_div_pow2, !N.shiftl_mul_pow2.
  change 3%N with (N.ones 2). change 15%N with (N.ones 4).
  change 63%N with (N.ones 6). rewrite !N.land_ones.
  change (2 ^ 2)%N with 4%N. change (2 ^ 4)%N with 16%N.
  change (2 ^ 6)%N with 64%N.
  pose proof (N.div_mod a 4 ltac:(lia)) as Ha4.
  pose proof (N.mod_upper_bound a 4 ltac:(lia)) as Ha4'.
  pose proof (N.div_mod b 16 ltac:(lia)) as Hb16.
  pose proof (N.mod_upper_bound b 16 ltac:(lia)) as Hb16'.
  pose proof (N.div_mod c 64 ltac:(lia)) as Hc64.
  pose proof (N.mod_upper_bound c 64 ltac:(lia)) as Hc64'.
  generalize dependent (a mod 4)%N. generalize dependent (a / 4)%N.
  generalize dependent (b mod 16)%N. generalize dependent (b / 16)%N.
  generalize dependent (c mod 64)%N. generalize dependent (c / 64)%N.
  intros ch cl Hc1 Hc2 bh bl Hb1 Hb2 ah al Ha1 Ha2.
  assert (bh < 16 ∧ ch < 4 ∧ ah < 64)%N as (? & ? & ?) by lia.
  rewrite !N.div_add_l by lia.
  rewrite (N.add_comm (al * 16)), (N.add_comm (bl * 4)).
  rewrite !N.Div0.mod_add.
  rewrite (N.div_small bh), (N.div_small ch), (N.mod_small bh),
    (N.mod_small ch) by lia.
  lia.
Qed.

Lemma b64_group a b c :
  let x := N_of_ascii a in
  let y := N_of_ascii b in
  let z := N_of_ascii c in
  let c0 := b64_char (N.shiftr x 2) in
  let c1 := b64_char (N.shiftl (N.land x 3) 4 + N.shiftr y 4) in
  let c2 := b64_char (N.shiftl (N.land y 15) 2 + N.shiftr z 6) in
  let c3 := b64_char (N.land z 63) in
  chr (b64_index c0 * 4 + b64_index c1 / 16) = a
  ∧ chr (b64_index c1 mod 16 * 16 + b64_index c2 / 4) = b
  ∧ chr (b64_index c2 mod 4 * 64 + b64_index c3) = c
  ∧ Ascii.eqb c2 "=" = false ∧ Ascii.eqb c3 "=" = false.
Proof.
  intros x y z.
  destruct (sextets x y z (N_ascii_bounded a) (N_ascii_bounded b)
              (N_ascii_bounded c)) as (H0 & H1 & H2 & H3 & Ha & Hb & Hc).
  cbv zeta.
  rewrite !(proj1 (b64_index_char _ H0)), !(proj1 (b64_index_char _ H1)),
    !(proj1 (b64_index_char _ H2)), !(proj1 (b64_index_char _ H3)).
  rewrite Ha, Hb, Hc. subst x y z. unfold chr. rewrite !ascii_N_embedding.
  by rewrite (proj2 (b64_index_char _ H2)), (proj2 (b64_index_char _ H3)).
Qed.

Lemma b64decode_encode s : b64decode (b64encode s) = s.
Proof.
  assert (∀ s, b64decode (b64encode s) = s
               ∧ (∀ a, b64decode (b64encode (String a s)) = String a s)
               ∧ ∀ a b, b64decode (b64encode (String a (String b s)))
                        = String a (String b s)) as H; [|apply H].
  clear s. induction s as [|c s (IH0 & IH1 & IH2)].
  - split; [done|]. split.
    + intros a.
      destruct (b64_group a "000" "000") as (Ha & _). cbv zeta in Ha.
      cbn [b64encode b64decode]. rewrite Ascii.eqb_refl.
      change (N_of_ascii "000") with 0%N in Ha.
      change (N.shiftr 0 4) with 0%N in Ha. rewrite N.add_0_r in Ha.
      by rewrite Ha.
    + intros a b.
      destruct (b64_group a b "000") as (Ha & Hb & _ & Hc2 & _).
      cbv zeta in Ha, Hb, Hc2.
      change (N_of_ascii "000") with 0%N in Hb, Hc2.
      change (N.shiftr 0 6) with 0%N in Hb, Hc2.
      rewrite N.add_0_r in Hb, Hc2.
      cbn [b64encode b64decode]. rewrite Hc2, Ascii.eqb_refl.
      by rewrite Ha, Hb.
  - split; [apply IH1|]. split; [intros a; apply IH2|].
    intros a b.
    destruct (b64_group a b c) as (Ha & Hb & Hc & Hc2 & Hc3).
    cbv zeta in Ha, Hb, Hc, Hc2, Hc3.
    cbn [b64encode b64decode]. rewrite Hc2, Hc3, Ha, Hb, Hc. by rewrite IH0.
Qed.

(** ** The lookups of the construction *)

Section construction_runs.
Context (E : Env).

Lemma get_secret_value_run (name : string) :
  get_secret_value E (Some name) = ([GetSecretValue name], secrets E name).
Proof. unfold get_secret_value, bind, emit, lift. done. Qed.

Lemma get_jira_api_key_run arn :
  let logged e :=
    Log ERROR ("Error retrieving Jira API key: " +:+ exn_str e) in
  get_jira_api_key E arn
  = match arn with
    | None => ([logged param_validation_error], Raise param_validation_error)
    | Some key_id =>
        match secrets E key_id with
        | Raise e => ([GetSecretValue key_id; logged e], Raise e)
        | Ok secret =>
            match SecretString secret with
            | Some api_key => ([GetSecretValue key_id], Ok api_key)
            | None =>
                ([GetSecretValue key_id;
                  logged (PyError "KeyError" "'SecretString'")],
                 KeyError "SecretString")
            end
        end
    end.
Proof.
  intros logged. destruct arn as [key_id|]; [|done].
  unfold get_jira_api_key. rewrite get_secret_value_run.
  destruct (secrets E key_id) as [secret|e]; [|done].
  cbv beta iota delta [bind try_except].
  by destruct (SecretString secret).
Qed.

(** X4.  [JiraInteraction.__init__] looks its secrets up in a fixed
    order, [JIRA_URL], [JIRA_API_KEY_ARN], [JIRA_USER_NAME], and then the
    API key under the name the second lookup returned.  It stops at the
    first lookup that raises, with no lookup after it; only a failure
    of the API-key lookup is logged ([Error retrieving Jira API key]),
    the failures of the three [get_secret] calls are re-raised
    silently.  A construction that completes has made exactly the four
    lookups. *)
Theorem construction_lookups :
  (∀ e, secrets E "JIRA_URL" = Raise e →
        JiraInteraction_init E = ([GetSecretValue "JIRA_URL"], Raise e))
  ∧ (∀ url e,
       secrets E "JIRA_URL" = Ok url →
       secrets E "JIRA_API_KEY_ARN" = Raise e →
       JiraInteraction_init E
       = ([GetSecretValue "JIRA_URL"; GetSecretValue "JIRA_API_KEY_ARN"],
          Raise e))
  ∧ (∀ url arn e,
       secrets E "JIRA_URL" = Ok url →
       secrets E "JIRA_API_KEY_ARN" = Ok arn →
       secrets E "JIRA_USER_NAME" = Raise e →
       JiraInteraction_init E
       = ([GetSecretValue "JIRA_URL"; GetSecretValue "JIRA_API_KEY_ARN";
           GetSecretValue "JIRA_USER_NAME"],
          Raise e))
  ∧ (∀ url arn user key_id e,
       secrets E "JIRA_URL" = Ok url →
       secrets E "JIRA_API_KEY_ARN" = Ok arn →
       secrets E "JIRA_USER_NAME" = Ok user →
       SecretString arn = Some key_id →
       secrets E key_id = Raise e →
       JiraInteraction_init E
       = ([GetSecretValue "JIRA_URL"; GetSecretValue "JIRA_API_KEY_ARN";
           GetSecretValue "JIRA_USER_NAME"; GetSecretValue key_id;
           Log ERROR ("Error retrieving Jira API key: " +:+ exn_str e)],
          Raise e))
  ∧ (∀ self,
       outcome (JiraInteraction_init E) = Ok self →
       ∃ key_id,
         jira_api_key_arn self = Some key_id
         ∧ trace (JiraInteraction_init E)
           = [GetSecretValue "JIRA_URL"; GetSecretValue "JIRA_API_KEY_ARN";
              GetSecretValue "JIRA_USER_NAME"; GetSecretValue key_id]).
Proof.
  unfold JiraInteraction_init. rewrite !get_secret_run.
  split; [|split; [|split; [|split]]].
  - by intros e ->.
  - by intros url e -> ->.
  - by intros url arn e -> -> ->.
  - intros url arn user key_id e -> -> -> Harn Hkey.
    cbv beta iota delta [bind]. rewrite get_jira_api_key_run, Harn, Hkey.
    done.
  - intros self.
    destruct (secrets E "JIRA_URL") as [url|]; [|done].
    destruct (secrets E "JIRA_API_KEY_ARN") as [arn|]; [|done].
    destruct (secrets E "JIRA_USER_NAME") as [user|]; [|done].
    cbv beta iota delta [bind outcome trace fst snd].
    rewrite get_jira_api_key_run.
    destruct (SecretString arn) as [key_id|]; [|done].
    destruct (secrets E key_id) as [secret|e]; [|done].
    destruct (SecretString secret); [|done].
    intros [= <-]. by exists key_id.
Qed.

(** X5.  A constructed [JiraInteraction] carries in its [Authorization]
    header the text [Basic] followed by the Base64 encoding of
    [username:api_key], where [api_key] is the secret stored under the
    name held by [jira_api_key_arn]: decoding the credentials gives
    back that text.  Both the search request and the update request
    are sent with these three headers. *)
Theorem authorization_header self :
  outcome (JiraInteraction_init E) = Ok self →
  ∃ key_id secret api_key,
    jira_api_key_arn self = Some key_id
    ∧ secrets E key_id = Ok secret
    ∧ SecretString secret = Some api_key
    ∧ b64decode (credentials self)
      = format_opt (jira_username self) +:+ ":" +:+ api_key
    ∧ ∀ req,
        (∃ project_id, search_request E self project_id = Ok req)
        ∨ (∃ issue_key payload, req = update_request E self issue_key payload) →
        req_headers req
        = [("Accept", "application/json");
           ("Content-Type", "application/json");
           ("Authorization", "Basic " +:+ credentials self)].
Proof.
  rewrite JiraInteraction_init_outcome.
  destruct (secrets E "JIRA_URL") as [url|]; [|done].
  destruct (secrets E "JIRA_API_KEY_ARN") as [arn|]; [|done].
  destruct (secrets E "JIRA_USER_NAME") as [user|]; [|done].
  rewrite get_jira_api_key_outcome.
  destruct (SecretString arn) as [key_id|]; [|done].
  destruct (secrets E key_id) as [secret|e] eqn:Hkey; [|done].
  destruct (SecretString secret) as [api_key|] eqn:Hs; [|done].
  intros [= <-]. exists key_id, secret, api_key.
  split; [done|]. split; [done|]. split; [done|].
  split; [apply b64decode_encode|].
  intros req [[project_id Hreq]|(issue_key & payload & ->)]; [|done].
  by rewrite (search_request_headers _ _ _ _ Hreq).
Qed.
End construction_runs.

(** X4, on the sample deployment, where construction completes. *)
Lemma construction_lookups_witness :
  outcome (JiraInteraction_init Sample.env) = Ok Sample.jira
  ∧ ∃ key_id,
      jira_api_key_arn Sample.jira = Some key_id
      ∧ trace (JiraInteraction_init Sample.env)
        = [GetSecretValue "JIRA_URL"; GetSecretValue "JIRA_API_KEY_ARN";
           GetSecretValue "JIRA_USER_NAME"; GetSecretValue key_id].
Proof.
  assert (outcome (JiraInteraction_init Sample.env) = Ok Sample.jira) as H
    by by vm_compute.
  split; [exact H|].
  exact (proj2 (proj2 (proj2 (proj2 (construction_lookups Sample.env))))
           Sample.jira H).
Defined.

(** X5, on the sample deployment. *)
Lemma authorization_header_witness :
  outcome (JiraInteraction_init Sample.env) = Ok Sample.jira
  ∧ ∃ key_id secret api_key,
      jira_api_key_arn Sample.jira = Some key_id
      ∧ secrets Sample.env key_id = Ok secret
      ∧ SecretString secret = Some api_key
      ∧ b64decode (credentials Sample.jira)
        = format_opt (jira_username Sample.jira) +:+ ":" +:+ api_key
      ∧ ∀ req,
          (∃ project_id,
             search_request Sample.env Sample.jira project_id = Ok req)
          ∨ (∃ issue_key payload,
               req = update_request Sample.env Sample.jira issue_key payload) →
          req_headers req
          = [("Accept", "application/json");
             ("Content-Type", "application/json");
             ("Authorization", "Basic " +:+ credentials Sample.jira)].
Proof.
  assert (outcome (JiraInteraction_init Sample.env) = Ok Sample.jira) as H
    by by vm_compute.
  split; [exact H|].
  exact (authorization_header Sample.env Sample.jira H).
Defined.

(** ** Counting the calls downstream *)

Lemma trace_bind {A B} (m : M A) (k : A → M B) :
  trace (bind m k)
  = trace m ++ match outcome m with
               | Ok a => trace (k a)
               | Raise _ => []
               end.
Proof.
  destruct m as [t [a|e]]; simpl; [|by rewrite app_nil_r].
  unfold trace. simpl. by destruct (k a).
Qed.

Lemma trace_try {A} (m : M A) (h : exn → M A) :
  trace (try_except m h)
  = trace m ++ match outcome m with
               | Ok _ => []
               | Raise e => trace (h e)
               end.
Proof.
  destruct m as [t [a|e]]; simpl; [by rewrite app_nil_r|].
  unfold trace. simpl. by destruct (h e).
Qed.

Lemma store_calls_app t1 t2 :
  store_calls (t1 ++ t2) = store_calls t1 ++ store_calls t2.
Proof. apply omap_app. Qed.

Lemma tracker_requests_app t1 t2 :
  tracker_requests (t1 ++ t2) = tracker_requests t1 ++ tracker_requests t2.
Proof. apply omap_app. Qed.

Lemma logs_no_calls logs :
  Forall is_log logs → store_calls logs = [] ∧ tracker_requests logs = [].
Proof.
  induction 1 as [|ev logs Hev _ [IH1 IH2]]; [done|].
  destruct ev; try done.
Qed.

Lemma quiet_no_calls t :
  Forall (λ ev, ¬ downstream_call ev) t →
  store_calls t = [] ∧ tracker_requests t = [].
Proof.
  induction 1 as [|ev t Hev _ [IH1 IH2]]; [done|].
  destruct ev; try done; by destruct Hev.
Qed.

Section calls.
Context (E : Env).

Lemma get_recent_calls cs customer_id n :
  store_only (trace (get_recent_customer_interactions E cs customer_id n)).
Proof.
  unfold get_recent_customer_interactions, query, store_only.
  unfold try_except, bind, emit, raise, ret, log_and_reraise.
  destruct (n <? 1); [|destruct (failure _ _)]; simpl; split; done || lia.
Qed.

Lemma get_customer_details_calls cs customer_id args :
  store_only (trace (get_customer_details E cs customer_id args)).
Proof.
  rewrite get_customer_details_run.
  destruct (failure _ _); split; simpl; done || lia.
Qed.

Lemma get_preferences_calls cs customer_id :
  store_only (trace (get_customer_preferences E cs customer_id)).
Proof.
  unfold get_customer_preferences. rewrite get_customer_details_run.
  destruct (failure _ _); split; simpl; done || lia.
Qed.

Lemma get_overview_calls cs customer_id :
  store_only (trace (get_customer_overview E cs customer_id)).
Proof.
  unfold get_customer_overview. rewrite get_customer_details_run.
  destruct (failure _ _); [split; simpl; done || lia|].
  cbv beta iota delta [bind try_except].
  destruct (_ <$> _) as [[|kv it]|];
    [split; simpl; done || lia| |split; simpl; done || lia].
  destruct (assoc "overview" (kv :: it)); split; simpl; done || lia.
Qed.

Lemma open_issues_calls jira project_id :
  tracker_only (trace (get_open_jira_issues E jira project_id)).
Proof.
  destruct (get_open_jira_issues_events E jira project_id)
    as (sent & logs & -> & Hlen & Hl).
  destruct (logs_no_calls logs Hl) as [H1 H2].
  unfold tracker_only.
  rewrite store_calls_app, tracker_requests_app, H1, H2, !app_nil_r.
  destruct sent as [|req [|req' sent]]; simpl in *;
    try (exfalso; lia); (split; [done|lia]).
Qed.

Lemma update_calls jira issue_key w :
  tracker_only (trace (update_jira_issue E jira issue_key w)).
Proof.
  destruct (due_date_after E w) as [due|e] eqn:Hdue.
  - destruct (update_jira_issue_unfold E jira issue_key w due _ Hdue
                (update_payload_dumps due)) as [(logs & -> & Hl) _].
    destruct (logs_no_calls logs Hl) as [H1 H2].
    split; simpl; [done|]. rewrite H2. simpl. lia.
  - unfold update_jira_issue. rewrite Hdue. split; simpl; done || lia.
Qed.
End calls.

Section handler_trace.
Context (E : Env).

Lemma lambda_handler_trace event p jira :
  parse_event E event = Ok p →
  outcome (JiraInteraction_init E) = Ok jira →
  trace (lambda_handler E event)
  = prologue E event p ++ trace (JiraInteraction_init E)
    ++ trace (dispatch E service jira p)
    ++ match outcome (lambda_handler E event) with
       | Ok r => [LogObject INFO (response_dict r)]
       | Raise _ => []
       end.
Proof.
  intros Hp Hi. unfold lambda_handler. rewrite Hp.
  destruct (JiraInteraction_init E) as [t r]. simpl in Hi. subst r.
  fold service.
  cbv beta iota delta [bind emit lift outcome trace fst snd].
  destruct (dispatch E service jira p) as [td [[code result]|e]].
  - cbv beta iota.
    destruct (json_dumps (VDict [("message", result)])) as [body|e]; [done|].
    simpl. by rewrite !app_nil_r.
  - simpl. by rewrite !app_nil_r.
Qed.

Lemma dispatch_calls cs jira p :
  let t := trace (dispatch E cs jira p) in
  (eq_str (api_path p) "/listRecentInteractions"
   || eq_str (api_path p) "/getPreferences"
   || eq_str (api_path p) "/companyOverview" = true → store_only t)
  ∧ (eq_str (api_path p) "/listRecentInteractions"
     || eq_str (api_path p) "/getPreferences"
     || eq_str (api_path p) "/companyOverview" = false →
     eq_str (api_path p) "/getOpenJiraIssues"
     || eq_str (api_path p) "/updateJiraIssue" = true → tracker_only t)
  ∧ (eq_str (api_path p) "/listRecentInteractions"
     || eq_str (api_path p) "/getPreferences"
     || eq_str (api_path p) "/companyOverview"
     || eq_str (api_path p) "/getOpenJiraIssues"
     || eq_str (api_path p) "/updateJiraIssue" = false → t = []).
Proof.
  intros t. subst t. unfold dispatch.
  destruct (eq_str (api_path p) "/listRecentInteractions").
  { split; [|done]. intros _. rewrite trace_bind, outcome_lift. simpl.
    destruct (int (count p)) as [n|]; [|split; simpl; done || lia].
    rewrite trace_bind.
    pose proof (get_recent_calls E cs (customer_id p) n) as Hc.
    destruct (outcome _); simpl; by rewrite app_nil_r. }
  destruct (eq_str (api_path p) "/getPreferences").
  { split; [|done]. intros _. rewrite trace_bind.
    pose proof (get_preferences_calls E cs (customer_id p)) as Hc.
    destruct (outcome _); simpl; by rewrite app_nil_r. }
  destruct (eq_str (api_path p) "/companyOverview").
  { split; [|done]. intros _. rewrite trace_bind.
    pose proof (get_overview_calls E cs (customer_id p)) as Hc.
    destruct (outcome _); simpl; by rewrite app_nil_r. }
  split; [done|].
  destruct (eq_str (api_path p) "/getOpenJiraIssues").
  { split; [|done]. intros _ _. rewrite trace_bind.
    pose proof (open_issues_calls E jira (project_id p)) as Hc.
    destruct (outcome _); simpl; by rewrite app_nil_r. }
  destruct (eq_str (api_path p) "/updateJiraIssue").
  { split; [|done]. intros _ _. rewrite trace_bind, outcome_lift. simpl.
    destruct (int (timeline_in_weeks p)) as [n|]; [|split; simpl; done || lia].
    rewrite trace_bind.
    pose proof (update_calls E jira (issue_key p) n) as Hc.
    destruct (outcome _); simpl; by rewrite app_nil_r. }
  done.
Qed.
End handler_trace.

Lemma recognized_or_not path : recognized path ∨ ¬ recognized path.
Proof.
  destruct path as [| | | |s| |]; try (right; by intros (s' & _ & [=])).
  destruct (decide (s ∈ recognized_paths)) as [Hin|Hout].
  - left. by exists s.
  - right. by intros (s' & Hin & [= ->]).
Qed.

Section handler_calls.
Context (E : Env).

Lemma lambda_handler_calls event :
  let t := trace (lambda_handler E event) in
  (store_calls t = [] ∧ tracker_requests t = [])
  ∨ ∃ p jira,
      parse_event E event = Ok p
      ∧ outcome (JiraInteraction_init E) = Ok jira
      ∧ store_calls t = store_calls (trace (dispatch E service jira p))
      ∧ tracker_requests t
        = tracker_requests (trace (dispatch E service jira p)).
Proof.
  intros t. subst t.
  destruct (parse_event E event) as [p|e] eqn:Hp.
  2:{ left. by rewrite (lambda_handler_parse_raise E event e Hp). }
  assert (store_calls (prologue E event p ++ trace (JiraInteraction_init E))
          = []
          ∧ tracker_requests
              (prologue E event p ++ trace (JiraInteraction_init E)) = [])
    as [Hs Ht].
  { apply quiet_no_calls, Forall_app.
    split; [unfold prologue; no_downstream|apply JiraInteraction_init_trace]. }
  destruct (outcome (JiraInteraction_init E)) as [jira|e] eqn:Hi.
  2:{ left. by rewrite (lambda_handler_init_raise E event p e Hp Hi). }
  right. exists p, jira. split; [done|]. split; [done|].
  rewrite (lambda_handler_trace E event p jira Hp Hi).
  rewrite !app_assoc, store_calls_app, tracker_requests_app.
  rewrite (store_calls_app (_ ++ _)), (tracker_requests_app (_ ++ _)).
  rewrite Hs, Ht.
  destruct (outcome (lambda_handler E event)); simpl; by rewrite !app_nil_r.
Qed.

(** X11.  One invocation of [lambda_handler] makes at most one call
    downstream, counting the calls to the customer store and the
    requests to the tracker together.  A request on one of the three
    customer paths sends nothing to the tracker, a request on one of
    the two tracker paths never reads the store, and a request on an
    unrecognized path does neither. *)
Theorem one_downstream_call event :
  let t := trace (lambda_handler E event) in
  (length (store_calls t) + length (tracker_requests t) ≤ 1)%nat
  ∧ ∀ p,
      parse_event E event = Ok p →
      (∀ s, s ∈ store_paths → api_path p = JStr s → tracker_requests t = [])
      ∧ (∀ s, s ∈ tracker_paths → api_path p = JStr s → store_calls t = [])
      ∧ (¬ recognized (api_path p) →
         store_calls t = [] ∧ tracker_requests t = []).
Proof.
  intros t. subst t.
  destruct (lambda_handler_calls event) as [[Hs Ht]|(p & jira & Hp & Hi & Hs & Ht)].
  { rewrite Hs, Ht. split; [simpl; lia|]. by intros p Hp. }
  rewrite Hs, Ht.
  destruct (dispatch_calls E service jira p) as (Hstore & Htracker & Hnone).
  split.
  - destruct (_ || _ || _) eqn:H1.
    { destruct (Hstore eq_refl) as [Hl ->]. simpl. lia. }
    destruct (_ || _) eqn:H2 in Htracker.
    { destruct (Htracker eq_refl eq_refl) as [-> Hl]. simpl. lia. }
    rewrite Hnone; [simpl; lia|].
    apply orb_false_iff in H2 as [H2 H3].
    by rewrite !orb_false_iff in *.
  - intros p' Hp'. rewrite Hp in Hp'. injection Hp' as <-.
    split; [|split].
    + intros s Hin Hpath. unfold store_paths in Hin. rewrite Hpath in Hstore.
      repeat (apply elem_of_cons in Hin as [->|Hin]);
        [by destruct (Hstore eq_refl)..|by apply elem_of_nil in Hin].
    + intros s Hin Hpath. unfold tracker_paths in Hin.
      rewrite Hpath in Htracker.
      repeat (apply elem_of_cons in Hin as [->|Hin]);
        [by destruct (Htracker eq_refl eq_refl)..|by apply elem_of_nil in Hin].
    + intros Hnot. rewrite (dispatch_unrecognized E _ _ _ Hnot). done.
Qed.

(** X12.  Whenever [lambda_handler] returns a response, the event was
    parsed and the tracker client constructed, the status code is 200
    on a recognized path and 404 on any other, the body is what
    [json.dumps] gives for [{"message": result}], that is the text
    [{"message": ...}] around the encoding of [result], where [result]
    is the value the operation of the path returned (the text naming
    the path, for an unrecognized one), and the last thing the
    invocation does is log the response it returns. *)
Theorem response_shape event r :
  outcome (lambda_handler E event) = Ok r →
  ∃ p jira result text,
    parse_event E event = Ok p
    ∧ outcome (JiraInteraction_init E) = Ok jira
    ∧ (statusCode r = 200 ∧ recognized (api_path p)
       ∨ statusCode r = 404 ∧ ¬ recognized (api_path p))
    ∧ result_of E jira p result
    ∧ json_dumps (VDict [("message", result)]) = Ok (body r)
    ∧ json_dumps result = Ok text
    ∧ body r = message_body text
    ∧ last (trace (lambda_handler E event))
      = Some (LogObject INFO (response_dict r)).
Proof.
  intros Hr.
  destruct (parse_event E event) as [p|e] eqn:Hp.
  2:{ by rewrite (lambda_handler_parse_raise E event e Hp) in Hr. }
  destruct (outcome (JiraInteraction_init E)) as [jira|e] eqn:Hi.
  2:{ by rewrite (lambda_handler_init_raise E event p e Hp Hi) in Hr. }
  pose proof (lambda_handler_trace E event p jira Hp Hi) as Ht.
  rewrite Hr in Ht.
  destruct (lambda_handler_dispatched E event p jira Hp Hi) as [Hout _].
  rewrite Hr in Hout.
  destruct (outcome (dispatch E service jira p)) as [[code result]|] eqn:Hd;
    [|done].
  unfold respond in Hout. cbn [fst snd] in Hout.
  destruct (json_dumps result) as [text|e] eqn:Hj.
  2:{ cbn [json_dumps map sequence fst snd] in Hout. by rewrite Hj in Hout. }
  pose proof (message_dumps _ _ Hj) as Hbody.
  rewrite Hbody in Hout. injection Hout as ->.
  exists p, jira, result, text.
  split; [done|]. split; [done|].
  split; [|split; [|split; [done|split; [done|split; [done|]]]]].
  - destruct (recognized_or_not (api_path p)) as [Hrec|Hnot].
    + left. split; [|done]. simpl. by eapply dispatch_recognized_code.
    + right. split; [|done].
      rewrite (dispatch_unrecognized E _ _ _ Hnot) in Hd. by injection Hd as <-.
  - unfold result_of.
    destruct (recognized_or_not (api_path p)) as [(path & Hin & Hpath)|Hnot].
    2:{ do 5 right. split; [done|].
        rewrite (dispatch_unrecognized E _ _ _ Hnot) in Hd.
        by injection Hd as _ <-. }
    unfold recognized_paths in Hin.
    repeat (apply elem_of_cons in Hin as [->|Hin]);
      [| | | | |by apply elem_of_nil in Hin].
    + left. split; [done|]. rewrite (dispatch_list E _ _ _ Hpath) in Hd.
      destruct (int (count p)) as [n|]; [|done].
      destruct (outcome (get_recent_customer_interactions _ _ _ _))
        as [items|] eqn:Hitems; [|done].
      injection Hd as _ <-. by exists n, items.
    + right. left. split; [done|].
      rewrite (dispatch_preferences E _ _ _ Hpath) in Hd.
      destruct (outcome (get_customer_preferences _ _ _)) as [prefs|] eqn:Hprefs;
        [|done].
      injection Hd as _ <-. by exists prefs.
    + do 2 right. left. split; [done|].
      rewrite (dispatch_overview E _ _ _ Hpath) in Hd.
      destruct (outcome (get_customer_overview _ _ _)) as [v|] eqn:Hv; [|done].
      by injection Hd as _ <-.
    + do 3 right. left. split; [done|].
      rewrite (dispatch_open_issues E _ _ _ Hpath) in Hd.
      destruct (outcome (get_open_jira_issues _ _ _)) as [tasks|] eqn:Htasks;
        [|done].
      injection Hd as _ <-. by exists tasks.
    + do 4 right. left. split; [done|].
      rewrite (dispatch_update E _ _ _ Hpath) in Hd.
      destruct (int (timeline_in_weeks p)) as [weeks|]; [|done].
      destruct (outcome (update_jira_issue _ _ _ _)) as [updated|] eqn:Hupd;
        [|done].
      injection Hd as _ <-. by exists weeks, updated.
  - rewrite Ht, !app_assoc. apply last_snoc.
Qed.
End handler_calls.

(** X11, for a request on a customer path. *)
Lemma one_downstream_call_witness :
  parse_event Sample.env
    (Sample.request "/companyOverview" [("customerId", JStr "C1")] JNull)
  = Ok {| api_path := JStr "/companyOverview"; customer_id := JStr "C1";
          count := JNull; project_id := JNull; issue_key := JNull;
          timeline_in_weeks := JNull |}
  ∧ "/companyOverview" ∈ store_paths
  ∧ tracker_requests
      (trace (lambda_handler Sample.env
                (Sample.request "/companyOverview"
                   [("customerId", JStr "C1")] JNull))) = [].
Proof.
  assert ("/companyOverview" ∈ store_paths) as Hin.
  { unfold store_paths. repeat (apply elem_of_cons; first [by left | right]). }
  split; [reflexivity|]. split; [exact Hin|].
  exact (proj1 (proj2 (one_downstream_call Sample.env
                         (Sample.request "/companyOverview"
                            [("customerId", JStr "C1")] JNull))
                  _ eq_refl)
           "/companyOverview" Hin eq_refl).
Defined.

(** X12, for a request on an unrecognized path. *)
Lemma response_shape_witness :
  outcome (lambda_handler Sample.env (Sample.request "/unknown" [] JNull))
  = Ok {| statusCode := 404;
          body := message_body (quoted "Unrecognized api path: /unknown") |}
  ∧ ∃ p jira result text,
      parse_event Sample.env (Sample.request "/unknown" [] JNull) = Ok p
      ∧ outcome (JiraInteraction_init Sample.env) = Ok jira
      ∧ (404 = 200 ∧ recognized (api_path p)
         ∨ 404 = 404 ∧ ¬ recognized (api_path p))
      ∧ result_of Sample.env jira p result
      ∧ json_dumps (VDict [("message", result)])
        = Ok (message_body (quoted "Unrecognized api path: /unknown"))
      ∧ json_dumps result = Ok text
      ∧ message_body (quoted "Unrecognized api path: /unknown")
        = message_body text
      ∧ last (trace (lambda_handler Sample.env
                       (Sample.request "/unknown" [] JNull)))
        = Some (LogObject INFO
                  (response_dict
                     {| statusCode := 404;
                        body := message_body
                                  (quoted "Unrecognized api path: /unknown") |})).
Proof.
  assert (outcome (lambda_handler Sample.env
                     (Sample.request "/unknown" [] JNull))
          = Ok {| statusCode := 404;
                  body := message_body
                            (quoted "Unrecognized api path: /unknown") |})
    as H by by vm_compute.
  split; [exact H|].
  exact (response_shape Sample.env (Sample.request "/unknown" [] JNull) _ H).
Defined.

(** ** Results [json.dumps] cannot encode *)

Lemma message_dumps_raise result e :
  json_dumps result = Raise e →
  json_dumps (VDict [("message", result)]) = Raise e.
Proof. intros H. cbn [json_dumps map sequence fst snd]. by rewrite H. Qed.

Section more_router.
Context (E : Env).

Lemma get_customer_overview_run cs customer_id :
  failure (dynamodb E)
    (GetItem (customer_table cs) customer_id "overview") = None →
  get_customer_overview E cs customer_id
  = ([Dynamo (GetItem (customer_table cs) customer_id "overview")],
     Ok (default (VDict [])
           (customer_record E customer_id ≫= assoc "overview"))).
Proof.
  intros Hok. unfold get_customer_overview.
  rewrite (get_customer_details_run E cs customer_id ["overview"]).
  change (str_join "," ["overview"]) with "overview". rewrite Hok.
  destruct (customer_record E customer_id) as [record|]; [|done].
  change (projection E "overview" <$> Some record)
    with (Some (project ["overview"] record)).
  rewrite project_overview. simpl.
  by destruct (assoc "overview" record).
Qed.

Lemma lambda_handler_calls_ok event p jira :
  parse_event E event = Ok p →
  outcome (JiraInteraction_init E) = Ok jira →
  store_calls (trace (lambda_handler E event))
  = store_calls (trace (dispatch E service jira p))
  ∧ tracker_requests (trace (lambda_handler E event))
    = tracker_requests (trace (dispatch E service jira p)).
Proof.
  intros Hp Hi.
  destruct (lambda_handler_calls E event)
    as [[Hs Ht]|(p' & jira' & Hp' & Hi' & Hs & Ht)].
  - rewrite (lambda_handler_trace E event p jira Hp Hi) in Hs, Ht.
    rewrite !store_calls_app in Hs. rewrite !tracker_requests_app in Ht.
    apply app_eq_nil in Hs as [_ Hs]. apply app_eq_nil in Hs as [_ Hs].
    apply app_eq_nil in Hs as [Hs _].
    apply app_eq_nil in Ht as [_ Ht]. apply app_eq_nil in Ht as [_ Ht].
    apply app_eq_nil in Ht as [Ht _].
    rewrite Hs, Ht.
    rewrite (lambda_handler_trace E event p jira Hp Hi).
    rewrite !store_calls_app, !tracker_requests_app, Hs, Ht.
    destruct (quiet_no_calls (prologue E event p ++ trace (JiraInteraction_init E)))
      as [Hq1 Hq2].
    { apply Forall_app.
      split; [unfold prologue; no_downstream|apply JiraInteraction_init_trace]. }
    rewrite store_calls_app in Hq1. rewrite tracker_requests_app in Hq2.
    apply app_eq_nil in Hq1 as [-> ->]. apply app_eq_nil in Hq2 as [-> ->].
    destruct (outcome (lambda_handler E event)); done.
  - rewrite Hp in Hp'. injection Hp' as <-.
    rewrite Hi in Hi'. by injection Hi' as <-.
Qed.

Lemma dispatch_overview_trace cs jira p :
  api_path p = JStr "/companyOverview" →
  trace (dispatch E cs jira p)
  = trace (get_customer_overview E cs (customer_id p)).
Proof.
  intros Hpath. unfold dispatch. rewrite Hpath.
  cbn [eq_str String.eqb Ascii.eqb Bool.eqb]. rewrite trace_bind.
  destruct (outcome _); simpl; by rewrite app_nil_r.
Qed.

(** X16.  The response body is built by [json.dumps] outside any
    [try]: on [/companyOverview], when the [overview] attribute of the
    customer is a value [json.dumps] has no encoding for (a number, which
    the store returns as [Decimal], or a binary or a set), the handler
    raises the [TypeError] of [json.dumps] after its one read of the
    store, and returns no response. *)
Theorem unserializable_overview_raises event p jira record v e :
  parse_event E event = Ok p →
  outcome (JiraInteraction_init E) = Ok jira →
  api_path p = JStr "/companyOverview" →
  failure (dynamodb E)
    (GetItem customer_table_name (customer_id p) "overview") = None →
  customer_record E (customer_id p) = Some record →
  assoc "overview" record = Some v →
  json_dumps v = Raise e →
  outcome (lambda_handler E event) = Raise e
  ∧ store_calls (trace (lambda_handler E event))
    = [GetItem customer_table_name (customer_id p) "overview"].
Proof.
  intros Hp Hi Hpath Hok Hrec Hv Hj.
  destruct (lambda_handler_dispatched E event p jira Hp Hi) as [Hout _].
  pose proof (get_customer_overview_run service (customer_id p) Hok) as Hrun.
  split.
  - rewrite Hout, (dispatch_overview E _ _ _ Hpath), Hrun.
    cbn [outcome snd]. rewrite Hrec. simpl. rewrite Hv. simpl.
    unfold respond. cbn [fst snd]. by rewrite (message_dumps_raise _ _ Hj).
  - rewrite (proj1 (lambda_handler_calls_ok event p jira Hp Hi)).
    by rewrite (dispatch_overview_trace _ _ _ Hpath), Hrun.
Qed.
End more_router.

(** X16, for a customer whose overview is a number. *)
Lemma unserializable_overview_raises_witness :
  parse_event Faults.numeric_overview
    (Sample.request "/companyOverview" [("customerId", JStr "C3")] JNull)
  = Ok {| api_path := JStr "/companyOverview"; customer_id := JStr "C3";
          count := JNull; project_id := JNull; issue_key := JNull;
          timeline_in_weeks := JNull |}
  ∧ outcome (JiraInteraction_init Faults.numeric_overview) = Ok Sample.jira
  ∧ customer_record Faults.numeric_overview (JStr "C3")
    = Some [("customer_id", VStr "C3"); ("overview", VDecimal "250")]
  ∧ json_dumps (VDecimal "250") = not_serializable "Decimal"
  ∧ outcome (lambda_handler Faults.numeric_overview
               (Sample.request "/companyOverview"
                  [("customerId", JStr "C3")] JNull))
    = not_serializable "Decimal"
  ∧ store_calls
      (trace (lambda_handler Faults.numeric_overview
                (Sample.request "/companyOverview"
                   [("customerId", JStr "C3")] JNull)))
    = [GetItem customer_table_name (JStr "C3") "overview"].
Proof.
  assert (outcome (JiraInteraction_init Faults.numeric_overview)
          = Ok Sample.jira) as Hi by by vm_compute.
  assert (customer_record Faults.numeric_overview (JStr "C3")
          = Some [("customer_id", VStr "C3"); ("overview", VDecimal "250")])
    as Hrec by by vm_compute.
  split; [reflexivity|]. split; [exact Hi|]. split; [exact Hrec|].
  split; [reflexivity|].
  exact (unserializable_overview_raises Faults.numeric_overview
           (Sample.request "/companyOverview" [("customerId", JStr "C3")] JNull)
           _ Sample.jira _ (VDecimal "250") _
           eq_refl Hi eq_refl eq_refl Hrec eq_refl eq_refl).
Defined.

(** ** The tracker operations, run to the end *)

Section tracker_runs.
Context (E : Env) (self : JiraInteraction).

Lemma swallow_issues_run text (e : exn) :
  swallow "Failed to get issues. HTTPError: "
    "Failed to get issues. URLError: "
    "Failed to decode response as JSON: " (Some text) ([] : list item) e
  = ([Log INFO (issues_log e text)], Ok []).
Proof. by destruct e. Qed.

Lemma get_open_jira_issues_run project_id req :
  search_request E self project_id = Ok req →
  get_open_jira_issues E self project_id
  = match urlopen E req with
    | inl err =>
        ([Urlopen req; Log INFO (issues_log (exn_of_http_error err) "")],
         Ok [])
    | inr response_data =>
        match json_loads E response_data with
        | Raise e =>
            ([Urlopen req; Log INFO (issues_log e response_data)], Ok [])
        | Ok response_json =>
            match open_tasks_of response_json with
            | Raise e =>
                ([Urlopen req; Log INFO (issues_log e response_data)], Ok [])
            | Ok open_tasks => ([Urlopen req], Ok open_tasks)
            end
        end
    end.
Proof.
  intros Hreq. unfold get_open_jira_issues. rewrite Hreq, bind_lift_ok.
  unfold http_exchange.
  destruct (urlopen E req) as [err|text].
  - by destruct err.
  - cbv beta iota delta [bind emit ret lift].
    destruct (json_loads E text) as [j|e].
    + destruct (open_tasks_of j) as [tasks|e]; [done|].
      cbv beta iota delta [try_except]. by rewrite swallow_issues_run.
    + cbv beta iota delta [try_except]. by rewrite swallow_issues_run.
Qed.

Lemma task_of_issue_raises issue e :
  task_of_issue issue = Raise e → ∃ cls msg, e = PyError cls msg.
Proof.
  assert (∀ v k e', getitem v k = Raise e' → ∃ cls msg, e' = PyError cls msg)
    as Hget.
  { intros v k e'. unfold getitem, KeyError, TypeError.
    destruct v; try (intros [= <-]; by eexists _, _).
    destruct (assoc k d); [done|]. intros [= <-]. by eexists _, _. }
  unfold task_of_issue.
  repeat match goal with
         | |- context [match getitem ?v ?k with _ => _ end] =>
             let H := fresh "H" in
             destruct (getitem v k) eqn:H;
               [|intros [= <-]; by eapply Hget]
         end.
  destruct (truthy _); [|done].
  match goal with
  | |- context [match getitem ?v ?k with _ => _ end] =>
      let H := fresh "H" in
      destruct (getitem v k) eqn:H; [done|intros [= <-]; by eapply Hget]
  end.
Qed.

Lemma open_tasks_loop_raises issues :
  (∃ issue e, issue ∈ issues ∧ task_of_issue issue = Raise e) →
  ∃ cls msg, open_tasks_loop issues = Raise (PyError cls msg).
Proof.
  intros (issue & e & Hin & He).
  induction issues as [|i issues IH]; [by apply elem_of_nil in Hin|].
  simpl. destruct (task_of_issue i) as [task|e'] eqn:Hi.
  - apply elem_of_cons in Hin as [->|Hin]; [congruence|].
    destruct (IH Hin) as (cls & msg & ->). by eexists _, _.
  - destruct (task_of_issue_raises i e' Hi) as (cls & msg & ->).
    by eexists _, _.
Qed.

(** X7.  Once the request of the search is built, one issue of the
    tracker's answer that lacks a field the loop reads (or holds a
    value of the wrong type where the loop indexes) discards the whole
    answer: [get_open_jira_issues] returns the empty list, the records
    built for the issues before it are lost, and the only trace of the
    failure is the log line [Invalid Jira Configuration]. *)
Theorem malformed_issue_empties_result project_id req text response_json
    issues :
  search_request E self project_id = Ok req →
  urlopen E req = inr text →
  json_loads E text = Ok response_json →
  getitem response_json "issues" = Ok (JList issues) →
  (∃ issue e, issue ∈ issues ∧ task_of_issue issue = Raise e) →
  get_open_jira_issues E self project_id
  = ([Urlopen req; Log INFO "Invalid Jira Configuration"], Ok []).
Proof.
  intros Hreq Hu Hj Hi Hbad.
  rewrite (get_open_jira_issues_run project_id req Hreq).
  rewrite Hu, Hj. unfold open_tasks_of. rewrite Hi. simpl.
  by destruct (open_tasks_loop_raises issues Hbad) as (cls & msg & ->).
Qed.

(** X6.  Once its request is built, [get_open_jira_issues] sends it,
    once, and logs what went wrong at level INFO before it returns the
    empty list: the status code and reason of an HTTP error, the reason
    of a URL error, [Invalid Jira Configuration] for any other failure
    of the exchange, and the response body itself when the body is not
    JSON.  A non-empty result comes with no log line at all. *)
Theorem open_issues_failures_logged project_id req :
  search_request E self project_id = Ok req →
  (∀ err, urlopen E req = inl err →
     get_open_jira_issues E self project_id
     = ([Urlopen req; Log INFO (issues_log (exn_of_http_error err) "")],
        Ok []))
  ∧ (∀ text e, urlopen E req = inr text → json_loads E text = Raise e →
       get_open_jira_issues E self project_id
       = ([Urlopen req; Log INFO (issues_log e text)], Ok []))
  ∧ (∀ tasks,
       outcome (get_open_jira_issues E self project_id) = Ok tasks →
       tasks ≠ [] →
       trace (get_open_jira_issues E self project_id) = [Urlopen req]).
Proof.
  intros Hreq. rewrite (get_open_jira_issues_run project_id req Hreq).
  split; [|split].
  - by intros err ->.
  - by intros text e -> ->.
  - intros tasks. destruct (urlopen E req) as [err|text]; [by intros [= <-]|].
    destruct (json_loads E text) as [j|e]; [|by intros [= <-]].
    destruct (open_tasks_of j); [done|by intros [= <-]].
Qed.

Lemma update_jira_issue_run issue_key w due_date :
  due_date_after E w = Ok due_date →
  let req :=
    update_request E self issue_key
      ("{" +:+ quoted "fields" +:+ ": {" +:+ quoted "duedate" +:+ ": "
       +:+ encode_str due_date +:+ "}}") in
  update_jira_issue E self issue_key w
  = match urlopen E req with
    | inl err =>
        ([Urlopen req; Log INFO (update_log (format E issue_key) err)], Ok [])
    | inr _ =>
        ([Urlopen req],
         Ok [("issueKey", of_json issue_key); ("newTimeline", VInt w)])
    end.
Proof.
  intros Hdue req. unfold update_jira_issue.
  rewrite Hdue, bind_lift_ok, update_payload_dumps, bind_lift_ok. fold req.
  unfold http_exchange. destruct (urlopen E req) as [err|text]; [|done].
  destruct err; cbv beta iota delta [bind emit raise try_except swallow
    exn_of_http_error update_log ret]; by rewrite ?string_app_assoc.
Qed.

(** X8.  Once the due date is computed, [update_jira_issue] sends one
    PUT request whose body is the [json.dumps] of
    [{"fields": {"duedate": due_date}}].  When the exchange fails the
    operation returns [{}] and has logged, at level INFO, the issue key
    with the status code and reason of an HTTP error or the reason of a
    URL error, and [Invalid Jira Configuration] for any other failure;
    when the exchange succeeds nothing is logged. *)
Theorem update_failure_logged issue_key w due_date :
  due_date_after E w = Ok due_date →
  ∃ payload,
    json_dumps (VDict [("fields", VDict [("duedate", VStr due_date)])])
    = Ok payload
    ∧ let req := update_request E self issue_key payload in
      (∀ err, urlopen E req = inl err →
         update_jira_issue E self issue_key w
         = ([Urlopen req; Log INFO (update_log (format E issue_key) err)],
            Ok []))
      ∧ (∀ text, urlopen E req = inr text →
           trace (update_jira_issue E self issue_key w) = [Urlopen req]).
Proof.
  intros Hdue. eexists. split; [apply update_payload_dumps|].
  intros req.
  pose proof (update_jira_issue_run issue_key w due_date Hdue) as Hrun.
  cbv zeta in Hrun. fold req in Hrun. rewrite Hrun. split.
  - by intros err ->.
  - by intros text ->.
Qed.

(** X9.  The due date is computed before the [try]: when the current
    date plus [timeline_in_weeks] weeks falls outside the years 1 to
    9999, [update_jira_issue] raises [OverflowError] to its caller,
    having sent no request and logged nothing. *)
Theorem update_out_of_range issue_key w :
  1 ≤ toordinal (now E) ≤ MAXORDINAL →
  ¬ (1 ≤ toordinal (now E) + 7 * w ≤ MAXORDINAL) →
  ∃ msg, update_jira_issue E self issue_key w = ([], OverflowError msg).
Proof.
  intros Hnow Hout. unfold update_jira_issue, due_date_after, timedelta_weeks.
  destruct (Z.abs (7 * w) >? 999999999); [by eexists|].
  unfold datetime_add, MAXORDINAL in *. cbn [days].
  destruct (Z.ltb_spec 0 (toordinal (now E) + 7 * w)); simpl;
    [|by eexists].
  destruct (Z.leb_spec (toordinal (now E) + 7 * w) 3652059); simpl;
    [lia|by eexists].
Qed.
End tracker_runs.

(** X7, for an answer whose second issue has no [fields]. *)
Lemma malformed_issue_empties_result_witness :
  search_request Faults.malformed_issue Sample.jira (JStr "CRM")
  = Ok Faults.crm_search
  ∧ urlopen Faults.malformed_issue Faults.crm_search = inr "search-result"
  ∧ json_loads Faults.malformed_issue "search-result" = Ok Faults.search_result
  ∧ getitem Faults.search_result "issues"
    = Ok (JList [Sample.issue "CRM-1" JNull JNull;
                 JDict [("key", JStr "CRM-2")]])
  ∧ task_of_issue (JDict [("key", JStr "CRM-2")]) = KeyError "fields"
  ∧ get_open_jira_issues Faults.malformed_issue Sample.jira (JStr "CRM")
    = ([Urlopen Faults.crm_search; Log INFO "Invalid Jira Configuration"],
       Ok []).
Proof.
  assert (search_request Faults.malformed_issue Sample.jira (JStr "CRM")
          = Ok Faults.crm_search) as Hreq by (by vm_compute).
  assert (task_of_issue (JDict [("key", JStr "CRM-2")]) = KeyError "fields")
    as Hbad by reflexivity.
  split; [exact Hreq|].
  split; [reflexivity|]. split; [reflexivity|]. split; [reflexivity|].
  split; [exact Hbad|].
  apply (malformed_issue_empties_result Faults.malformed_issue Sample.jira
           (JStr "CRM") Faults.crm_search "search-result" Faults.search_result
           [Sample.issue "CRM-1" JNull JNull; JDict [("key", JStr "CRM-2")]]
           Hreq eq_refl eq_refl eq_refl).
  exists (JDict [("key", JStr "CRM-2")]), (PyError "KeyError" "'fields'").
  split; [|exact Hbad]. apply elem_of_cons. right. apply elem_of_cons. by left.
Defined.

(** X6, with the tracker timing out. *)
Lemma open_issues_failures_logged_witness :
  search_request Sample.env Sample.jira (JStr "CRM") = Ok Faults.crm_search
  ∧ urlopen Sample.env Faults.crm_search = inl (UrlFailure "timed out")
  ∧ get_open_jira_issues Sample.env Sample.jira (JStr "CRM")
    = ([Urlopen Faults.crm_search;
        Log INFO (issues_log (exn_of_http_error (UrlFailure "timed out")) "")],
       Ok []).
Proof.
  assert (search_request Sample.env Sample.jira (JStr "CRM")
          = Ok Faults.crm_search) as Hreq by (by vm_compute).
  split; [exact Hreq|]. split; [reflexivity|].
  exact (proj1 (open_issues_failures_logged Sample.env Sample.jira (JStr "CRM")
                  Faults.crm_search Hreq)
           (UrlFailure "timed out") eq_refl).
Defined.

(** X8, with the tracker timing out. *)
Lemma update_failure_logged_witness :
  due_date_after Sample.env 2 = Ok "2026-11-17"
  ∧ ∃ payload,
      json_dumps (VDict [("fields", VDict [("duedate", VStr "2026-11-17")])])
      = Ok payload
      ∧ update_jira_issue Sample.env Sample.jira (JStr "CRM-7") 2
        = ([Urlopen (update_request Sample.env Sample.jira (JStr "CRM-7")
                       payload);
            Log INFO (update_log (format Sample.env (JStr "CRM-7"))
                        (UrlFailure "timed out"))],
           Ok []).
Proof.
  assert (due_date_after Sample.env 2 = Ok "2026-11-17") as Hdue
    by by vm_compute.
  split; [exact Hdue|].
  destruct (update_failure_logged Sample.env Sample.jira (JStr "CRM-7") 2
              "2026-11-17" Hdue) as (payload & Hpayload & Hfail & _).
  exists payload. split; [exact Hpayload|].
  exact (Hfail (UrlFailure "timed out") eq_refl).
Defined.

(** X9, for a timeline of 200000 weeks into the past. *)
Lemma update_out_of_range_witness :
  1 ≤ toordinal (now Sample.env) ≤ MAXORDINAL
  ∧ ¬ (1 ≤ toordinal (now Sample.env) + 7 * (-200000) ≤ MAXORDINAL)
  ∧ ∃ msg, update_jira_issue Sample.env Sample.jira (JStr "CRM-7") (-200000)
           = ([], OverflowError msg).
Proof.
  assert (1 ≤ toordinal (now Sample.env) ≤ MAXORDINAL) as Hnow
    by (by vm_compute).
  assert (¬ (1 ≤ toordinal (now Sample.env) + 7 * (-200000) ≤ MAXORDINAL))
    as Hout by (intros [H _]; by vm_compute in H).
  split; [exact Hnow|]. split; [exact Hout|].
  exact (update_out_of_range Sample.env Sample.jira (JStr "CRM-7") (-200000)
           Hnow Hout).
Defined.

(** ** Requests at the edges *)

Section edge_requests.
Context (E : Env).

(** X15.  For a customer the store has no record of, the two customer
    reads answer differently through the handler: [/getPreferences]
    responds 200 with the body [{"message": null}], and
    [/companyOverview] responds 200 with [{"message": {}}]. *)
Theorem missing_record_responses event p jira :
  parse_event E event = Ok p →
  outcome (JiraInteraction_init E) = Ok jira →
  customer_record E (customer_id p) = None →
  (api_path p = JStr "/getPreferences" →
   failure (dynamodb E)
     (GetItem customer_table_name (customer_id p)
        "meetingType,timeofDay,dayOfWeek") = None →
   outcome (lambda_handler E event)
   = Ok {| statusCode := 200; body := message_body "null" |})
  ∧ (api_path p = JStr "/companyOverview" →
     failure (dynamodb E)
       (GetItem customer_table_name (customer_id p) "overview") = None →
     outcome (lambda_handler E event)
     = Ok {| statusCode := 200; body := message_body "{}" |}).
Proof.
  intros Hp Hi Hrec.
  destruct (lambda_handler_dispatched E event p jira Hp Hi) as [-> _].
  split; intros Hpath Hok.
  - rewrite (dispatch_preferences E _ _ _ Hpath).
    unfold get_customer_preferences.
    rewrite (get_customer_details_run E service (customer_id p)
               ["meetingType"; "timeofDay"; "dayOfWeek"]).
    change (str_join "," ["meetingType"; "timeofDay"; "dayOfWeek"])
      with "meetingType,timeofDay,dayOfWeek".
    change (customer_table service) with customer_table_name.
    by rewrite Hok, Hrec.
  - rewrite (dispatch_overview E _ _ _ Hpath).
    rewrite (get_customer_overview_run E service (customer_id p) Hok).
    by rewrite Hrec.
Qed.

(** X10.  The handler reads the query parameters and the body with
    [.get], with no check of their type: an event whose
    [queryStringParameters] is not a dict ([null], say), or whose body
    is JSON text that is not an object, makes the handler raise
    [AttributeError] right after it has logged the event; no secret is
    looked up and no response is returned. *)
Theorem malformed_event_raises_early event pp path :
  getitem event "pathParameters" = Ok pp →
  getitem pp "proxy" = Ok path →
  (∀ q, getitem event "queryStringParameters" = Ok q → ¬ is_dict q →
        lambda_handler E event
        = ([LogObject INFO (of_json event)], Raise (attribute_error_get q)))
  ∧ (∀ q text body_json,
       getitem event "queryStringParameters" = Ok (JDict q) →
       getitem event "body" = Ok (JStr text) → text ≠ "" →
       json_loads E text = Ok body_json → ¬ is_dict body_json →
       lambda_handler E event
       = ([LogObject INFO (of_json event)],
          Raise (attribute_error_get body_json))).
Proof.
  intros Hpp Hpath. split.
  - intros q Hq Hnot. apply lambda_handler_parse_raise.
    unfold parse_event, query_param. rewrite Hpp, Hpath, Hq.
    destruct q; try done. destruct Hnot. by eexists.
  - intros q text body_json Hq Hbody Htext Hj Hnot.
    apply lambda_handler_parse_raise.
    unfold parse_event, query_param. rewrite Hpp, Hpath, Hq. cbn [dict_get].
    assert (parse_body E event = Ok body_json) as ->.
    { unfold parse_body.
      destruct event as [| | | | | |d]; try done.
      cbn [contains]. unfold has_key.
      cbn [getitem] in Hbody.
      destruct (assoc "body" d) as [b|] eqn:Hb; [|done].
      injection Hbody as ->.
      rewrite bool_decide_eq_true_2 by by eexists.
      cbn [getitem]. rewrite Hb. cbn [truthy].
      destruct (String.eqb_spec text ""); [done|]. done. }
    destruct body_json; try done. destruct Hnot. by eexists.
Qed.

(** X14.  On [/updateJiraIssue], [timelineInWeeks] is read from the body
    only: when it is missing the handler raises the [TypeError] of
    [int(None)] and sends nothing to the tracker.  That is the case, in
    particular, for every event with an absent or empty body, whatever
    its query string holds. *)
Theorem update_without_timeline_raises event p jira :
  parse_event E event = Ok p →
  outcome (JiraInteraction_init E) = Ok jira →
  api_path p = JStr "/updateJiraIssue" →
  (timeline_in_weeks p = JNull →
   (∃ msg, outcome (lambda_handler E event) = TypeError msg)
   ∧ tracker_requests (trace (lambda_handler E event)) = [])
  ∧ (∀ d b,
       event = JDict d → assoc "body" d = Some b → truthy b = false →
       timeline_in_weeks p = JNull)
  ∧ (∀ d, event = JDict d → assoc "body" d = None →
          timeline_in_weeks p = JNull).
Proof.
  intros Hp Hi Hpath. split; [|split].
  - intros Hnull.
    destruct (lambda_handler_dispatched E event p jira Hp Hi) as [-> _].
    rewrite (dispatch_update E _ _ _ Hpath), Hnull. split; [by eexists|].
    rewrite (proj2 (lambda_handler_calls_ok E event p jira Hp Hi)).
    unfold dispatch. rewrite Hpath, Hnull.
    cbn [eq_str String.eqb Ascii.eqb Bool.eqb]. done.
  - intros d b -> Hb Hfalsy. unfold parse_event in Hp.
    repeat step_result.
    assert (parse_body E (JDict d) = Ok (JDict [])) as Hbody.
    { unfold parse_body. cbn [contains getitem]. unfold has_key.
      rewrite Hb, bool_decide_eq_true_2 by by eexists. by rewrite Hfalsy. }
    rewrite Hbody in *.
    repeat match goal with H : Ok _ = Ok _ |- _ => injection H as <- end.
    match goal with H : dict_get _ _ = Ok _ |- _ => by injection H as <- end.
  - intros d -> Hb. unfold parse_event in Hp.
    repeat step_result.
    assert (parse_body E (JDict d) = Ok (JDict [])) as Hbody.
    { unfold parse_body. cbn [contains]. unfold has_key.
      rewrite Hb, bool_decide_eq_false_2; [done|]. by intros [? ?]. }
    rewrite Hbody in *.
    repeat match goal with H : Ok _ = Ok _ |- _ => injection H as <- end.
    match goal with H : dict_get _ _ = Ok _ |- _ => by injection H as <- end.
Qed.

End edge_requests.

(** X15, for a customer the sample store does not hold. *)
Lemma missing_record_responses_witness :
  parse_event Sample.env
    (Sample.request "/getPreferences" [("customerId", JStr "C9")] JNull)
  = Ok {| api_path := JStr "/getPreferences"; customer_id := JStr "C9";
          count := JNull; project_id := JNull; issue_key := JNull;
          timeline_in_weeks := JNull |}
  ∧ outcome (JiraInteraction_init Sample.env) = Ok Sample.jira
  ∧ customer_record Sample.env (JStr "C9") = None
  ∧ outcome (lambda_handler Sample.env
               (Sample.request "/getPreferences"
                  [("customerId", JStr "C9")] JNull))
    = Ok {| statusCode := 200; body := message_body "null" |}.
Proof.
  assert (outcome (JiraInteraction_init Sample.env) = Ok Sample.jira) as Hi
    by by vm_compute.
  assert (customer_record Sample.env (JStr "C9") = None) as Hrec
    by by vm_compute.
  split; [reflexivity|]. split; [exact Hi|]. split; [exact Hrec|].
  exact (proj1 (missing_record_responses Sample.env
                  (Sample.request "/getPreferences"
                     [("customerId", JStr "C9")] JNull)
                  _ Sample.jira eq_refl Hi Hrec)
           eq_refl eq_refl).
Defined.

(** X10, for an event whose query parameters are [null]. *)
Lemma malformed_event_raises_early_witness :
  getitem (JDict [("pathParameters", JDict [("proxy", JStr "/getPreferences")]);
                  ("queryStringParameters", JNull)])
    "pathParameters"
  = Ok (JDict [("proxy", JStr "/getPreferences")])
  ∧ ¬ is_dict JNull
  ∧ lambda_handler Sample.env
      (JDict [("pathParameters", JDict [("proxy", JStr "/getPreferences")]);
              ("queryStringParameters", JNull)])
    = ([LogObject INFO
          (of_json
             (JDict [("pathParameters",
                      JDict [("proxy", JStr "/getPreferences")]);
                     ("queryStringParameters", JNull)]))],
       Raise (attribute_error_get JNull)).
Proof.
  assert (¬ is_dict JNull) as Hnot by (by intros [d Hd]).
  split; [reflexivity|]. split; [exact Hnot|].
  exact (proj1 (malformed_event_raises_early Sample.env
                  (JDict [("pathParameters",
                           JDict [("proxy", JStr "/getPreferences")]);
                          ("queryStringParameters", JNull)])
                  _ _ eq_refl eq_refl)
           JNull eq_refl Hnot).
Defined.

(** X14, for a request without a body. *)
Lemma update_without_timeline_raises_witness :
  parse_event Sample.env
    (Sample.request "/updateJiraIssue" [("issueKey", JStr "CRM-7")] JNull)
  = Ok {| api_path := JStr "/updateJiraIssue"; customer_id := JNull;
          count := JNull; project_id := JNull; issue_key := JStr "CRM-7";
          timeline_in_weeks := JNull |}
  ∧ outcome (JiraInteraction_init Sample.env) = Ok Sample.jira
  ∧ (∃ msg, outcome (lambda_handler Sample.env
                       (Sample.request "/updateJiraIssue"
                          [("issueKey", JStr "CRM-7")] JNull))
            = TypeError msg)
  ∧ tracker_requests
      (trace (lambda_handler Sample.env
                (Sample.request "/updateJiraIssue"
                   [("issueKey", JStr "CRM-7")] JNull))) = [].
Proof.
  assert (outcome (JiraInteraction_init Sample.env) = Ok Sample.jira) as Hi
    by by vm_compute.
  split; [reflexivity|]. split; [exact Hi|].
  exact (proj1 (update_without_timeline_raises Sample.env
                  (Sample.request "/updateJiraIssue"
                     [("issueKey", JStr "CRM-7")] JNull)
                  _ Sample.jira eq_refl Hi eq_refl)
           eq_refl).
Defined.


(** ** The latest interactions *)

Lemma date_of_projected r : date_of (projected r) = r.1.2.
Proof. destruct r as [[c d] a]. apply date_of_projection. Qed.

Section latest.
Context (E : Env) (self : CustomerService).

Lemma partition_spec cid r :
  r ∈ partition E cid
  ↔ r.1.1 = cid ∧ interactions (dynamodb E) !! r.1 = Some r.2.
Proof.
  unfold partition. rewrite list_elem_of_filter.
  destruct r as [k attrs]. simpl.
  by rewrite (elem_of_map_to_list (interactions (dynamodb E)) k attrs).
Qed.

Lemma partition_NoDup cid : NoDup (partition E cid).
Proof. apply NoDup_filter, NoDup_map_to_list. Qed.

Lemma sorted_partition_strict cid :
  StronglySorted (λ x y, newer_first x y ∧ x.1.2 ≠ y.1.2)
    (merge_sort newer_first (partition E cid)).
Proof.
  set (l := merge_sort newer_first (partition E cid)).
  assert (StronglySorted newer_first l) as Hs
    by (apply StronglySorted_merge_sort; apply _).
  assert (NoDup l) as Hnd.
  { subst l. rewrite merge_sort_Permutation. apply partition_NoDup. }
  assert (∀ r, r ∈ l → r ∈ partition E cid) as Hin.
  { intros r. subst l. by rewrite merge_sort_Permutation. }
  clearbody l. induction Hs as [|x l Hs IH Hx]; [constructor|].
  apply NoDup_cons in Hnd as [Hxl Hnd].
  constructor; [apply IH; [done|]; intros r Hr; apply Hin; by right|].
  apply Forall_forall. intros y Hy. split.
  { by eapply Forall_forall in Hx. }
  intros Hd. apply Hxl.
  assert (x ∈ partition E cid) as Hxp by (apply Hin; by left).
  assert (y ∈ partition E cid) as Hyp by (apply Hin; by right).
  apply partition_spec in Hxp as [Hxc Hxm].
  apply partition_spec in Hyp as [Hyc Hym].
  destruct x as [[xc xd] xa], y as [[yc yd] ya]. simpl in *. subst.
  rewrite Hxm in Hym. by injection Hym as ->.
Qed.

(** X3.  For a positive [count] and a store that answers,
    [get_recent_customer_interactions] returns the one page of the
    query: as many items as the smallest of [count], the number of
    items the page holds and the number of interactions stored for the
    customer (so exactly [min(count, stored)] when the page holds that
    many), in strictly decreasing order of date, and they are the
    latest ones: every interaction stored for the customer either is
    among the dates returned or is no newer than each item returned. *)
Theorem recent_interactions_are_latest cid N :
  0 < N →
  failure (dynamodb E)
    (Query (interactions_table self) (JStr cid) N) = None →
  let page :=
    page_items (dynamodb E) (Query (interactions_table self) (JStr cid) N) in
  let stored := length (partition E cid) in
  ∃ items,
    outcome (get_recent_customer_interactions E self (JStr cid) N) = Ok items
    ∧ length items = ((Z.to_nat N `min` page) `min` stored)%nat
    ∧ ((Z.to_nat N `min` stored ≤ page)%nat →
       length items = (Z.to_nat N `min` stored)%nat)
    ∧ dates_decreasing items
    ∧ ∀ date attrs,
        interactions (dynamodb E) !! (cid, date) = Some attrs →
        date ∈ date_of <$> items
        ∨ Forall (λ it, String.le date (date_of it)) items.
Proof.
  intros HN Hok page stored. eexists. split.
  { unfold get_recent_customer_interactions.
    erewrite outcome_try_ok; [done|]. by apply query_outcome. }
  fold page.
  set (l := merge_sort newer_first (partition E cid)).
  pose proof (sorted_partition_strict cid) as Hs. fold l in Hs.
  assert (length l = stored) as Hl.
  { subst l stored. by rewrite merge_sort_Permutation. }
  split; [|split; [|split]].
  - by rewrite length_map, length_take, Hl.
  - intros Hpage. rewrite length_map, length_take, Hl. lia.
  - unfold dates_decreasing.
    apply (StronglySorted_fmap _ (λ x y, newer_first x y ∧ x.1.2 ≠ y.1.2)).
    + intros x y H. by rewrite !date_of_projected.
    + by apply StronglySorted_take.
  - intros date attrs Hm.
    assert ((cid, date, attrs) ∈ l) as Hin.
    { subst l. rewrite merge_sort_Permutation. by apply partition_spec. }
    rewrite <- (take_drop (Z.to_nat N `min` page) l) in Hin, Hs.
    apply elem_of_app in Hin as [Hin|Hin].
    + left. apply list_elem_of_fmap. exists (projected (cid, date, attrs)).
      split; [by rewrite date_of_projected|].
      by apply list_elem_of_fmap_2.
    + right. apply Forall_fmap, Forall_forall. intros r Hr.
      destruct (StronglySorted_app_1_elem_of _ _ _ r (cid, date, attrs) Hs Hr Hin)
        as [Hle _].
      simpl. by rewrite date_of_projected.
Qed.
End latest.

(** X3, for the two latest interactions of customer [C1]. *)
Lemma recent_interactions_are_latest_witness :
  0 < 2
  ∧ failure (dynamodb Sample.env)
      (Query (interactions_table service) (JStr "C1") 2) = None
  ∧ ∃ items,
      outcome (get_recent_customer_interactions Sample.env service
                 (JStr "C1") 2) = Ok items
      ∧ length items
        = ((Z.to_nat 2
            `min` page_items (dynamodb Sample.env)
                    (Query (interactions_table service) (JStr "C1") 2))
           `min` length (partition Sample.env "C1"))%nat
      ∧ ((Z.to_nat 2 `min` length (partition Sample.env "C1")
          ≤ page_items (dynamodb Sample.env)
              (Query (interactions_table service) (JStr "C1") 2))%nat →
         length items
         = (Z.to_nat 2 `min` length (partition Sample.env "C1"))%nat)
      ∧ dates_decreasing items
      ∧ ∀ date attrs,
          interactions (dynamodb Sample.env) !! ("C1", date) = Some attrs →
          date ∈ date_of <$> items
          ∨ Forall (λ it, String.le date (date_of it)) items.
Proof.
  assert (0 < 2) as H2 by lia.
  split; [exact H2|]. split; [reflexivity|].
  exact (recent_interactions_are_latest Sample.env service "C1" 2 H2 eq_refl).
Defined.
